(** * The generate / verify / refine loop of the SQM project images generator

    A shallow embedding of the Python drivers under [src/agent]:
    - [generate_project.py]   (project showcase: hero shot, then every
                               other shot through the attempt loop),
    - [regenerate_single.py]  (single-shot regeneration and the in-place
                               manifest replacement),
    - [generate_images.py]    (the variation generator: the same attempt
                               loop with its own instruction and feedback
                               text),
    together with the two JSON documents they maintain in the job's output
    directory, [status.json] and [manifest.json].

    Conventions.
    - A Python [dict] with string keys is a [gmap string _]; a [dict] whose
      iteration order matters (the judge's [breakdown]) is an association
      list.
    - The image synthesizer and the image judge are external services: they
      are taken as functions indexed by the attempt number, so that two calls
      with the same instruction may answer differently.
    - [datetime.now()] is read from a clock kept in the modelled file system.
    - Python integers are [Z]. *)

From Stdlib Require Import ZArith Lia.
From stdpp Require Import gmap strings list pretty sorting.

Local Open Scope string_scope.
Local Open Scope Z_scope.
Local Open Scope list_scope.

(** ** JSON values and Python truthiness *)

Definition bytes := list Byte.byte.

(** The line feed of Python's ["\n"]. *)
Definition nl : string := String (Ascii.ascii_of_nat 10) EmptyString.

(** [sep.join(lines)] *)
Fixpoint join (sep : string) (lines : list string) : string :=
  match lines with
  | [] => ""
  | [x] => x
  | x :: rest => x +:+ sep +:+ join sep rest
  end.

(** The judge's [breakdown]: criterion name to sub-score, in the order the
    judge listed them. *)
Abbreviation breakdown := (list (string * Z)).

(** Leaves of the JSON documents the drivers write. *)
Inductive jval :=
| JNull
| JBool (b : bool)
| JInt (z : Z)
| JStr (s : string)
| JBreakdown (b : breakdown).

#[global] Instance jval_eq_dec : EqDecision jval.
Proof. solve_decision. Defined.

(** [bool(v)] for a JSON leaf. *)
Definition truthy (v : jval) : bool :=
  match v with
  | JNull => false
  | JBool b => b
  | JInt z => negb (z =? 0)%Z
  | JStr s => negb (String.eqb s "")
  | JBreakdown b => negb (bool_decide (b = []))
  end.

(** [bool(x)] for [Optional[bytes]]: [None] and [b""] are both false. *)
Definition bytes_truthy (x : option bytes) : bool :=
  match x with
  | Some (_ :: _) => true
  | _ => false
  end.

(** [bool(x)] for [Optional[str]]. *)
Definition str_truthy (x : option string) : bool :=
  match x with
  | Some s => negb (String.eqb s "")
  | None => false
  end.

(** One entry of [manifest["images"]]. *)
Abbreviation entry := (gmap string jval).

(** [img.get(key)] followed by a truth test. *)
Definition entry_flag (img : entry) (key : string) : bool :=
  match img !! key with
  | Some v => truthy v
  | None => false
  end.

(** ** The judge's answer *)

(** The dictionary returned by [verify_image] / [verify_interior_image]: the
    parsed JSON of the vision model, or the fallback of the [except] branch.
    Every key may be missing, the driver reads them with [.get]. *)
Record verification := Verification {
  v_total_score : option Z;
  v_breakdown : option breakdown;
  v_issues : option (list string);
  v_suggestions : option (list string)
}.

(** [verification.get("total_score", 0)] *)
Definition total_score (v : verification) : Z := default 0 (v_total_score v).

(** [verification.get("breakdown", {})] *)
Definition get_breakdown (v : verification) : breakdown := default [] (v_breakdown v).

(** The fallback of the [except] branch of both verifiers in
    [generate_project.py]. *)
Definition verification_error (msg : string) : verification :=
  Verification (Some 0) (Some []) (Some [msg]) (Some []).

(** ** Interior classification ([generate_project.py], l.527-542) *)

Definition INTERIOR_SHOT_IDS : list string :=
  [ "interior_living"; "interior_kitchen"; "interior_master";
    "interior_bathroom"; "spatial_staircase"; "spatial_window";
    "spatial_volume"; "lifestyle_morning"; "lifestyle_evening" ].

Definition is_interior_shot (shot_id : string) : bool :=
  bool_decide (shot_id ∈ INTERIOR_SHOT_IDS).

(** The two rubrics, named by their five criteria. *)
Inductive rubric := Exterior | Interior.

#[global] Instance rubric_eq_dec : EqDecision rubric.
Proof. solve_decision. Defined.

(** Criteria requested by [verify_image] (l.460-523) and by
    [verify_interior_image] (l.545-651) in their [output_format]. *)
Definition rubric_criteria (r : rubric) : list string :=
  match r with
  | Exterior =>
      [ "building_shape"; "architectural_style"; "materials_facade";
        "windows_openings"; "proportions" ]
  | Interior =>
      [ "interior_style_consistency"; "material_finish_quality";
        "lighting_appropriateness"; "spatial_quality";
        "project_context_match" ]
  end.

(** ** Fixing prompt ([generate_project.py], l.654-670) *)

Module FixingPrompt.

Definition fix_line (criterion : string) (score : Z) : string :=
  "<fix criterion='" +:+ criterion +:+ "' score='" +:+ pretty score
      +:+ "/20'>Improve this aspect significantly</fix>".

Definition issue_line (issue : string) : string :=
  "<issue>" +:+ issue +:+ "</issue>".

Definition suggestion_line (suggestion : string) : string :=
  "<suggestion>" +:+ suggestion +:+ "</suggestion>".

(** The three [for] loops, each appending to [lines]. *)
Definition append_fixes (lines : list string) (b : breakdown) : list string :=
  foldl (fun lines '(criterion, score) =>
    if (score <? 16)%Z then lines ++ [fix_line criterion score] else lines)
        lines b.

Definition append_issues (lines : list string) (issues : list string) : list string :=
  foldl (fun lines issue => lines ++ [issue_line issue]) lines issues.

Definition append_suggestions (lines : list string) (l : list string) : list string :=
  foldl (fun lines suggestion => lines ++ [suggestion_line suggestion]) lines l.

Definition fixing_lines (v : verification) : list string :=
  let lines := ["<fixes_required>"] in
  let lines := append_fixes lines (get_breakdown v) in
  let lines := append_issues lines (default [] (v_issues v)) in
  let lines := append_suggestions lines (default [] (v_suggestions v)) in
  lines ++ ["</fixes_required>"].

Definition build_fixing_prompt (v : verification) : string :=
  join nl (fixing_lines v).

End FixingPrompt.

(** ** The job directory: [status.json], [manifest.json] and image files *)

(** Values of [status.json]: leaves, and the mirrored image list. *)
Inductive sval :=
| SLeaf (v : jval)
| SImages (imgs : list entry).

Abbreviation status_doc := (gmap string sval).

(** [manifest.json]: the image list, the [updated_at] stamp, and the other
    top-level keys ([job_id], [type], [prompt], [suburb], [model],
    [created_at]).  Every writer of the repository emits ["images"]. *)
Record manifest := Manifest {
  m_meta : gmap string jval;
  m_images : list entry;
  m_updated_at : option string
}.

(** The output directory of one job.  [status_log] is a ghost field: every
    version of [status.json] written so far, oldest first. *)
Record world := World {
  status_json : option status_doc;
  manifest_json : option manifest;
  files : gmap string bytes;
  clock : nat;
  status_log : list status_doc
}.

Definition empty_world : world := World None None ∅ 0%nat [].

Definition tick (w : world) : world :=
  World (status_json w) (manifest_json w) (files w) (S (clock w)) (status_log w).

Definition write_status (s : status_doc) (w : world) : world :=
  World (Some s) (manifest_json w) (files w) (clock w) (status_log w ++ [s]).

Definition write_manifest (m : manifest) (w : world) : world :=
  World (status_json w) (Some m) (files w) (clock w) (status_log w).

Definition write_file (name : string) (data : bytes) (w : world) : world :=
  World (status_json w) (manifest_json w) (<[name := data]> (files w))
        (clock w) (status_log w).

Definition unlink_file (name : string) (w : world) : world :=
  World (status_json w) (manifest_json w) (delete name (files w))
        (clock w) (status_log w).

(** The [progress] key of one version of [status.json]. *)
Definition progress_of (s : status_doc) : option Z :=
  match s !! "progress" with
  | Some (SLeaf (JInt p)) => Some p
  | _ => None
  end.

Definition status_of (s : status_doc) : option string :=
  match s !! "status" with
  | Some (SLeaf (JStr p)) => Some p
  | _ => None
  end.

(** The progress values an observer polling [status.json] after every write
    would have read (versions without the key are left out). *)
Definition progress_history (w : world) : list Z :=
  omap progress_of (status_log w).

(** A list of integers never decreases from one element to the next. *)
Fixpoint nondecreasing (l : list Z) : bool :=
  match l with
  | x :: ((y :: _) as rest) => (x <=? y) && nondecreasing rest
  | _ => true
  end.

Section JobStore.

(** [datetime.now().isoformat()] at a given reading of the clock. *)
Variable isoformat : nat -> string.

(** [update_status] ([generate_project.py], l.72-86): merge-update, the
    new keys win, the absent ones are kept. *)
Definition update_status (status_data : status_doc) (w : world) : world :=
  let existing := default ∅ (status_json w) in
  let existing := status_data ∪ existing in
  let existing := <["updated_at" := SLeaf (JStr (isoformat (clock w)))]> existing in
  write_status existing (tick w).

(** [save_image_to_manifest] ([generate_project.py], l.89-116). *)
Definition save_image_to_manifest (job_id : string) (image_data : entry)
    (w : world) : world :=
  let fresh :=
    Manifest {[ "job_id" := JStr job_id;
      "created_at" := JStr (isoformat (clock w));
      "type" := JStr "project_showcase" ]} [] None in
  let w := tick w in
  let m := default fresh (manifest_json w) in
  let m := Manifest (m_meta m) (m_images m ++ [image_data])
      (Some (isoformat (clock w))) in
  let w := write_manifest m (tick w) in
  match status_json w with
  | Some status =>
    write_status (<["images" := SImages (m_images m)]> status) w
  | None => w
  end.

End JobStore.

(** ** The attempt loop

    [generate_project.main] (l.909-972), [regenerate_single.main]
    (l.453-509) and [generate_images.main] (l.284-333) run the same [while]
    loop; they differ in how the instruction is assembled from the feedback,
    in the text of the fixing prompt, in whether the interior branch exists,
    and in what they write to the job directory around the judge's call.
    The loop is written once over those four points. *)

(** Ghost record of one attempt: the instruction sent to the synthesizer, what
    came back, and, when an image came back, the rubric it was judged with and
    the judge's answer. *)
Record attempt_record := AttemptRecord {
  a_prompt : string;
  a_image : option bytes;
  a_judged : option (rubric * verification)
}.

(** The loop variables, in the order the source initialises them, the job
    directory, and the ghost list of attempts made so far (oldest first). *)
Record loop_vars := LoopVars {
  attempts : nat;
  best_score : Z;
  best_image_data : option bytes;
  best_breakdown : option breakdown;
  fixing_prompt : option string;
  wld : world;
  history : list attempt_record
}.

(** The scores the judge returned during a shot's attempts. *)
Definition judged_scores (h : list attempt_record) : list Z :=
  omap (fun a => (fun '(_, v) => total_score v) <$> a_judged a) h.

(** The attempts whose synthesis produced an image. *)
Definition produced_image (a : attempt_record) : bool := bytes_truthy (a_image a).

Section RefinementLoop.

Variables (MAX_REGEN_ATTEMPTS VERIFICATION_THRESHOLD : Z).

(** The synthesizer and the two judges, at a given attempt number. *)
Variable generate_image : nat -> string -> option bytes.
Variable verify_image : nat -> bytes -> verification.
Variable verify_interior_image : nat -> bytes -> verification.

(** The four points where the drivers differ. *)
Variable assemble : option string -> string.
Variable build_fixing_prompt : verification -> string.
Variable interior : bool.
Variable before_verify : bytes -> world -> world.
Variable after_verify : world -> world.

Definition initial_vars (w : world) : loop_vars :=
  LoopVars 0 0 None None None w [].

(** One iteration of the body; the boolean is [true] when the body left the
    loop through [break]. *)
Definition attempt (st : loop_vars) : loop_vars * bool :=
  let attempts := S (attempts st) in
  let variation_prompt := assemble (fixing_prompt st) in
  let image_data := generate_image attempts variation_prompt in
  if negb (bytes_truthy image_data) then
    (* continue *)
    (LoopVars attempts (best_score st) (best_image_data st)
      (best_breakdown st) (fixing_prompt st) (wld st)
      (history st ++ [AttemptRecord variation_prompt image_data None]),
      false)
  else
    let image := default [] image_data in
    let w := before_verify image (wld st) in
    let profile := if interior then Interior else Exterior in
    let verification :=
      if interior then verify_interior_image attempts image
      else verify_image attempts image in
    let score := total_score verification in
    let better := score >? best_score st in
    let best_score := if better then score else best_score st in
    let best_image_data := if better then image_data else best_image_data st in
    let best_breakdown :=
      if better then Some (get_breakdown verification) else best_breakdown st in
    let w := after_verify w in
    let history :=
      history st ++
          [AttemptRecord variation_prompt image_data (Some (profile, verification))] in
    if score >? VERIFICATION_THRESHOLD then
      (* break *)
      (LoopVars attempts best_score best_image_data best_breakdown
        (fixing_prompt st) w history, true)
    else
      (LoopVars attempts best_score best_image_data best_breakdown
        (Some (build_fixing_prompt verification)) w history, false).

(** [while attempts < MAX_REGEN_ATTEMPTS: ...] *)
Fixpoint while_attempts (fuel : nat) (st : loop_vars) : loop_vars :=
  match fuel with
  | O => st
  | S fuel =>
    if Z.of_nat (attempts st) <? MAX_REGEN_ATTEMPTS then
      let '(st, broke) := attempt st in
      if broke then st else while_attempts fuel st
    else st
  end.

(** The loop from its initial variables.  [attempts] grows by one per
    iteration, so [MAX_REGEN_ATTEMPTS] iterations always suffice (see
    [while_attempts_fuel]). *)
Definition refine (w : world) : loop_vars :=
  while_attempts (Z.to_nat MAX_REGEN_ATTEMPTS) (initial_vars w).

(** [low_confidence] as computed after the loop. *)
Definition low_confidence_of (st : loop_vars) : bool :=
  best_score st <=? VERIFICATION_THRESHOLD.

End RefinementLoop.

(** ** The shot plan ([prompts/shot_types.py]) *)

(** One element of [SHOT_TYPES]; the prompt text of a shot is left to the
    prompt builder. *)
Record shot := Shot {
  shot_id : string;
  shot_category : string;
  shot_name : string;
  shot_order : Z;
  shot_is_hero : bool
}.

Definition SHOT_TYPES : list shot :=
  [ Shot "hero_facade" "hero_shots" "Primary Facade" 1 true;
    Shot "hero_twilight" "hero_shots" "Twilight Hero" 2 true;
    Shot "hero_elevated" "hero_shots" "Elevated 3/4 Angle" 3 true;
    Shot "context_street" "site_context" "Street Scene" 4 false;
    Shot "context_aerial" "site_context" "Aerial/Drone View" 5 false;
    Shot "context_approach" "site_context" "Pedestrian Approach" 6 false;
    Shot "feature_entry" "architectural_features" "Entry Threshold" 7 false;
    Shot "feature_material" "architectural_features" "Material Detail" 8 false;
    Shot "feature_signature" "architectural_features" "Signature Element" 9 false;
    Shot "interior_living" "interior_spaces" "Living to Outdoor" 10 false;
    Shot "interior_kitchen" "interior_spaces" "Kitchen" 11 false;
    Shot "interior_master" "interior_spaces" "Master Suite" 12 false;
    Shot "interior_bathroom" "interior_spaces" "Bathroom" 13 false;
    Shot "spatial_staircase" "spatial_experience" "Staircase Void" 14 false;
    Shot "spatial_window" "spatial_experience" "Window Moment" 15 false;
    Shot "spatial_volume" "spatial_experience" "Volume Shot" 16 false;
    Shot "lifestyle_morning" "lifestyle_atmosphere" "Morning Light" 17 false;
    Shot "lifestyle_evening" "lifestyle_atmosphere" "Evening Entertaining" 18 false ].

Definition MULTI_UNIT_EXTRA_SHOTS : list shot :=
  [ Shot "multi_unit_variety" "architectural_features" "Unit Variety" 19 false;
    Shot "multi_shared_spaces" "lifestyle_atmosphere" "Shared Spaces" 20 false ].

Definition order_le (a b : shot) : Prop := shot_order a <= shot_order b.

#[global] Instance order_le_dec : RelDecision order_le.
Proof. intros a b. unfold order_le. apply _. Defined.

(** [sorted(l, key=lambda x: x["order"])] *)
Definition sorted_by_order (l : list shot) : list shot :=
  merge_sort order_le l.

Definition get_all_shots_ordered : list shot := sorted_by_order SHOT_TYPES.

Definition get_shot_by_id (id : string) : option shot :=
  List.find (fun s => String.eqb (shot_id s) id) SHOT_TYPES.

Definition is_multi_unit (project_type : string) (num_units : Z) : bool :=
  String.eqb project_type "apartments"
  || (String.eqb project_type "townhouses" && (num_units >=? 3)).

Definition get_shots_for_project_type (project_type : string) (num_units : Z)
    : list shot :=
  let base_shots := get_all_shots_ordered in
  if is_multi_unit project_type num_units
  then base_shots ++ sorted_by_order MULTI_UNIT_EXTRA_SHOTS
  else base_shots.

(** [get_aspect_ratio_for_shot] ([generate_project.py], l.331-358). *)
Definition get_aspect_ratio_for_shot (id : string) : string :=
  let landscape_shots :=
    [ "hero_facade"; "hero_twilight"; "hero_elevated"; "context_street";
      "interior_living"; "interior_kitchen"; "interior_master";
      "lifestyle_morning"; "lifestyle_evening";
      "multi_unit_variety"; "multi_shared_spaces" ] in
  let square_shots := [ "feature_material" ] in
  let portrait_shots := [ "spatial_staircase"; "spatial_volume" ] in
  if bool_decide (id ∈ landscape_shots) then "16:9"
  else if bool_decide (id ∈ square_shots) then "1:1"
  else if bool_decide (id ∈ portrait_shots) then "3:4"
  else "4:3".

(** ** The project driver ([generate_project.py], [main], l.673-1017) *)

Module GenerateProject.

Definition IMAGE_MODEL : string := "gemini-3-pro-image-preview".

(** What [parse_user_prompt] extracted; [None] stands for a missing key or
    a JSON [null]. *)
Record parsed_prompt := Parsed {
    p_project_type : option string;
    p_num_units : option Z
    }.

(** [int((completed / total_shots) * 100)].  Python divides in floating
    point and truncates; for the two plan sizes (18 and 20) and every count
    from 0 to the plan size this is the integer quotient below. *)
Definition progress_percent (completed total_shots : Z) : Z :=
  completed * 100 / total_shots.

Definition leaf_str (s : string) : sval := SLeaf (JStr s).
Definition leaf_int (z : Z) : sval := SLeaf (JInt z).

Section Driver.

Variable isoformat : nat -> string.
(** [datetime.now().strftime("%Y%m%d_%H%M%S")] *)
Variable strftime : nat -> string.

Variables (MAX_REGEN_ATTEMPTS VERIFICATION_THRESHOLD : Z).

(** The synthesizer and the judges, per shot and attempt number. *)
Variable generate_image : string -> nat -> string -> option bytes.
Variable verify_image : string -> nat -> bytes -> verification.
Variable verify_interior_image : string -> nat -> bytes -> verification.

(** The prompt builders ([build_hero_generation_prompt],
    [build_variation_prompt]); their text is opaque to the driver. *)
Variable hero_prompt : string.
Variable build_variation_prompt : shot -> string.

Variables (user_prompt job_id : string).

(** l.923-924: the fixing prompt is appended to the variation prompt. *)
Definition assemble (base : string) (fixing_prompt : option string) : string :=
  if str_truthy fixing_prompt
  then base +:+ nl +:+ nl +:+ default "" fixing_prompt
  else base.

Definition temp_name (id : string) : string := "temp_" +:+ id +:+ ".png".

(** l.937-947: the candidate is saved for the judge and the status becomes
    [verifying]. *)
Definition before_verify (s : shot) (image : bytes) (w : world) : world :=
  let w := write_file (temp_name (shot_id s)) image w in
  update_status isoformat
      {[ "status" := leaf_str "verifying";
        "message" := leaf_str ("Verifying " +:+ shot_name s +:+ "...") ]} w.

(** l.965 *)
Definition after_verify (s : shot) (w : world) : world :=
  unlink_file (temp_name (shot_id s)) w.

(** l.909-972 for one shot. *)
Definition refine_shot (s : shot) (w : world) : loop_vars :=
  refine MAX_REGEN_ATTEMPTS VERIFICATION_THRESHOLD
      (generate_image (shot_id s))
      (verify_image (shot_id s))
      (verify_interior_image (shot_id s))
      (assemble (build_variation_prompt s))
      FixingPrompt.build_fixing_prompt
      (is_interior_shot (shot_id s))
      (before_verify s) (after_verify s) w.

(** The manifest entry of l.987-1001. *)
Definition image_entry (s : shot) (completed : Z) (filename : string)
    (st : loop_vars) (low_confidence : bool) (created_at : string) : entry :=
  list_to_map
      [ ("id", JStr (job_id +:+ "_" +:+ pretty (completed + 1)));
        ("filename", JStr filename);
        ("url", JStr ("/api/images/" +:+ job_id +:+ "/" +:+ filename));
        ("variationType", JStr (shot_id s));
        ("category", JStr (shot_category s));
        ("name", JStr (shot_name s));
        ("isHero", JBool false);
        ("consistencyScore", JInt (best_score st));
        ("attempts", JInt (Z.of_nat (attempts st)));
        ("lowConfidence", JBool low_confidence);
        ("scoreBreakdown", from_option JBreakdown JNull (best_breakdown st));
        ("aspectRatio", JStr (get_aspect_ratio_for_shot (shot_id s)));
        ("created_at", JStr created_at) ].

(** l.974-1006: store the best candidate, or skip the shot. *)
Definition store_best (s : shot) (timestamp : string) (completed : Z)
    (st : loop_vars) : world * Z :=
  let w := wld st in
  if bytes_truthy (best_image_data st) then
    let low_confidence := false in
    let low_confidence :=
      if best_score st <=? VERIFICATION_THRESHOLD then true else low_confidence in
    let filename := shot_id s +:+ "_" +:+ timestamp +:+ ".png" in
    let w := write_file filename (default [] (best_image_data st)) w in
    let e := image_entry s completed filename st low_confidence
        (isoformat (clock w)) in
    let w := save_image_to_manifest isoformat job_id e (tick w) in
    (w, completed + 1)
  else
    (* SKIPPED - no image generated *)
    (w, completed).

(** One iteration of [for i, shot in enumerate(shots_list)] (l.888-1006). *)
Definition process_shot (timestamp : string) (total_shots : Z)
    (acc : world * Z) (s : shot) : world * Z :=
  let '(w, completed) := acc in
  if String.eqb (shot_id s) "hero_facade" then acc
  else
    let w :=
      update_status isoformat
          {[ "status" := leaf_str "generating";
            "progress" := leaf_int (progress_percent completed total_shots);
            "currentImage" := leaf_int (completed + 1);
            "totalImages" := leaf_int total_shots;
            "currentVariation" := leaf_str (shot_id s);
            "message" := leaf_str ("Generating " +:+ shot_name s +:+ "...") ]} w in
    store_best s timestamp completed (refine_shot s w).

(** The hero entry (l.803-816 and l.862-875). *)
Definition hero_entry (hero_filename created_at : string) : entry :=
  list_to_map
      [ ("id", JStr (job_id +:+ "_1"));
        ("filename", JStr hero_filename);
        ("url", JStr ("/api/images/" +:+ job_id +:+ "/" +:+ hero_filename));
        ("variationType", JStr "hero_facade");
        ("category", JStr "hero_shots");
        ("name", JStr "Primary Facade");
        ("isHero", JBool true);
        ("consistencyScore", JInt 100);
        ("attempts", JInt 1);
        ("lowConfidence", JBool false);
        ("aspectRatio", JStr (get_aspect_ratio_for_shot "hero_facade"));
        ("created_at", JStr created_at) ].

(** l.778-828: a pre-approved hero is copied into the job directory and
    entered in the manifest unless an entry flagged [isHero] is there. *)
Definition use_approved_hero (total_shots : Z) (hero_filename : string)
    (hero_data : bytes) (w : world) : world :=
  let w :=
    update_status isoformat
        {[ "status" := leaf_str "generating";
          "progress" := leaf_int 10;
          "currentImage" := leaf_int 1;
          "totalImages" := leaf_int total_shots;
          "currentVariation" := leaf_str "hero_facade";
          "message" := leaf_str "Using approved hero image..." ]} w in
  let w := write_file hero_filename hero_data w in
  let e := hero_entry hero_filename (isoformat (clock w)) in
  let w := tick w in
  match manifest_json w with
  | Some existing_manifest =>
    if existsb (fun img => entry_flag img "isHero") (m_images existing_manifest)
    then w
    else save_image_to_manifest isoformat job_id e w
  | None => save_image_to_manifest isoformat job_id e w
  end.

(** l.830-876: a fresh hero is synthesized once and never judged; the
    boolean is [false] for the early [return] after the status became
    [error]. *)
Definition generate_hero (timestamp : string) (w : world) : world * bool :=
  let w :=
    update_status isoformat
        {[ "status" := leaf_str "generating_hero";
          "progress" := leaf_int 5;
          "currentImage" := leaf_int 1;
          "totalImages" := leaf_int 18;
          "currentVariation" := leaf_str "hero_facade";
          "message" := leaf_str "Generating primary facade (hero image)..." ]} w in
  let hero_image_data := generate_image "hero_facade" 1%nat hero_prompt in
  if negb (bytes_truthy hero_image_data) then
    (update_status isoformat
      {[ "status" := leaf_str "error";
        "message" := leaf_str "Failed to generate hero image" ]} w,
      false)
  else
    let hero_filename := "hero_facade_" +:+ timestamp +:+ ".png" in
    let w := write_file hero_filename (default [] hero_image_data) w in
    let e := hero_entry hero_filename (isoformat (clock w)) in
    (save_image_to_manifest isoformat job_id e (tick w), true).

(** l.704-776 of [main]: first status, the plan, the empty manifest and
    the timestamp used in file names.  [project_type] is the dropdown
    override and [parsed] what the text model extracted from the prompt
    (the manifest keys [parsed] and [suburb], which only feed the prompt
    builders, are left out). *)
Definition start_job (project_type : option string) (parsed : parsed_prompt)
    (w : world) : world * list shot * string :=
  let w :=
    update_status isoformat
        {[ "status" := leaf_str "parsing";
          "progress" := leaf_int 2;
          "currentImage" := leaf_int 0;
          "totalImages" := leaf_int 18;
          "message" := leaf_str "Analyzing project description...";
          "prompt" := leaf_str user_prompt;
          "model" := leaf_str IMAGE_MODEL ]} w in
  let parsed_project_type :=
    if str_truthy project_type then project_type else p_project_type parsed in
  let project_type_final := default "dual_occupancy" parsed_project_type in
  let num_units :=
    match p_num_units parsed with
    | Some n => if n =? 0 then 2 else n
    | None => 2
    end in
  let shots_list := get_shots_for_project_type project_type_final num_units in
  let total_shots := Z.of_nat (length shots_list) in
  let w :=
    update_status isoformat
        {[ "totalImages" := leaf_int total_shots;
          "message" := leaf_str "Project parsed, starting generation..." ]} w in
  let m :=
    Manifest
        (list_to_map
          [ ("job_id", JStr job_id); ("type", JStr "project_showcase");
            ("prompt", JStr user_prompt); ("model", JStr IMAGE_MODEL);
            ("created_at", JStr (isoformat (clock w))) ])
                [] None in
  let w := write_manifest m (tick w) in
  let timestamp := strftime (clock w) in
  (tick w, shots_list, timestamp).

(** l.886-1006: the [for] loop over the plan, [completed] starting at 1. *)
Definition run_shots (timestamp : string) (shots_list : list shot) (w : world)
    : world * Z :=
  foldl (process_shot timestamp (Z.of_nat (length shots_list))) (w, 1) shots_list.

(** l.1009-1015: the final status. *)
Definition finish (total_shots completed : Z) (w : world) : world :=
  update_status isoformat
      {[ "status" := leaf_str "complete";
        "progress" := leaf_int 100;
        "currentImage" := leaf_int total_shots;
        "totalImages" := leaf_int total_shots;
        "message" := leaf_str ("Generated " +:+ pretty completed +:+ " images") ]} w.

(** [main].  [from_hero] is the name and content of the pre-approved hero
    file when the path was given and exists
    ([from_hero and os.path.exists(from_hero)]). *)
Definition main (project_type : option string) (parsed : parsed_prompt)
    (from_hero : option (string * bytes)) (w : world) : world :=
  let '(w, shots_list, timestamp) := start_job project_type parsed w in
  let total_shots := Z.of_nat (length shots_list) in
  let '(w, hero_ok) :=
    match from_hero with
    | Some (hero_filename, hero_data) =>
      (use_approved_hero total_shots hero_filename hero_data w, true)
    | None => generate_hero timestamp w
    end in
  if negb hero_ok then w
  else
    let '(w, completed) := run_shots timestamp shots_list w in
    finish total_shots completed w.

End Driver.

End GenerateProject.

(** ** Single-shot regeneration ([regenerate_single.py]) *)

(** How a Python call ends: normally, or by an exception / [sys.exit]. *)
Inductive py_error :=
| FileNotFoundError
| KeyError (key : string)
| TypeError
| SystemExit (code : Z).

Inductive outcome (A : Type) :=
| Ok (a : A)
| Raise (e : py_error).

Arguments Ok {A} a.
Arguments Raise {A} e.

Module RegenerateSingle.

(** [build_fixing_prompt] of this script (l.355-371): the same three loops
    with a shorter directive. *)
Definition fix_line (criterion : string) (score : Z) : string :=
  "<fix criterion='" +:+ criterion +:+ "' score='" +:+ pretty score
      +:+ "/20'>Improve this</fix>".

Definition build_fixing_prompt (v : verification) : string :=
  let lines := ["<fixes_required>"] in
  let lines :=
    foldl (fun lines '(criterion, score) =>
      if score <? 16 then lines ++ [fix_line criterion score] else lines)
          lines (get_breakdown v) in
  let lines := FixingPrompt.append_issues lines (default [] (v_issues v)) in
  let lines := FixingPrompt.append_suggestions lines (default [] (v_suggestions v)) in
  join nl (lines ++ ["</fixes_required>"]).

(** The search of l.382-383: index and value of the first entry whose
    [variationType] is [variation_type], scanning from index [i]. *)
Fixpoint find_variation (variation_type : string) (i : nat) (images : list entry)
    : option (nat * entry) :=
  match images with
  | [] => None
  | img :: rest =>
    if bool_decide (img !! "variationType" = Some (JStr variation_type))
    then Some (i, img)
    else find_variation variation_type (S i) rest
  end.

(** The [for] loop of l.382-387 on the image list: the first match is
    overwritten by the new entry carrying the old [id]; [img["id"]] raises
    when the matched entry has no such key. *)
Definition replace_entry (variation_type : string) (new_image_data : entry)
    (images : list entry) : outcome (list entry) :=
  match find_variation variation_type 0 images with
  | Some (i, img) =>
    match img !! "id" with
    | Some id => Ok (<[i := <["id" := id]> new_image_data]> images)
    | None => Raise (KeyError "id")
    end
  | None => Ok images
  end.

Section Regenerate.

Variable isoformat : nat -> string.
Variable strftime : nat -> string.
Variables (MAX_REGEN_ATTEMPTS VERIFICATION_THRESHOLD : Z).
Variable generate_image : nat -> string -> option bytes.
Variable verify_image : nat -> bytes -> verification.
Variable verify_interior_image : nat -> bytes -> verification.
Variable build_variation_prompt : shot -> string.

(** [update_manifest] (l.374-401). *)
Definition update_manifest (variation_type : string) (new_image_data : entry)
    (w : world) : outcome world :=
  match manifest_json w with
  | None => Raise FileNotFoundError
  | Some m =>
    match replace_entry variation_type new_image_data (m_images m) with
    | Raise e => Raise e
    | Ok images =>
      let m := Manifest (m_meta m) images (Some (isoformat (clock w))) in
      let w := write_manifest m (tick w) in
      match status_json w with
      | Some status =>
        Ok (write_status (<["images" := SImages (m_images m)]> status) w)
      | None => Ok w
      end
    end
  end.

Definition temp_name (variation_type : string) : string :=
  "temp_regen_" +:+ variation_type +:+ ".png".

(** l.453-509 *)
Definition refine_shot (s : shot) (variation_type : string) (w : world)
    : loop_vars :=
  refine MAX_REGEN_ATTEMPTS VERIFICATION_THRESHOLD
      generate_image verify_image verify_interior_image
      (GenerateProject.assemble (build_variation_prompt s))
      build_fixing_prompt
      (is_interior_shot variation_type)
      (fun image w => write_file (temp_name variation_type) image w)
      (fun w => unlink_file (temp_name variation_type) w) w.

(** The entry of l.525-538: no [id] (it is taken over from the replaced
    entry) and no [created_at]. *)
Definition image_entry (job_id : string) (s : shot) (variation_type : string)
    (filename : string) (st : loop_vars) (low_confidence : bool)
    (regenerated_at : string) : entry :=
  list_to_map
      [ ("filename", JStr filename);
        ("url", JStr ("/api/images/" +:+ job_id +:+ "/" +:+ filename));
        ("variationType", JStr variation_type);
        ("category", JStr (shot_category s));
        ("name", JStr (shot_name s));
        ("isHero", JBool false);
        ("consistencyScore", JInt (best_score st));
        ("attempts", JInt (Z.of_nat (attempts st)));
        ("lowConfidence", JBool low_confidence);
        ("scoreBreakdown", from_option JBreakdown JNull (best_breakdown st));
        ("aspectRatio", JStr (get_aspect_ratio_for_shot variation_type));
        ("regenerated_at", JStr regenerated_at) ].

Definition output_name (variation_type : string) (w : world) : string :=
  variation_type +:+ "_" +:+ strftime (clock w) +:+ ".png".

(** l.511-545: save the best image and replace the manifest entry. *)
Definition save_best (job_id : string) (s : shot) (variation_type : string)
    (st : loop_vars) : outcome world :=
  let w := wld st in
  if bytes_truthy (best_image_data st) then
    let low_confidence := best_score st <=? VERIFICATION_THRESHOLD in
    let filename := output_name variation_type w in
    let w := tick w in
    let w := write_file filename (default [] (best_image_data st)) w in
    let e := image_entry job_id s variation_type filename st low_confidence
        (isoformat (clock w)) in
    update_manifest variation_type e (tick w)
  else Raise (SystemExit 1).

(** [main] (l.404-545). *)
Definition main (job_id variation_type : string) (w : world) : outcome world :=
  match manifest_json w with
  | None => Raise (SystemExit 1)
  | Some m =>
    match get_shot_by_id variation_type with
    | None => Raise (SystemExit 1)
    | Some s =>
      match List.find (fun img => entry_flag img "isHero") (m_images m) with
      | None => Raise (SystemExit 1)
      | Some hero_image =>
        match hero_image !! "filename" with
        | None => Raise (KeyError "filename")
        | Some (JStr hero_filename) =>
          if bool_decide (is_Some (files w !! hero_filename)) then
            save_best job_id s variation_type
                (refine_shot s variation_type w)
          else Raise (SystemExit 1)
        | Some _ => Raise TypeError
        end
      end
    end
  end.

End Regenerate.

End RegenerateSingle.


(** ** The variation generator ([generate_images.py]) *)

Module GenerateImages.

(** [build_fixing_prompt] of this script (l.231-246): no enclosing tags, so
    the result is empty when the judge found nothing to fix. *)
Definition build_fixing_prompt (v : verification) : string :=
  let lines := [] in
  let lines :=
    foldl (fun lines '(criterion, score) =>
      if score <? 16
      then lines ++ ["FIX " +:+ criterion +:+ ": scored " +:+ pretty score
        +:+ "/20 - improve this aspect"]
      else lines)
          lines (get_breakdown v) in
  let lines :=
    foldl (fun lines issue => lines ++ ["ISSUE: " +:+ issue])
        lines (default [] (v_issues v)) in
  let lines :=
    foldl (fun lines suggestion => lines ++ ["SUGGESTION: " +:+ suggestion])
        lines (default [] (v_suggestions v)) in
  join nl lines.

(** The instruction [generate_image] assembles (l.136-152) from the
    variation's text and the fixing prompt. *)
Definition instruction (base : string) (fixing_prompt : option string) : string :=
  if str_truthy fixing_prompt
  then base +:+ nl +:+ nl +:+ "FIXING INSTRUCTIONS:" +:+ nl +:+ default "" fixing_prompt
  else base.

Section Variations.

Variable isoformat : nat -> string.
Variables (MAX_REGEN_ATTEMPTS VERIFICATION_THRESHOLD : Z).
Variable generate_image : nat -> string -> option bytes.
Variable verify_image : nat -> bytes -> verification.

(** l.284-333 for one variation: every variation is judged by
    [verify_image], there is no interior branch. *)
Definition refine_variation (variation_type base : string) (w : world) : loop_vars :=
  refine MAX_REGEN_ATTEMPTS VERIFICATION_THRESHOLD
      generate_image verify_image verify_image
      (instruction base) build_fixing_prompt false
      (fun image w =>
        update_status isoformat
        {[ "status" := SLeaf (JStr "verifying");
          "message" := SLeaf (JStr ("Verifying " +:+ variation_type +:+ "...")) ]}
        (write_file ("temp_" +:+ variation_type +:+ ".png") image w))
            (fun w => unlink_file ("temp_" +:+ variation_type +:+ ".png") w) w.

End Variations.

(** [VARIATIONS] (l.36-69): the type and the prompt of each variation. *)
Definition VARIATIONS : list (string * string) :=
  [ ("aerial_view",
     "Bird's eye view from above, looking down at the building and its surroundings");
    ("street_level",
     "Ground level perspective looking up at the building facade, pedestrian viewpoint");
    ("corner_view",
     "45-degree diagonal angle showing two sides of the building");
    ("golden_hour",
     "Same angle as hero but during golden hour sunset with warm lighting");
    ("night_scene",
     "Night time view with interior lights on, dramatic lighting");
    ("detail_closeup",
     "Close-up of an interesting architectural detail, material texture, or design element");
    ("with_landscaping",
     "Building shown with surrounding landscape, gardens, and environment");
    ("with_context",
     "Building in its urban or natural context, showing relationship to surroundings") ].

(** [s.replace('_', ' ')] *)
Fixpoint spaced (s : string) : string :=
  match s with
  | EmptyString => EmptyString
  | String c rest =>
    (* 95 is the underscore, 32 the space *)
    String (if Ascii.eqb c (Ascii.ascii_of_nat 95) then Ascii.ascii_of_nat 32 else c)
        (spaced rest)
  end.

(** The text [generate_image] starts from (l.136-150). *)
Definition variation_prompt (variation_type prompt : string) : string :=
  nl +:+ "Generate an architectural visualization based on this reference building."
    +:+ nl +:+ nl +:+ "VARIATION TYPE: " +:+ variation_type
    +:+ nl +:+ nl +:+ "INSTRUCTIONS:" +:+ nl +:+ prompt
    +:+ nl +:+ nl +:+ "REQUIREMENTS:"
    +:+ nl +:+ "- The generated image must show the SAME building as the reference"
    +:+ nl +:+ "- Maintain architectural consistency: shape, style, materials, windows, proportions"
    +:+ nl +:+ "- Professional architecture firm quality"
    +:+ nl +:+ "- High quality, photorealistic rendering" +:+ nl.

(** [int((i / total_variations) * 100)]: with 8 variations the quotient
    [i / 8] and its product with 100 are exact in floating point, so the
    truncation is the integer quotient below. *)
Definition progress_percent (i total_variations : Z) : Z :=
  i * 100 / total_variations.

Section Driver.

Variable isoformat : nat -> string.
Variable strftime : nat -> string.
Variables (MAX_REGEN_ATTEMPTS VERIFICATION_THRESHOLD : Z).

(** The synthesizer and the judge, per variation and attempt number. *)
Variable generate_image : string -> nat -> string -> option bytes.
Variable verify_image : string -> nat -> bytes -> verification.

Variable job_id : string.

(** [save_image_to_manifest] of this script (l.87-110): as in
    [generate_project.py], but a manifest created here has no [type]. *)
Definition save_image_to_manifest (image_data : entry) (w : world) : world :=
  let fresh :=
    Manifest {[ "job_id" := JStr job_id;
      "created_at" := JStr (isoformat (clock w)) ]} [] None in
  let w := tick w in
  let m := default fresh (manifest_json w) in
  let m := Manifest (m_meta m) (m_images m ++ [image_data])
      (Some (isoformat (clock w))) in
  let w := write_manifest m (tick w) in
  match status_json w with
  | Some status =>
    write_status (<["images" := SImages (m_images m)]> status) w
  | None => w
  end.

(** The entry of l.340-350: its [id] counts the images stored by this
    run. *)
Definition image_entry (variation_type filename : string) (completed : Z)
    (st : loop_vars) (low_confidence : bool) (created_at : string) : entry :=
  list_to_map
      [ ("id", JStr (job_id +:+ "_" +:+ pretty (completed + 1)));
        ("filename", JStr filename);
        ("url", JStr ("/api/images/" +:+ job_id +:+ "/" +:+ filename));
        ("variationType", JStr variation_type);
        ("consistencyScore", JInt (best_score st));
        ("attempts", JInt (Z.of_nat (attempts st)));
        ("lowConfidence", JBool low_confidence);
        ("scoreBreakdown", from_option JBreakdown JNull (best_breakdown st));
        ("created_at", JStr created_at) ].

(** l.327-356: store the best candidate, or skip the variation. *)
Definition store_best (variation_type : string) (completed : Z) (st : loop_vars)
    : world * Z :=
  let w := wld st in
  if bytes_truthy (best_image_data st) then
    let low_confidence := false in
    let low_confidence :=
      if best_score st <=? VERIFICATION_THRESHOLD then true else low_confidence in
    let filename := variation_type +:+ "_" +:+ strftime (clock w) +:+ ".png" in
    let w := tick w in
    let w := write_file filename (default [] (best_image_data st)) w in
    let e := image_entry variation_type filename completed st low_confidence
        (isoformat (clock w)) in
    (save_image_to_manifest e (tick w), completed + 1)
  else
    (* SKIPPED - no image generated *)
    (w, completed).

(** One iteration of [for i, variation in enumerate(VARIATIONS)]
    (l.267-356). *)
Definition process_variation (total_variations : Z) (acc : world * Z)
    (iv : nat * (string * string)) : world * Z :=
  let '(w, completed) := acc in
  let '(i, (variation_type, prompt)) := iv in
  let w :=
    update_status isoformat
        {[ "status" := SLeaf (JStr "generating");
          "progress" := SLeaf (JInt (progress_percent (Z.of_nat i) total_variations));
          "currentImage" := SLeaf (JInt (Z.of_nat i + 1));
          "totalImages" := SLeaf (JInt total_variations);
          "currentVariation" := SLeaf (JStr variation_type);
          "message" :=
            SLeaf (JStr ("Generating " +:+ spaced variation_type +:+ "...")) ]} w in
  store_best variation_type completed
      (refine_variation isoformat MAX_REGEN_ATTEMPTS VERIFICATION_THRESHOLD
        (generate_image variation_type) (verify_image variation_type)
        variation_type (variation_prompt variation_type prompt) w).

(** The loop over a list of variations, [completed] starting at 0. *)
Definition run_variations (variations : list (string * string)) (w : world)
    : world * Z :=
  foldl (process_variation (Z.of_nat (length variations))) (w, 0)
      (zip (seq 0 (length variations)) variations).

(** [main] (l.249-375).  [hero_exists] is
    [os.path.exists(hero_image_path)]. *)
Definition main (hero_exists : bool) (w : world) : world :=
  if negb hero_exists then
    update_status isoformat
        {[ "status" := SLeaf (JStr "error");
          "message" := SLeaf (JStr "Hero image not found") ]} w
  else
    let total_variations := Z.of_nat (length VARIATIONS) in
    let '(w, completed) := run_variations VARIATIONS w in
    update_status isoformat
        {[ "status" := SLeaf (JStr "complete");
          "progress" := SLeaf (JInt 100);
          "currentImage" := SLeaf (JInt total_variations);
          "totalImages" := SLeaf (JInt total_variations);
          "message" :=
            SLeaf (JStr ("Generated " +:+ pretty completed +:+ " images")) ]} w.

End Driver.

End GenerateImages.

(** ** The agent's storage tools ([tools/storage.py]) *)

Module Storage.

(** What a tool call returns: one of the two [success] dictionaries, or the
    dictionary with an [error].  The directory part of [stored_path] is
    left out. *)
Inductive tool_result :=
| Stored (stored_path url image_id : string)
| StatusUpdated
| Failed (error : string).

Section Tools.

Variable isoformat : nat -> string.
Variable strftime : nat -> string.

(** [store_image] (l.19-102).  [source] is the content of the file at
    [source_path], [None] when the path does not exist. *)
Definition store_image (job_id source_path : string) (source : option bytes)
    (variation_type : string) (consistency_score attempts : Z)
    (low_confidence : bool) (score_breakdown : option breakdown) (w : world)
    : world * tool_result :=
  let timestamp := strftime (clock w) in
  let w := tick w in
  let filename := variation_type +:+ "_" +:+ timestamp +:+ ".png" in
  match source with
  | None => (w, Failed ("Source image not found: " +:+ source_path))
  | Some data =>
    let w := write_file filename data w in
    let '(m, w) :=
      match manifest_json w with
      | Some m => (m, w)
      | None =>
        (Manifest {[ "job_id" := JStr job_id;
           "created_at" := JStr (isoformat (clock w)) ]} [] None, tick w)
      end in
    let image_id :=
      job_id +:+ "_" +:+ pretty (Z.of_nat (length (m_images m)) + 1) in
    let image_entry : entry :=
      list_to_map
          [ ("id", JStr image_id);
            ("filename", JStr filename);
            ("url", JStr ("/api/images/" +:+ job_id +:+ "/" +:+ filename));
            ("variationType", JStr variation_type);
            ("consistencyScore", JInt consistency_score);
            ("attempts", JInt attempts);
            ("lowConfidence", JBool low_confidence);
            ("scoreBreakdown", from_option JBreakdown JNull score_breakdown);
            ("created_at", JStr (isoformat (clock w))) ] in
    let w := tick w in
    let m := Manifest (m_meta m) (m_images m ++ [image_entry])
        (Some (isoformat (clock w))) in
    let w := write_manifest m (tick w) in
    (w, Stored filename ("/api/images/" +:+ job_id +:+ "/" +:+ filename) image_id)
  end.

(** [update_job_status] (l.105-156): the merge of [update_status], then
    the [images] key is overwritten by the manifest's list whenever there
    is a manifest. *)
Definition update_job_status (status_data : status_doc) (w : world)
    : world * tool_result :=
  let existing_status := default ∅ (status_json w) in
  let existing_status := status_data ∪ existing_status in
  let existing_status :=
    <["updated_at" := SLeaf (JStr (isoformat (clock w)))]> existing_status in
  let w := tick w in
  let existing_status :=
    match manifest_json w with
    | Some m => <["images" := SImages (m_images m)]> existing_status
    | None => existing_status
    end in
  (write_status existing_status w, StatusUpdated).

End Tools.

End Storage.

(** ** The inspiration flow ([generate_inspiration_hero.py]) *)

Module InspirationHero.

Definition IMAGE_MODEL : string := "gemini-3-pro-image-preview".

Section Flow.

Variable isoformat : nat -> string.
Variable strftime : nat -> string.

(** [generate_hero_image] (l.239-287): the synthesizer, given the prompt
    and the inspiration image when it could be attached; [None] also
    stands for a caught exception. *)
Variable generate_hero_image : string -> option bytes -> option bytes.

(** The text of [build_style_transfer_hero_prompt] and the function
    [build_regeneration_prompt_with_feedback]; both are opaque to [main]. *)
Variable style_transfer_prompt : string.
Variable build_regeneration_prompt_with_feedback : string -> string -> string.

(** [parsed.get("suburb") or suburb or "balwyn"] *)
Variable suburb_name : string.

Variable job_id : string.

(** [main] (l.290-467).  [inspiration] is the content of the file at
    [inspiration_path], [None] when there is no such file, and
    [inspiration_ext] its suffix.  The second component is the exception
    that ends the run, if any: [shutil.copy2] raises when the inspiration
    file is missing.  The keys of [manifest.json] and [status.json] whose
    values are nested dictionaries ([parsed], [inspiration], [hero]) are
    left out. *)
Definition main (inspiration : option bytes) (inspiration_ext : string)
    (user_prompt feedback : option string) (w : world)
    : world * option py_error :=
  let is_regeneration := match feedback with Some _ => true | None => false end in
  let status_type :=
    if is_regeneration then "regenerating_hero" else "generating_inspiration_hero" in
  let w :=
    update_status isoformat
        {[ "status" := SLeaf (JStr status_type);
          "progress" := SLeaf (JInt 5);
          "currentImage" := SLeaf (JInt 0);
          "totalImages" := SLeaf (JInt 18);
          "flowType" := SLeaf (JStr "inspiration");
          "message" :=
            SLeaf (JStr (if negb is_regeneration
                         then "Analyzing inspiration style..."
                         else "Regenerating hero with feedback...")) ]} w in
  let w :=
    update_status isoformat
        {[ "progress" := SLeaf (JInt 20);
          "message" := SLeaf (JStr "Parsing project requirements...") ]} w in
  let w :=
    update_status isoformat
        {[ "progress" := SLeaf (JInt 30);
          "message" := SLeaf (JStr "Generating hero image...") ]} w in
  let generation_prompt := style_transfer_prompt in
  let generation_prompt :=
    if str_truthy feedback
    then build_regeneration_prompt_with_feedback generation_prompt
           (default "" feedback)
    else generation_prompt in
  let hero_image_data := generate_hero_image generation_prompt inspiration in
  if negb (bytes_truthy hero_image_data) then
    (update_status isoformat
        {[ "status" := SLeaf (JStr "error");
          "message" :=
            SLeaf (JStr "Failed to generate hero image from inspiration") ]} w,
      None)
  else
    let timestamp := strftime (clock w) in
    let w := tick w in
    let hero_filename := "hero_facade_" +:+ timestamp +:+ ".png" in
    let w := write_file hero_filename (default [] hero_image_data) w in
    let inspiration_filename := "inspiration_" +:+ timestamp +:+ inspiration_ext in
    match inspiration with
    | None => (w, Some FileNotFoundError)
    | Some inspiration_data =>
      let w := write_file inspiration_filename inspiration_data w in
      let m :=
        Manifest
            (list_to_map
              [ ("job_id", JStr job_id); ("type", JStr "inspiration_showcase");
                ("flowType", JStr "inspiration");
                ("prompt", JStr (default "" user_prompt));
                ("suburb", JStr suburb_name); ("model", JStr IMAGE_MODEL);
                ("created_at", JStr (isoformat (clock w))) ])
                    [] None in
      let w := write_manifest m (tick (tick w)) in
      let w := tick w in
      (update_status isoformat
          {[ "status" := SLeaf (JStr "awaiting_approval");
            "progress" := SLeaf (JInt 10);
            "currentImage" := SLeaf (JInt 1);
            "totalImages" := SLeaf (JInt 18);
            "flowType" := SLeaf (JStr "inspiration");
            "message" :=
              SLeaf (JStr "Hero generated from inspiration - please review and approve")
          ]} w,
        None)
    end.

End Flow.

End InspirationHero.

(** ** Vocabulary for the properties of the attempt loop *)

(** The largest element of a list of scores, or 0 on the empty list: the
    value [best_score] holds after comparing each score in turn, starting
    from [best_score = 0]. *)
Definition max_score (l : list Z) : Z := foldr Z.max 0 l.

Section LoopSpec.

Variables (MAX T : Z).
Variable gen : nat -> string -> option bytes.
Variables (vi vii : nat -> bytes -> verification).
Variable asm : option string -> string.
Variable bfp : verification -> string.
Variable interior : bool.

(** The rubric and the judge the loop uses for this shot. *)
Definition profile_of : rubric := if interior then Interior else Exterior.

Definition judge (n : nat) (image : bytes) : verification :=
  if interior then vii n image else vi n image.

(** The feedback in force after the attempts [h]: the fixing prompt built
    from the last judged attempt, if any. *)
Definition feedback_after (h : list attempt_record) : option string :=
  foldl (fun fp a =>
    match a_judged a with
    | Some (_, v) => Some (bfp v)
    | None => fp
    end) None h.

(** The record [a] is what the body produces after the attempts [h]. *)
Definition record_ok (h : list attempt_record) (a : attempt_record) : Prop :=
  a_prompt a = asm (feedback_after h)
  /\ a_image a = gen (S (length h)) (a_prompt a)
  /\ a_judged a =
       if bytes_truthy (a_image a)
       then Some (profile_of, judge (S (length h)) (default [] (a_image a)))
       else None.

Definition history_ok (h : list attempt_record) : Prop :=
  forall i a, h !! i = Some a -> record_ok (take i h) a.

Definition all_failed (h : list attempt_record) : Prop :=
  Forall (fun x => x <= T) (judged_scores h).

(** What holds of the loop variables at every point. *)
Record loop_common (st : loop_vars) : Prop := LoopCommon {
  inv_len : length (history st) = attempts st;
  inv_bound : Z.of_nat (attempts st) <= Z.max 0 MAX;
  inv_best : best_score st = max_score (judged_scores (history st));
  inv_img : bytes_truthy (best_image_data st) = (0 <? best_score st);
  inv_cand :
    0 < best_score st ->
    exists a p v,
      a ∈ history st /\ a_image a = best_image_data st
      /\ a_judged a = Some (p, v) /\ total_score v = best_score st
      /\ best_breakdown st = Some (get_breakdown v);
  inv_hist : history_ok (history st)
}.

(** What holds in addition at the head of the loop. *)
Record loop_inv (st : loop_vars) : Prop := LoopInv {
  inv_common : loop_common st;
  inv_feedback : fixing_prompt st = feedback_after (history st);
  inv_failed : all_failed (history st)
}.

(** The two ways out of the loop. *)
Definition passed (st : loop_vars) : Prop :=
  exists h a p v,
    history st = h ++ [a] /\ a_judged a = Some (p, v)
    /\ T < total_score v /\ all_failed h.

Definition exhausted (st : loop_vars) : Prop :=
  ~ (Z.of_nat (attempts st) < MAX) /\ all_failed (history st).

Record loop_post (st : loop_vars) : Prop := LoopPost {
  post_common : loop_common st;
  post_exit : passed st \/ exhausted st
}.

End LoopSpec.

(** The image list of the manifest, empty when there is no manifest. *)
Definition images_of (w : world) : list entry :=
  default [] (m_images <$> manifest_json w).

(** [status.json] holds progress [p], the progress values written so far
    never decreased, and [p] is the last of them. *)
Definition progress_at (w : world) (p : Z) : Prop :=
  (exists doc, status_json w = Some doc /\ progress_of doc = Some p)
  /\ nondecreasing (progress_history w) = true
  /\ last (progress_history w) = Some p.

(** The shots of a plan that go through the attempt loop. *)
Definition loop_shots (shots : list shot) : list shot :=
  List.filter (fun s => negb (String.eqb (shot_id s) "hero_facade")) shots.

(** The [variationType] of each entry of an image list. *)
Definition variation_types (l : list entry) : list string :=
  omap (fun e : entry =>
          match e !! "variationType" with
          | Some (JStr id) => Some id
          | _ => None
          end) l.

(** [status.json] exists and its [images] key is the manifest's image
    list. *)
Definition mirrored (w : world) : Prop :=
  exists doc, status_json w = Some doc
              /\ doc !! "images" = Some (SImages (images_of w)).

(** The entries of an image list carry the ids [<job_id>_1], [<job_id>_2],
    ... in this order. *)
Definition numbered (job_id : string) (l : list entry) : Prop :=
  forall i e, l !! i = Some e ->
              e !! "id" = Some (JStr (job_id +:+ "_" +:+ pretty (Z.of_nat i + 1))).

(** ** Sequences of storage tool calls

    The storage tools are called one after the other on a job directory;
    a call is recorded with its arguments ([source] as in
    [Storage.store_image]). *)
Inductive tool_call :=
| StoreImage (source_path : string) (source : option bytes)
    (variation_type : string) (consistency_score attempts : Z)
    (low_confidence : bool) (score_breakdown : option breakdown)
| UpdateJobStatus (status_data : status_doc).

(** The job directory after one call, and after a sequence of calls. *)
Definition run_tool (isoformat strftime : nat -> string) (job_id : string)
    (w : world) (c : tool_call) : world :=
  match c with
  | StoreImage source_path source variation_type consistency_score attempts
      low_confidence score_breakdown =>
    (Storage.store_image isoformat strftime job_id source_path source
       variation_type consistency_score attempts low_confidence score_breakdown w).1
  | UpdateJobStatus status_data =>
    (Storage.update_job_status isoformat status_data w).1
  end.

Definition run_tools (isoformat strftime : nat -> string) (job_id : string)
    (calls : list tool_call) (w : world) : world :=
  foldl (run_tool isoformat strftime job_id) w calls.

(** The calls that store an image: [store_image] with an existing source. *)
Definition stores (c : tool_call) : bool :=
  match c with
  | StoreImage _ (Some _) _ _ _ _ _ => true
  | _ => false
  end.

(** ** Sample collaborators

    Concrete clocks, synthesizers and judges on which the drivers can be
    run. *)

Module Sample.

Definition isoformat (n : nat) : string := "2025-01-01T09:00:" +:+ pretty n.
Definition strftime (n : nat) : string := "20250101_0900" +:+ pretty n.

(** A two-byte image. *)
Definition image : bytes := [Byte.x89; Byte.x50].

Definition always_image : string -> nat -> string -> option bytes :=
  fun _ _ _ => Some image.

Definition never_image : string -> nat -> string -> option bytes :=
  fun _ _ _ => None.

(** A judge whose call always ends in the [except] branch. *)
Definition judge_error : string -> nat -> bytes -> verification :=
  fun _ _ _ => verification_error "Verification error".

(** A judge answering a bare total, by attempt number. *)
Definition scored (scores : list Z) : string -> nat -> bytes -> verification :=
  fun _ n _ => Verification (scores !! pred n) None None None.

(** A judge with a full critique on the first attempt and a pass on the
    second. *)
Definition critic : string -> nat -> bytes -> verification :=
  fun _ n _ =>
    match n with
    | 1%nat =>
      Verification (Some 55)
          (Some [("building_shape", 18); ("materials_facade", 9);
            ("proportions", 15); ("windows_openings", 16)])
                (Some ["roof pitch differs"])
                (Some ["match the brick colour"; "keep three storeys"])
    | _ => Verification (Some 90) None None None
    end.

Definition prompt_of (s : shot) : string := "shot:" +:+ shot_id s.

Definition street : shot := Shot "context_street" "site_context" "Street Scene" 4 false.
Definition kitchen : shot := Shot "interior_kitchen" "interior_spaces" "Kitchen" 11 false.

(** A job directory holding a hero entry, its file, and a kitchen entry. *)
Definition hero : entry :=
  GenerateProject.hero_entry "job7" "hero_facade_1.png" "2025-01-01T08:00:00".

Definition old_kitchen : entry :=
  list_to_map
      [ ("id", JStr "job7_11"); ("filename", JStr "interior_kitchen_1.png");
        ("variationType", JStr "interior_kitchen"); ("isHero", JBool false);
        ("consistencyScore", JInt 62); ("attempts", JInt 3);
        ("lowConfidence", JBool true) ].

Definition job_dir : world :=
  World None
      (Some (Manifest {[ "job_id" := JStr "job7" ]} [hero; old_kitchen] None))
      {[ "hero_facade_1.png" := image ]} 0%nat [].

End Sample.

(** * Properties *)

(** ** Lists of scores *)

Lemma max_score_cons x l : max_score (x :: l) = Z.max x (max_score l).
Proof. reflexivity. Qed.

Lemma max_score_nonneg l : 0 <= max_score l.
Proof.
  induction l as [|x l IH]; [reflexivity |].
  rewrite max_score_cons. lia.
Qed.

Lemma max_score_snoc l x : max_score (l ++ [x]) = Z.max (max_score l) x.
Proof.
  induction l as [|y l IH].
  - change (Z.max x 0 = Z.max 0 x). lia.
  - change (max_score (y :: (l ++ [x])) = Z.max (max_score (y :: l)) x).
    rewrite !max_score_cons, IH. lia.
Qed.

Lemma max_score_upper l : Forall (fun x => x <= max_score l) l.
Proof.
  induction l as [|x l IH]; constructor.
  - rewrite max_score_cons. lia.
  - eapply Forall_impl; [exact IH |].
    intros y Hy. rewrite max_score_cons. simpl in Hy. lia.
Qed.

Lemma max_score_elem l : 0 < max_score l -> max_score l ∈ l.
Proof.
  induction l as [|x l IH].
  - intros H. exfalso. change (0 < 0) in H. lia.
  - rewrite max_score_cons. intros H.
    destruct (Z.max_spec x (max_score l)) as [[Hlt Heq] | [Hle Heq]];
      rewrite Heq in *.
    + right. apply IH. exact H.
    + left.
Qed.

Lemma judged_scores_snoc_void h prompt image :
  judged_scores (h ++ [AttemptRecord prompt image None]) = judged_scores h.
Proof. unfold judged_scores. rewrite omap_app. simpl. apply app_nil_r. Qed.

Lemma judged_scores_snoc_judged h prompt image p v :
  judged_scores (h ++ [AttemptRecord prompt image (Some (p, v))])
  = judged_scores h ++ [total_score v].
Proof. unfold judged_scores. rewrite omap_app. reflexivity. Qed.

Lemma nondecreasing_spec l :
  nondecreasing l = true <->
  forall i x y, l !! i = Some x -> l !! S i = Some y -> x <= y.
Proof.
  induction l as [|x [|y l] IH].
  - split; [intros _ i ? ? H; destruct i; discriminate | reflexivity].
  - split; [intros _ [|i] ? ? H1 H2; discriminate | reflexivity].
  - change (nondecreasing (x :: y :: l))
      with ((x <=? y) && nondecreasing (y :: l)).
    rewrite andb_true_iff, IH, Z.leb_le. split.
    + intros [Hxy Hrest] [|i] a b H1 H2.
      * simpl in H1, H2. congruence.
      * apply (Hrest i); assumption.
    + intros H. split.
      * apply (H 0%nat); reflexivity.
      * intros i a b H1 H2. apply (H (S i)); assumption.
Qed.

(** ** The attempt loop: invariants *)

Section LoopFacts.

Variables (MAX T : Z).
Variable gen : nat -> string -> option bytes.
Variables (vi vii : nat -> bytes -> verification).
Variable asm : option string -> string.
Variable bfp : verification -> string.
Variable interior : bool.
Variable bv : bytes -> world -> world.
Variable av : world -> world.

Local Abbreviation attempt_ := (attempt T gen vi vii asm bfp interior bv av).
Local Abbreviation while_ := (while_attempts MAX T gen vi vii asm bfp interior bv av).
Local Abbreviation refine_ := (refine MAX T gen vi vii asm bfp interior bv av).
Local Abbreviation feedback_ := (feedback_after bfp).
Local Abbreviation record_ok_ := (record_ok gen vi vii asm bfp interior).
Local Abbreviation history_ok_ := (history_ok gen vi vii asm bfp interior).
Local Abbreviation common_ := (loop_common MAX gen vi vii asm bfp interior).
Local Abbreviation inv_ := (loop_inv MAX T gen vi vii asm bfp interior).
Local Abbreviation post_ := (loop_post MAX T gen vi vii asm bfp interior).

Lemma feedback_after_snoc h a :
    feedback_ (h ++ [a])
    = match a_judged a with
        | Some (_, v) => Some (bfp v)
        | None => feedback_ h
        end.
Proof. unfold feedback_after. rewrite foldl_app. reflexivity. Qed.

Lemma history_ok_nil : history_ok_ [].
Proof. intros i a H. destruct i; discriminate. Qed.

Lemma history_ok_snoc h a :
    history_ok_ h -> record_ok_ h a -> history_ok_ (h ++ [a]).
Proof.
  intros Hh Ha i b Hi.
  destruct (decide (i < length h)%nat) as [Hlt | Hge].
  - rewrite lookup_app_l in Hi by exact Hlt.
    rewrite take_app_le by lia. apply Hh. exact Hi.
  - assert (i = length h) as ->.
    { apply lookup_lt_Some in Hi. rewrite length_app in Hi. simpl in Hi. lia. }
    rewrite list_lookup_middle in Hi by reflexivity.
    injection Hi as <-.
    rewrite take_app_length. exact Ha.
Qed.

Lemma initial_inv w : inv_ (initial_vars w).
Proof.
  split; [split | |]; simpl.
  - reflexivity.
  - lia.
  - reflexivity.
  - reflexivity.
  - intros H. lia.
  - apply history_ok_nil.
  - reflexivity.
  - constructor.
Qed.

Local Abbreviation judge_ := (judge vi vii interior).

(** The body when the synthesizer returned nothing usable ([continue]). *)
Lemma attempt_void st :
    let prompt := asm (fixing_prompt st) in
    let image_data := gen (S (attempts st)) prompt in
    bytes_truthy image_data = false ->
    attempt_ st
    = (LoopVars (S (attempts st)) (best_score st) (best_image_data st)
        (best_breakdown st) (fixing_prompt st) (wld st)
        (history st ++ [AttemptRecord prompt image_data None]),
        false).
Proof. intros prompt image_data H. unfold attempt. fold prompt image_data. rewrite H. reflexivity. Qed.

(** The body when an image came back and was judged. *)
Lemma attempt_judged st :
    let prompt := asm (fixing_prompt st) in
    let image_data := gen (S (attempts st)) prompt in
    let v := judge_ (S (attempts st)) (default [] image_data) in
    let better := total_score v >? best_score st in
    let pass := total_score v >? T in
    bytes_truthy image_data = true ->
    attempt_ st
    = (LoopVars (S (attempts st))
        (if better then total_score v else best_score st)
        (if better then image_data else best_image_data st)
        (if better then Some (get_breakdown v) else best_breakdown st)
        (if pass then fixing_prompt st else Some (bfp v))
        (av (bv (default [] image_data) (wld st)))
        (history st
            ++ [AttemptRecord prompt image_data (Some (profile_of interior, v))]),
        pass).
Proof.
  intros prompt image_data v better pass H.
  unfold attempt. fold prompt image_data. rewrite H.
  subst v better pass. unfold judge, profile_of. simpl.
  destruct interior; simpl;
    match goal with |- context [?a >? T] => destruct (a >? T) end; reflexivity.
Qed.

Lemma attempt_attempts st : attempts (attempt_ st).1 = S (attempts st).
Proof.
  destruct (bytes_truthy (gen (S (attempts st)) (asm (fixing_prompt st)))) eqn:Hi.
  - rewrite attempt_judged by exact Hi. reflexivity.
  - rewrite attempt_void by exact Hi. reflexivity.
Qed.

(** One iteration keeps the invariant, or leaves the loop with a passing
    score. *)
Lemma attempt_step st :
    inv_ st -> Z.of_nat (attempts st) < MAX ->
    common_ (attempt_ st).1
    /\ (if (attempt_ st).2 then passed T (attempt_ st).1 else inv_ (attempt_ st).1).
Proof.
  intros [[Hlen Hb Hbest Himg Hcand Hhist] Hfb Hfail] Hlt.
  destruct (bytes_truthy (gen (S (attempts st)) (asm (fixing_prompt st)))) eqn:Hi.
  - (* judged *)
    rewrite attempt_judged by exact Hi.
    set (prompt := asm (fixing_prompt st)) in *.
    set (image_data := gen (S (attempts st)) prompt) in *.
    set (v := judge_ (S (attempts st)) (default [] image_data)).
    set (a := AttemptRecord prompt image_data (Some (profile_of interior, v))).
    assert (Hok : record_ok_ (history st) a).
    { unfold record_ok. simpl. rewrite <- Hfb, Hlen. fold prompt image_data.
      rewrite Hi. repeat split. }
    pose proof (max_score_nonneg (judged_scores (history st))) as Hnn.
    assert (Hcommon : common_
      (LoopVars (S (attempts st))
      (if total_score v >? best_score st then total_score v else best_score st)
      (if total_score v >? best_score st then image_data else best_image_data st)
      (if total_score v >? best_score st
      then Some (get_breakdown v) else best_breakdown st)
      (if total_score v >? T then fixing_prompt st else Some (bfp v))
      (av (bv (default [] image_data) (wld st)))
      (history st ++ [a]))).
    { split; simpl.
      - rewrite length_app. simpl. lia.
      - lia.
      - unfold a. rewrite judged_scores_snoc_judged, max_score_snoc, <- Hbest.
        destruct (Z.gtb_spec (total_score v) (best_score st)); lia.
      - destruct (Z.gtb_spec (total_score v) (best_score st)) as [Hgt | Hle].
        + rewrite Hi. symmetry. apply Z.ltb_lt. lia.
        + exact Himg.
      - destruct (Z.gtb_spec (total_score v) (best_score st)) as [Hgt | Hle].
        + intros _. exists a, (profile_of interior), v.
          split; [apply elem_of_app; right; apply list_elem_of_singleton;
            reflexivity |].
          repeat split.
        + intros Hpos. destruct (Hcand Hpos) as (a0 & p0 & v0 & Hin & Hrest).
          exists a0, p0, v0. split; [apply elem_of_app; left; exact Hin | exact Hrest].
      - apply history_ok_snoc; assumption. }
    split; [exact Hcommon |]. simpl.
    destruct (Z.gtb_spec (total_score v) T) as [Hgt | Hle].
    + exists (history st), a, (profile_of interior), v. repeat split; assumption.
    + split.
      * destruct (total_score v >? T) eqn:E; [apply Z.gtb_lt in E; lia |].
        exact Hcommon.
      * simpl. rewrite feedback_after_snoc. reflexivity.
      * unfold all_failed. simpl. unfold a.
        rewrite judged_scores_snoc_judged. apply Forall_app. split; [exact Hfail |].
        constructor; [exact Hle | constructor].
  - (* void *)
    rewrite attempt_void by exact Hi.
    set (prompt := asm (fixing_prompt st)) in *.
    set (image_data := gen (S (attempts st)) prompt) in *.
    set (a := AttemptRecord prompt image_data None).
    assert (Hok : record_ok_ (history st) a).
    { unfold record_ok. simpl. rewrite <- Hfb, Hlen. fold prompt image_data.
      rewrite Hi. repeat split. }
    assert (Hcommon : common_
      (LoopVars (S (attempts st)) (best_score st) (best_image_data st)
      (best_breakdown st) (fixing_prompt st) (wld st) (history st ++ [a]))).
    { split; simpl.
      - rewrite length_app. simpl. lia.
      - lia.
      - unfold a. rewrite judged_scores_snoc_void. exact Hbest.
      - exact Himg.
      - intros Hpos. destruct (Hcand Hpos) as (a0 & p0 & v0 & Hin & Hrest).
        exists a0, p0, v0. split; [apply elem_of_app; left; exact Hin | exact Hrest].
      - apply history_ok_snoc; assumption. }
    split; [exact Hcommon |]. simpl. split.
    + exact Hcommon.
    + simpl. rewrite feedback_after_snoc. simpl. exact Hfb.
    + unfold all_failed. simpl. unfold a. rewrite judged_scores_snoc_void.
      exact Hfail.
Qed.

(** The loop ends, with enough fuel, in one of its two exits. *)
Lemma while_attempts_post fuel st :
    inv_ st -> MAX - Z.of_nat (attempts st) <= Z.of_nat fuel ->
    post_ (while_ fuel st).
Proof.
  revert st. induction fuel as [|fuel IH]; intros st Hinv Hfuel.
  - simpl. split; [apply Hinv |]. right. split; [lia | apply Hinv].
  - simpl. destruct (Z.ltb_spec (Z.of_nat (attempts st)) MAX) as [Hlt | Hge].
    + pose proof (attempt_step st Hinv Hlt) as [Hc Hx].
      pose proof (attempt_attempts st) as Hn.
      destruct (attempt_ st) as [st' broke]. simpl in *.
      destruct broke.
      * split; [exact Hc | left; exact Hx].
      * apply IH; [exact Hx | lia].
    + split; [apply Hinv |]. right. split; [lia | apply Hinv].
Qed.

Lemma refine_post w : post_ (refine_ w).
Proof.
  unfold refine. apply while_attempts_post; [apply initial_inv |].
  simpl. lia.
Qed.

(** More fuel than [MAX_REGEN_ATTEMPTS - attempts] changes nothing: the
    [while] loop is total and [refine] is its result. *)
Lemma while_attempts_fuel fuel st :
    MAX - Z.of_nat (attempts st) <= Z.of_nat fuel ->
    while_ (S fuel) st = while_ fuel st.
Proof.
  revert st. induction fuel as [|fuel IH]; intros st Hfuel.
  - simpl. destruct (Z.ltb_spec (Z.of_nat (attempts st)) MAX); [lia | reflexivity].
  - change (while_ (S (S fuel)) st) with
      (if Z.of_nat (attempts st) <? MAX
      then let '(st', broke) := attempt_ st in
      if broke then st' else while_ (S fuel) st'
      else st).
    change (while_ (S fuel) st) with
      (if Z.of_nat (attempts st) <? MAX
      then let '(st', broke) := attempt_ st in
      if broke then st' else while_ fuel st'
      else st).
    destruct (Z.ltb_spec (Z.of_nat (attempts st)) MAX) as [Hlt | Hge]; [| reflexivity].
    pose proof (attempt_attempts st) as Hn.
    destruct (attempt_ st) as [st' broke]. simpl in Hn.
    destruct broke; [reflexivity |]. apply IH. lia.
Qed.

(** The job directory is only touched through the two hooks. *)
Lemma while_attempts_wld (P : world -> Prop) fuel st :
    (forall image w, P w -> P (bv image w)) ->
    (forall w, P w -> P (av w)) ->
    P (wld st) -> P (wld (while_ fuel st)).
Proof.
  intros Hbv Hav. revert st. induction fuel as [|fuel IH]; intros st HP; [exact HP |].
  simpl. destruct (Z.of_nat (attempts st) <? MAX); [| exact HP].
  assert (HP' : P (wld (attempt_ st).1)).
  { destruct (bytes_truthy (gen (S (attempts st)) (asm (fixing_prompt st)))) eqn:Hi.
    - rewrite attempt_judged by exact Hi. simpl. apply Hav, Hbv, HP.
    - rewrite attempt_void by exact Hi. exact HP. }
  destruct (attempt_ st) as [st' broke]. simpl in HP'.
  destruct broke; [exact HP' | apply IH, HP'].
Qed.

(** A candidate is retained exactly when some judged score was positive. *)
Lemma common_stored_positive st :
    common_ st -> (bytes_truthy (best_image_data st) = true <-> 0 < best_score st).
Proof. intros Hc. rewrite (inv_img _ _ _ _ _ _ _ _ Hc). apply Z.ltb_lt. Qed.

(** The retained score is the largest judged score. *)
Lemma common_best_is_max st :
    common_ st -> bytes_truthy (best_image_data st) = true ->
    best_score st ∈ judged_scores (history st)
    /\ Forall (fun x => x <= best_score st) (judged_scores (history st)).
Proof.
  intros Hc Hs. apply (common_stored_positive st Hc) in Hs.
  rewrite (inv_best _ _ _ _ _ _ _ _ Hc) in *. split.
  - apply max_score_elem. exact Hs.
  - apply max_score_upper.
Qed.

(** A retained candidate means at least one attempt, and never more than
    the budget. *)
Lemma common_attempts_bounds st :
    common_ st -> bytes_truthy (best_image_data st) = true ->
    1 <= Z.of_nat (attempts st) <= MAX.
Proof.
  intros Hc Hs. destruct (common_best_is_max st Hc Hs) as [Hin _].
  pose proof (inv_bound _ _ _ _ _ _ _ _ Hc) as Hb.
  pose proof (inv_len _ _ _ _ _ _ _ _ Hc) as Hl.
  assert (judged_scores (history st) <> []) as Hne.
  { intros E. rewrite E in Hin. inversion Hin. }
  assert (history st <> []) as Hh.
  { intros E. rewrite E in Hne. apply Hne. reflexivity. }
  destruct (history st) as [|a h]; [congruence |]. simpl in Hl. lia.
Qed.

(** After the loop: the retained score is at most the threshold exactly
    when the budget was used up and no judged score exceeded the
    threshold. *)
Lemma post_low_confidence st :
    post_ st -> bytes_truthy (best_image_data st) = true ->
    (best_score st <= T
        <-> Z.of_nat (attempts st) = MAX /\ all_failed T (history st)).
Proof.
  intros [Hc Hexit] Hs.
  destruct (common_best_is_max st Hc Hs) as [Hin Hup].
  pose proof (common_attempts_bounds st Hc Hs) as Hb.
  split.
  - intros Hle. destruct Hexit as [(h & a & p & v & Hh & Hj & Hgt & _) | [Hn Hf]].
    + exfalso. rewrite Hh in Hup. destruct a as [pr im jd]. simpl in Hj. subst jd.
      rewrite judged_scores_snoc_judged in Hup.
      apply Forall_app in Hup as [_ Hup]. inversion Hup; subst. lia.
    + split; [lia | exact Hf].
  - intros [_ Hf]. unfold all_failed in Hf.
    rewrite Forall_forall in Hf. apply Hf. exact Hin.
Qed.

(** After the loop a passing score, if any, belongs to the last attempt. *)
Lemma post_pass_is_last st i a p v :
    post_ st -> history st !! i = Some a -> a_judged a = Some (p, v) ->
    T < total_score v -> S i = attempts st.
Proof.
  intros [Hc Hexit] Hi Hj Hgt.
  pose proof (inv_len _ _ _ _ _ _ _ _ Hc) as Hl.
  assert (Hsc : total_score v ∈ judged_scores (take (S i) (history st))).
  { rewrite (take_S_r _ _ _ Hi). destruct a as [pr im jd]. simpl in Hj. subst jd.
    rewrite judged_scores_snoc_judged. apply elem_of_app. right. left. }
  assert (Hmono : forall h n, all_failed T h -> all_failed T (take n h)).
  { intros h n Hf. unfold all_failed, judged_scores in *.
    rewrite <- (take_drop n h) in Hf. rewrite omap_app in Hf.
    apply Forall_app in Hf. apply Hf. }
  pose proof (lookup_lt_Some _ _ _ Hi) as Hlt.
  destruct Hexit as [(h & b & q & u & Hh & _ & _ & Hf) | [_ Hf]].
  - destruct (decide (S i = attempts st)) as [E | NE]; [exact E | exfalso].
    rewrite Hh in Hsc, Hl, Hlt. rewrite length_app in Hl, Hlt. simpl in Hl, Hlt.
    rewrite take_app_le in Hsc by lia.
    pose proof (Hmono h (S i) Hf) as Hf'. unfold all_failed in Hf'.
    rewrite Forall_forall in Hf'. specialize (Hf' _ Hsc). lia.
  - exfalso. pose proof (Hmono _ (S i) Hf) as Hf'. unfold all_failed in Hf'.
    rewrite Forall_forall in Hf'. specialize (Hf' _ Hsc). lia.
Qed.

End LoopFacts.

(** ** The job directory: frame lemmas *)

Lemma images_of_save isoformat job_id e w :
  images_of (save_image_to_manifest isoformat job_id e w) = images_of w ++ [e].
Proof.
  unfold save_image_to_manifest, images_of.
  destruct w as [st [m|] fs c lg]; destruct st; reflexivity.
Qed.

Lemma manifest_update_status isoformat d w :
  manifest_json (update_status isoformat d w) = manifest_json w.
Proof. reflexivity. Qed.

Lemma files_update_status isoformat d w :
  files (update_status isoformat d w) = files w.
Proof. reflexivity. Qed.

Lemma files_save isoformat job_id e w :
  files (save_image_to_manifest isoformat job_id e w) = files w.
Proof.
  unfold save_image_to_manifest. destruct w as [[st|] m fs c lg]; reflexivity.
Qed.

(** ** The project driver: one shot *)

Section ProjectFacts.

Variable isoformat : nat -> string.
Variables (MAX T : Z).
Variable gen : string -> nat -> string -> option bytes.
Variables (vi vii : string -> nat -> bytes -> verification).
Variable bvp : shot -> string.
Variable job_id : string.

Local Abbreviation refine_shot_ := (GenerateProject.refine_shot isoformat MAX T gen vi vii bvp).
Local Abbreviation store_best_ := (GenerateProject.store_best isoformat T job_id).

Lemma project_refine_post s w :
    loop_post MAX T (gen (shot_id s)) (vi (shot_id s)) (vii (shot_id s))
    (GenerateProject.assemble (bvp s)) FixingPrompt.build_fixing_prompt
    (is_interior_shot (shot_id s)) (refine_shot_ s w).
Proof. apply refine_post. Qed.

Lemma project_refine_manifest s w :
    manifest_json (wld (refine_shot_ s w)) = manifest_json w.
Proof.
  unfold GenerateProject.refine_shot, refine.
  apply (while_attempts_wld _ _ _ _ _ _ _ _ _ _
    (fun w' => manifest_json w' = manifest_json w)); try reflexivity.
  - intros image w' H. exact H.
  - intros w' H. exact H.
Qed.

Lemma project_refine_images s w : images_of (wld (refine_shot_ s w)) = images_of w.
Proof. unfold images_of. rewrite project_refine_manifest. reflexivity. Qed.

(** The entry [store_best] appends when a candidate was retained. *)
Lemma store_best_stored s timestamp completed st :
    bytes_truthy (best_image_data st) = true ->
    exists filename created_at,
    images_of (store_best_ s timestamp completed st).1
    = images_of (wld st)
    ++ [GenerateProject.image_entry job_id s completed filename st
        (best_score st <=? T) created_at]
    /\ (store_best_ s timestamp completed st).2 = completed + 1
    /\ files (store_best_ s timestamp completed st).1 !! filename
    = best_image_data st.
Proof.
  intros Hs. unfold GenerateProject.store_best. rewrite Hs.
  eexists _, _. simpl. rewrite images_of_save. split; [| split].
  - destruct (best_score st <=? T); reflexivity.
  - reflexivity.
  - rewrite files_save. simpl. rewrite lookup_insert_eq.
    destruct (best_image_data st) as [[|b l]|]; try discriminate. reflexivity.
Qed.

(** Without a retained candidate the shot is skipped. *)
Lemma store_best_skipped s timestamp completed st :
    bytes_truthy (best_image_data st) = false ->
    store_best_ s timestamp completed st = (wld st, completed).
Proof. intros Hs. unfold GenerateProject.store_best. rewrite Hs. reflexivity. Qed.

(** An entry was appended only if a candidate was retained, and then it is
    the entry built from the loop variables. *)
Lemma store_best_appended s timestamp completed st e :
    images_of (store_best_ s timestamp completed st).1 = images_of (wld st) ++ [e] ->
    bytes_truthy (best_image_data st) = true
    /\ exists filename created_at,
    e = GenerateProject.image_entry job_id s completed filename st
    (best_score st <=? T) created_at.
Proof.
  intros H. destruct (bytes_truthy (best_image_data st)) eqn:Hs.
  - split; [reflexivity |].
    destruct (store_best_stored s timestamp completed st Hs)
      as (filename & created_at & Himg & _).
    rewrite Himg in H. apply app_inv_head in H. injection H as <-.
    eauto.
  - exfalso. rewrite store_best_skipped in H by exact Hs. simpl in H.
    apply (f_equal length) in H. rewrite length_app in H. simpl in H. lia.
Qed.

End ProjectFacts.

(** ** Single-shot regeneration *)

Lemma find_variation_spec variation_type images k i img :
  RegenerateSingle.find_variation variation_type k images = Some (i, img) ->
  exists j,
    i = (k + j)%nat /\ images !! j = Some img
    /\ img !! "variationType" = Some (JStr variation_type)
    /\ forall j' x, (j' < j)%nat -> images !! j' = Some x ->
                    x !! "variationType" <> Some (JStr variation_type).
Proof.
  revert k. induction images as [|x images IH]; intros k H; [discriminate |].
  simpl in H. case_bool_decide as Hx.
  - injection H as <- <-. exists 0%nat. repeat split.
    + lia.
    + exact Hx.
    + intros j' y Hlt. lia.
  - destruct (IH _ H) as (j & -> & Hj & Hv & Hfirst).
    exists (S j). repeat split.
    + lia.
    + exact Hj.
    + exact Hv.
    + intros [|j'] y Hlt Hy.
      * simpl in Hy. injection Hy as <-. exact Hx.
      * apply (Hfirst j'); [lia | exact Hy].
Qed.

Lemma find_variation_first variation_type images k j img :
  images !! j = Some img ->
  img !! "variationType" = Some (JStr variation_type) ->
  (forall j' x, (j' < j)%nat -> images !! j' = Some x ->
                x !! "variationType" <> Some (JStr variation_type)) ->
  RegenerateSingle.find_variation variation_type k images = Some ((k + j)%nat, img).
Proof.
  revert k j. induction images as [|x images IH]; intros k j Hj Hv Hfirst.
  - destruct j; discriminate.
  - simpl. destruct j as [|j].
    + simpl in Hj. injection Hj as ->. rewrite bool_decide_eq_true_2 by exact Hv.
      f_equal. f_equal. lia.
    + rewrite bool_decide_eq_false_2 by (apply (Hfirst 0%nat); [lia | reflexivity]).
      rewrite (IH (S k) j Hj Hv).
      * f_equal. f_equal. lia.
      * intros j' y Hlt Hy. apply (Hfirst (S j')); [lia | exact Hy].
Qed.

Lemma find_variation_none variation_type images k :
  (forall img, img ∈ images ->
               img !! "variationType" <> Some (JStr variation_type)) ->
  RegenerateSingle.find_variation variation_type k images = None.
Proof.
  revert k. induction images as [|x images IH]; intros k H; [reflexivity |].
  simpl. rewrite bool_decide_eq_false_2 by (apply H; left).
  apply IH. intros img Hin. apply H. right. exact Hin.
Qed.

Section RegenerateFacts.

Variable isoformat : nat -> string.
Variable strftime : nat -> string.
Variables (MAX T : Z).
Variable gen : nat -> string -> option bytes.
Variables (vi vii : nat -> bytes -> verification).
Variable bvp : shot -> string.

Local Abbreviation refine_shot_ := (RegenerateSingle.refine_shot MAX T gen vi vii bvp).
Local Abbreviation save_best_ := (RegenerateSingle.save_best isoformat strftime T).
Local Abbreviation main_ := (RegenerateSingle.main isoformat strftime MAX T gen vi vii bvp).

Lemma regenerate_refine_post s variation_type w :
    loop_post MAX T gen vi vii (GenerateProject.assemble (bvp s))
    RegenerateSingle.build_fixing_prompt
    (is_interior_shot variation_type) (refine_shot_ s variation_type w).
Proof. apply refine_post. Qed.

Lemma regenerate_refine_manifest s variation_type w :
    manifest_json (wld (refine_shot_ s variation_type w)) = manifest_json w.
Proof.
  unfold RegenerateSingle.refine_shot, refine.
  apply (while_attempts_wld _ _ _ _ _ _ _ _ _ _
    (fun w' => manifest_json w' = manifest_json w)); try reflexivity.
  - intros image w' H. exact H.
  - intros w' H. exact H.
Qed.

(** [main] either stops early or hands the loop's result to [save_best]. *)
Lemma main_ok_inv job_id variation_type w w' :
    main_ job_id variation_type w = Ok w' ->
    exists m s,
    manifest_json w = Some m /\ get_shot_by_id variation_type = Some s
    /\ save_best_ job_id s variation_type (refine_shot_ s variation_type w) = Ok w'.
Proof.
  unfold RegenerateSingle.main. intros H.
  destruct (manifest_json w) as [m|]; [| discriminate].
  destruct (get_shot_by_id variation_type) as [s|]; [| discriminate].
  destruct (List.find _ (m_images m)) as [hero|]; [| discriminate].
  destruct (hero !! "filename") as [[| | |f|]|]; try discriminate.
  case_bool_decide; [| discriminate].
  eauto.
Qed.

Lemma main_reaches_save_best job_id variation_type w m s hero hero_filename :
    manifest_json w = Some m ->
    get_shot_by_id variation_type = Some s ->
    List.find (fun img => entry_flag img "isHero") (m_images m) = Some hero ->
    hero !! "filename" = Some (JStr hero_filename) ->
    is_Some (files w !! hero_filename) ->
    main_ job_id variation_type w
    = save_best_ job_id s variation_type (refine_shot_ s variation_type w).
Proof.
  intros Hm Hs Hh Hf Hx. unfold RegenerateSingle.main.
  rewrite Hm, Hs, Hh, Hf. rewrite bool_decide_eq_true_2 by exact Hx. reflexivity.
Qed.

(** What [save_best] does to the manifest when it does not raise. *)
Lemma save_best_ok_inv job_id s variation_type st w' :
    save_best_ job_id s variation_type st = Ok w' ->
    exists m filename regenerated_at updated_at images,
    bytes_truthy (best_image_data st) = true
    /\ manifest_json (wld st) = Some m
    /\ RegenerateSingle.replace_entry variation_type
    (RegenerateSingle.image_entry job_id s variation_type filename st
        (best_score st <=? T) regenerated_at)
    (m_images m) = Ok images
    /\ manifest_json w' = Some (Manifest (m_meta m) images (Some updated_at))
    /\ files w' !! filename = best_image_data st.
Proof.
  unfold RegenerateSingle.save_best. intros H.
  destruct (bytes_truthy (best_image_data st)) eqn:Hs; [| discriminate].
  unfold RegenerateSingle.update_manifest in H. simpl in H.
  destruct (manifest_json (wld st)) as [m|] eqn:Hm; [| discriminate].
  match type of H with
    | context [RegenerateSingle.replace_entry ?vt ?e ?l] =>
    destruct (RegenerateSingle.replace_entry vt e l) as [images|err] eqn:Hr
    end; [| discriminate].
  eexists m, _, _, _, images. split; [reflexivity |]. split; [reflexivity |].
  split; [exact Hr |].
  assert (Hfile : forall fs : gmap string bytes,
    <[RegenerateSingle.output_name strftime variation_type (wld st) :=
    default [] (best_image_data st)]> fs
    !! RegenerateSingle.output_name strftime variation_type (wld st)
    = best_image_data st).
  { intros fs. rewrite lookup_insert_eq.
    destruct (best_image_data st) as [[|b l]|]; try discriminate. reflexivity. }
  destruct (status_json (wld st)) as [status|] eqn:Hst; simpl in H;
    injection H as <-; simpl; split; try reflexivity; apply Hfile.
Qed.

End RegenerateFacts.

(** * The specified properties *)

(** ** Entries written by the drivers *)

Lemma project_entry_fields job_id s completed filename st lc created_at :
  let e := GenerateProject.image_entry job_id s completed filename st lc created_at in
  e !! "consistencyScore" = Some (JInt (best_score st))
  /\ e !! "attempts" = Some (JInt (Z.of_nat (attempts st)))
  /\ e !! "lowConfidence" = Some (JBool lc)
  /\ e !! "variationType" = Some (JStr (shot_id s)).
Proof. repeat split. Qed.

Lemma regenerated_entry_fields job_id s variation_type filename st lc at_ id :
  let e := <["id" := id]>
             (RegenerateSingle.image_entry job_id s variation_type filename st lc at_) in
  e !! "consistencyScore" = Some (JInt (best_score st))
  /\ e !! "attempts" = Some (JInt (Z.of_nat (attempts st)))
  /\ e !! "lowConfidence" = Some (JBool lc)
  /\ e !! "variationType" = Some (JStr variation_type)
  /\ e !! "id" = Some id
  /\ e !! "regenerated_at" = Some (JStr at_).
Proof. repeat split. Qed.

(** ** C4: attempts within the budget, stored score is the best score *)

(** C4.  Whenever the attempt loop retains a candidate (the condition under
    which a ShotResult is stored), the number of attempts is between 1 and
    [MAX_REGEN_ATTEMPTS], every attempt, void or judged, counted for one, and
    the retained score is the largest of the judged scores: it is one of
    them and bounds them all.  An attempt without an image took its slot and
    was not judged, so it contributes no score; the body then leaves the best
    candidate untouched.  In the project driver the appended manifest entry
    carries exactly these two numbers. *)
Theorem stored_attempts_and_best_score
    (MAX T : Z) (gen : nat -> string -> option bytes)
    (vi vii : nat -> bytes -> verification) (asm : option string -> string)
    (bfp : verification -> string) (interior : bool)
    (bv : bytes -> world -> world) (av : world -> world) (w : world) :
  let st := refine MAX T gen vi vii asm bfp interior bv av w in
  bytes_truthy (best_image_data st) = true ->
  (1 <= Z.of_nat (attempts st) <= MAX
   /\ length (history st) = attempts st
   /\ best_score st ∈ judged_scores (history st)
   /\ Forall (fun x => x <= best_score st) (judged_scores (history st)))
  /\ (forall a, a ∈ history st -> produced_image a = false -> a_judged a = None)
  /\ (forall st0,
        bytes_truthy (gen (S (attempts st0)) (asm (fixing_prompt st0))) = false ->
        let st1 := (attempt T gen vi vii asm bfp interior bv av st0).1 in
        attempts st1 = S (attempts st0)
        /\ best_score st1 = best_score st0
        /\ best_image_data st1 = best_image_data st0)
  /\ (forall isoformat job_id s timestamp completed,
        (GenerateProject.store_best isoformat T job_id s timestamp completed st).2
        = completed + 1
        /\ exists e,
             images_of (GenerateProject.store_best isoformat T job_id s timestamp
                          completed st).1 = images_of (wld st) ++ [e]
             /\ e !! "attempts" = Some (JInt (Z.of_nat (attempts st)))
             /\ e !! "consistencyScore" = Some (JInt (best_score st))).
Proof.
  intros st Hs.
  pose proof (refine_post MAX T gen vi vii asm bfp interior bv av w) as [Hc _].
  fold st in Hc.
  split; [| split; [| split]].
  - split; [exact (common_attempts_bounds _ _ _ _ _ _ _ _ Hc Hs) |].
    split; [exact (inv_len _ _ _ _ _ _ _ _ Hc) |].
    exact (common_best_is_max _ _ _ _ _ _ _ _ Hc Hs).
  - intros a Hin Hvoid.
    apply list_elem_of_lookup in Hin as [i Hi].
    destruct (inv_hist _ _ _ _ _ _ _ _ Hc i a Hi) as (_ & _ & Hj).
    unfold produced_image in Hvoid. rewrite Hvoid in Hj. exact Hj.
  - intros st0 Hvoid. simpl.
    rewrite (attempt_void T gen vi vii asm bfp interior bv av st0 Hvoid).
    repeat split.
  - intros isoformat job_id s timestamp completed.
    destruct (store_best_stored isoformat T job_id s timestamp completed st Hs)
      as (filename & created_at & Himg & Hcount & _).
    split; [exact Hcount |].
    eexists. split; [exact Himg |]. split; reflexivity.
Qed.

Lemma stored_attempts_and_best_score_witness :
  let st := refine 3 80 (Sample.always_image "context_street")
                   (Sample.scored [60; 70; 75] "context_street")
                   (Sample.judge_error "context_street")
                   (GenerateProject.assemble "street scene")
                   FixingPrompt.build_fixing_prompt false
                   (fun _ w => w) (fun w => w) empty_world in
  bytes_truthy (best_image_data st) = true
  /\ 1 <= Z.of_nat (attempts st) <= 3
  /\ best_score st = 75.
Proof.
  intros st.
  split; [reflexivity |].
  split.
  - apply (stored_attempts_and_best_score 3 80
             (Sample.always_image "context_street")
             (Sample.scored [60; 70; 75] "context_street")
             (Sample.judge_error "context_street")
             (GenerateProject.assemble "street scene")
             FixingPrompt.build_fixing_prompt false
             (fun _ w => w) (fun w => w) empty_world).
    reflexivity.
  - reflexivity.
Defined.

(** ** The replaced entry *)

Lemma replace_entry_found variation_type new images images' i old :
  RegenerateSingle.find_variation variation_type 0 images = Some (i, old) ->
  RegenerateSingle.replace_entry variation_type new images = Ok images' ->
  exists id,
    old !! "id" = Some id
    /\ images !! i = Some old
    /\ images' = <[i := <["id" := id]> new]> images.
Proof.
  intros Hf Hr. unfold RegenerateSingle.replace_entry in Hr. rewrite Hf in Hr.
  destruct (find_variation_spec _ _ _ _ _ Hf) as (j & -> & Hj & _).
  destruct (old !! "id") as [id|]; [| discriminate].
  injection Hr as <-. exists id. repeat split. exact Hj.
Qed.

Lemma replace_entry_absent variation_type new images :
  RegenerateSingle.find_variation variation_type 0 images = None ->
  RegenerateSingle.replace_entry variation_type new images = Ok images.
Proof. intros Hf. unfold RegenerateSingle.replace_entry. rewrite Hf. reflexivity. Qed.

(** A successful [save_best] over a manifest holding a matching entry puts
    the new entry, with the old [id], at the index of the first match. *)
Lemma save_best_replaces isoformat strftime T job_id s variation_type st w' i old :
  RegenerateSingle.save_best isoformat strftime T job_id s variation_type st = Ok w' ->
  RegenerateSingle.find_variation variation_type 0 (images_of (wld st)) = Some (i, old) ->
  exists id filename regenerated_at,
    old !! "id" = Some id
    /\ images_of (wld st) !! i = Some old
    /\ bytes_truthy (best_image_data st) = true
    /\ files w' !! filename = best_image_data st
    /\ images_of w'
       = <[i := <["id" := id]>
                  (RegenerateSingle.image_entry job_id s variation_type filename st
                     (best_score st <=? T) regenerated_at)]>
           (images_of (wld st)).
Proof.
  intros Hok Hf.
  destruct (save_best_ok_inv _ _ _ _ _ _ _ _ Hok)
    as (m & filename & at_ & up & images & Hs & Hm & Hr & Hm' & Hfile).
  unfold images_of in *. rewrite Hm in *. rewrite Hm'. simpl in *.
  destruct (replace_entry_found _ _ _ _ _ _ Hf Hr) as (id & Hid & Hi & ->).
  exists id, filename, at_. repeat split; assumption.
Qed.

(** ** C3: the low-confidence flag *)

(** C3.  For every entry the attempt loop stores, in a project run (the
    entry appended for a non-hero shot) and in a regeneration (the entry put
    in place of the old one), [lowConfidence] is true exactly when the stored
    [consistencyScore] does not exceed [VERIFICATION_THRESHOLD], and exactly
    when the loop used all of [MAX_REGEN_ATTEMPTS] while no judged score was
    strictly above the threshold. *)
Theorem low_confidence_iff_threshold_not_exceeded
    (isoformat strftime : nat -> string) (MAX T : Z)
    (gen : string -> nat -> string -> option bytes)
    (vi vii : string -> nat -> bytes -> verification)
    (bvp : shot -> string) (job_id : string) :
  (forall s timestamp completed w e,
      let st := GenerateProject.refine_shot isoformat MAX T gen vi vii bvp s w in
      images_of (GenerateProject.store_best isoformat T job_id s timestamp
                   completed st).1 = images_of w ++ [e] ->
      exists score lc,
        e !! "consistencyScore" = Some (JInt score)
        /\ e !! "lowConfidence" = Some (JBool lc)
        /\ (lc = true <-> score <= T)
        /\ (lc = true <->
            Z.of_nat (attempts st) = MAX /\ all_failed T (history st)))
  /\ (forall s variation_type w w' i old,
        let st := RegenerateSingle.refine_shot MAX T (gen variation_type)
                    (vi variation_type) (vii variation_type) bvp s variation_type w in
        RegenerateSingle.save_best isoformat strftime T job_id s variation_type st
        = Ok w' ->
        RegenerateSingle.find_variation variation_type 0 (images_of w)
        = Some (i, old) ->
        exists e score lc,
          images_of w' !! i = Some e
          /\ e !! "consistencyScore" = Some (JInt score)
          /\ e !! "lowConfidence" = Some (JBool lc)
          /\ (lc = true <-> score <= T)
          /\ (lc = true <->
              Z.of_nat (attempts st) = MAX /\ all_failed T (history st))).
Proof.
  split.
  - intros s timestamp completed w e st Happ.
    rewrite <- (project_refine_images isoformat MAX T gen vi vii bvp s w) in Happ.
    fold st in Happ.
    destruct (store_best_appended _ _ _ _ _ _ _ _ Happ)
      as (Hs & filename & created_at & ->).
    exists (best_score st), (best_score st <=? T).
    split; [reflexivity |]. split; [reflexivity |].
    split; [apply Z.leb_le |].
    rewrite Z.leb_le.
    apply (post_low_confidence _ _ _ _ _ _ _ _ _
             (project_refine_post isoformat MAX T gen vi vii bvp s w) Hs).
  - intros s variation_type w w' i old st Hok Hf.
    assert (Himg : images_of (wld st) = images_of w).
    { unfold images_of, st. rewrite regenerate_refine_manifest. reflexivity. }
    rewrite <- Himg in Hf.
    destruct (save_best_replaces _ _ _ _ _ _ _ _ _ _ Hok Hf)
      as (id & filename & at_ & Hid & Hi & Hs & _ & ->).
    eexists _, (best_score st), (best_score st <=? T).
    split; [apply list_lookup_insert_eq; eapply lookup_lt_Some; exact Hi |].
    split; [reflexivity |]. split; [reflexivity |].
    split; [apply Z.leb_le |].
    rewrite Z.leb_le.
    apply (post_low_confidence _ _ _ _ _ _ _ _ _
             (regenerate_refine_post MAX T _ _ _ bvp s variation_type w) Hs).
Qed.

Lemma low_confidence_iff_threshold_not_exceeded_witness :
  let st := GenerateProject.refine_shot Sample.isoformat 3 80 Sample.always_image
              (Sample.scored [60; 70; 75]) Sample.judge_error Sample.prompt_of
              Sample.street empty_world in
  let w' := (GenerateProject.store_best Sample.isoformat 80 "job7" Sample.street
               "20250101_090000" 1 st).1 in
  let e := default ∅ (last (images_of w')) in
  images_of w' = images_of empty_world ++ [e]
  /\ exists score lc,
       e !! "consistencyScore" = Some (JInt score)
       /\ e !! "lowConfidence" = Some (JBool lc)
       /\ (lc = true <-> score <= 80)
       /\ (lc = true <->
           Z.of_nat (attempts st) = 3 /\ all_failed 80 (history st)).
Proof.
  intros st w' e.
  assert (H : images_of w' = images_of empty_world ++ [e]) by (vm_compute; reflexivity).
  split; [exact H |].
  exact (proj1 (low_confidence_iff_threshold_not_exceeded
                  Sample.isoformat Sample.strftime 3 80 Sample.always_image
                  (Sample.scored [60; 70; 75]) Sample.judge_error Sample.prompt_of
                  "job7")
               Sample.street "20250101_090000" 1 empty_world e H).
Defined.

(** ** C5: early exit *)

Lemma judged_score_elem h i a p v :
  h !! i = Some a -> a_judged a = Some (p, v) -> total_score v ∈ judged_scores h.
Proof.
  intros Hi Hj. unfold judged_scores. apply list_elem_of_omap.
  exists a. split; [apply list_elem_of_lookup; eauto |]. rewrite Hj. reflexivity.
Qed.

(** C5.  In the state the loop ends in, an attempt whose judged score is
    strictly above the threshold is the last attempt made: the attempt
    counter and the number of calls to the synthesizer stop there, and the
    result is not low-confidence.  With a budget of 3 and a threshold of 80,
    scores 55 then 90 end the loop with [attempts = 2], best score 90 and the
    flag off, whatever a third attempt would have returned. *)
Theorem early_exit_on_pass
    (MAX T : Z) (gen : nat -> string -> option bytes)
    (vi vii : nat -> bytes -> verification) (asm : option string -> string)
    (bfp : verification -> string) (interior : bool)
    (bv : bytes -> world -> world) (av : world -> world) (w : world) :
  let st := refine MAX T gen vi vii asm bfp interior bv av w in
  (forall i a p v,
      history st !! i = Some a -> a_judged a = Some (p, v) ->
      T < total_score v ->
      attempts st = S i /\ length (history st) = S i
      /\ (best_score st <=? T) = false)
  /\ (MAX = 3 -> T = 80 ->
      (forall n prompt, bytes_truthy (gen n prompt) = true) ->
      (forall image, total_score (judge vi vii interior 1 image) = 55) ->
      (forall image, total_score (judge vi vii interior 2 image) = 90) ->
      attempts st = 2%nat /\ length (history st) = 2%nat
      /\ best_score st = 90 /\ (best_score st <=? T) = false).
Proof.
  intros st.
  pose proof (refine_post MAX T gen vi vii asm bfp interior bv av w) as Hpost.
  fold st in Hpost. split.
  - intros i a p v Hi Hj Hgt.
    pose proof (post_pass_is_last _ _ _ _ _ _ _ _ _ _ _ _ _ Hpost Hi Hj Hgt) as Hlast.
    destruct Hpost as [Hc _].
    pose proof (inv_len _ _ _ _ _ _ _ _ Hc) as Hlen.
    split; [symmetry; exact Hlast |]. split; [lia |].
    apply Z.leb_gt.
    pose proof (judged_score_elem _ _ _ _ _ Hi Hj) as Hin.
    rewrite (inv_best _ _ _ _ _ _ _ _ Hc).
    pose proof (max_score_upper (judged_scores (history st))) as Hup.
    rewrite Forall_forall in Hup. specialize (Hup _ Hin). lia.
  - intros -> -> Hgen H1 H2. subst st. unfold refine.
    change (Z.to_nat 3) with 3%nat.
    set (st0 := initial_vars w).
    assert (E1 : attempt 80 gen vi vii asm bfp interior bv av st0
                 = (LoopVars 1 55 (gen 1%nat (asm None)) 
                      (Some (get_breakdown
                               (judge vi vii interior 1
                                  (default [] (gen 1%nat (asm None))))))
                      (Some (bfp (judge vi vii interior 1
                                    (default [] (gen 1%nat (asm None))))))
                      (av (bv (default [] (gen 1%nat (asm None))) w))
                      [AttemptRecord (asm None) (gen 1%nat (asm None))
                         (Some (profile_of interior,
                                judge vi vii interior 1
                                  (default [] (gen 1%nat (asm None)))))],
                    false)).
    { rewrite attempt_judged by apply Hgen. simpl. rewrite H1. reflexivity. }
    simpl. rewrite E1. simpl.
    match goal with
    | |- context [attempt 80 gen vi vii asm bfp interior bv av ?s] =>
        set (st1 := s)
    end.
    assert (E2 : exists bd fp w2 h2,
               attempt 80 gen vi vii asm bfp interior bv av st1
               = (LoopVars 2 90 (gen 2%nat (asm (fixing_prompt st1))) bd fp w2 h2,
                  true)
               /\ length h2 = 2%nat).
    { rewrite attempt_judged by apply Hgen. simpl. rewrite H2. simpl.
      eexists _, _, _, _. split; reflexivity. }
    destruct E2 as (bd & fp & w2 & h2 & -> & Hlen). simpl.
    repeat split. exact Hlen.
Qed.

Lemma early_exit_on_pass_witness :
  let st := refine 3 80 (Sample.always_image "context_street")
                   (Sample.scored [55; 90; 100] "context_street")
                   (Sample.judge_error "context_street")
                   (GenerateProject.assemble "street scene")
                   FixingPrompt.build_fixing_prompt false
                   (fun _ w => w) (fun w => w) empty_world in
  (forall n prompt,
      bytes_truthy (Sample.always_image "context_street" n prompt) = true)
  /\ attempts st = 2%nat /\ length (history st) = 2%nat
  /\ best_score st = 90 /\ (best_score st <=? 80) = false.
Proof.
  intros st.
  split; [intros n prompt; reflexivity |].
  apply (proj2 (early_exit_on_pass 3 80 (Sample.always_image "context_street")
                  (Sample.scored [55; 90; 100] "context_street")
                  (Sample.judge_error "context_street")
                  (GenerateProject.assemble "street scene")
                  FixingPrompt.build_fixing_prompt false
                  (fun _ w => w) (fun w => w) empty_world)).
  - reflexivity.
  - reflexivity.
  - intros n prompt. reflexivity.
  - intros image. reflexivity.
  - intros image. reflexivity.
Defined.

(** ** C6: the fixing feedback *)

Lemma append_fixes_spec lines (b : breakdown) :
  FixingPrompt.append_fixes lines b
  = lines ++ map (fun cs => FixingPrompt.fix_line cs.1 cs.2)
                 (filter (fun cs : string * Z => cs.2 < 16) b).
Proof.
  revert lines. induction b as [|[c s] b IH]; intros lines.
  - simpl. rewrite app_nil_r. reflexivity.
  - unfold FixingPrompt.append_fixes in *. simpl foldl. rewrite IH.
    destruct (Z.ltb_spec s 16) as [Hlt | Hge].
    + rewrite filter_cons_True by exact Hlt. simpl. rewrite <- app_assoc.
      reflexivity.
    + rewrite filter_cons_False by (simpl; lia). reflexivity.
Qed.

Lemma append_issues_spec lines issues :
  FixingPrompt.append_issues lines issues
  = lines ++ map FixingPrompt.issue_line issues.
Proof.
  revert lines. induction issues as [|x l IH]; intros lines.
  - simpl. rewrite app_nil_r. reflexivity.
  - unfold FixingPrompt.append_issues in *. simpl foldl. rewrite IH.
    simpl. rewrite <- app_assoc. reflexivity.
Qed.

Lemma append_suggestions_spec lines l :
  FixingPrompt.append_suggestions lines l
  = lines ++ map FixingPrompt.suggestion_line l.
Proof.
  revert lines. induction l as [|x l IH]; intros lines.
  - simpl. rewrite app_nil_r. reflexivity.
  - unfold FixingPrompt.append_suggestions in *. simpl foldl. rewrite IH.
    simpl. rewrite <- app_assoc. reflexivity.
Qed.

Lemma fixing_lines_spec v :
  FixingPrompt.fixing_lines v
  = ["<fixes_required>"]
    ++ map (fun cs => FixingPrompt.fix_line cs.1 cs.2)
           (filter (fun cs : string * Z => cs.2 < 16) (get_breakdown v))
    ++ map FixingPrompt.issue_line (default [] (v_issues v))
    ++ map FixingPrompt.suggestion_line (default [] (v_suggestions v))
    ++ ["</fixes_required>"].
Proof.
  unfold FixingPrompt.fixing_lines.
  rewrite append_suggestions_spec, append_issues_spec, append_fixes_spec.
  rewrite <- !app_assoc. reflexivity.
Qed.

Lemma build_fixing_prompt_truthy v :
  str_truthy (Some (FixingPrompt.build_fixing_prompt v)) = true.
Proof.
  unfold FixingPrompt.build_fixing_prompt. rewrite fixing_lines_spec.
  simpl app.
  match goal with |- context [join nl (_ :: ?l)] => destruct l as [|y l'] eqn:E end.
  - exfalso. apply (f_equal length) in E. rewrite !length_app in E. simpl in E. lia.
  - reflexivity.
Qed.

(** C6.  The fixing prompt is built from one judge result only: the opening
    tag, one directive per criterion of its breakdown scoring below 16 (in
    the breakdown's order), every issue, every suggestion, the closing tag,
    joined by line feeds.  In a shot's loop, whatever feedback was in force
    before, a judged attempt that does not pass sets the feedback to the
    prompt built from its own judge result, and the instruction of the next
    attempt is the shot's variation prompt, a blank line, and that prompt
    alone.  In general the instruction of every attempt is assembled from
    the feedback of the last judged attempt before it, if any: an attempt
    without an image leaves the feedback as it was. *)
Theorem feedback_replaced_by_latest_critique
    (isoformat : nat -> string) (MAX T : Z)
    (gen : string -> nat -> string -> option bytes)
    (vi vii : string -> nat -> bytes -> verification)
    (bvp : shot -> string) (s : shot) (w : world) :
  let st := GenerateProject.refine_shot isoformat MAX T gen vi vii bvp s w in
  (forall v,
      FixingPrompt.build_fixing_prompt v
      = join nl
          (["<fixes_required>"]
           ++ map (fun cs => FixingPrompt.fix_line cs.1 cs.2)
                  (filter (fun cs : string * Z => cs.2 < 16) (get_breakdown v))
           ++ map FixingPrompt.issue_line (default [] (v_issues v))
           ++ map FixingPrompt.suggestion_line (default [] (v_suggestions v))
           ++ ["</fixes_required>"]))
  /\ (forall st0 : loop_vars,
        let image_data :=
          gen (shot_id s) (S (attempts st0))
              (GenerateProject.assemble (bvp s) (fixing_prompt st0)) in
        let v := judge (vi (shot_id s)) (vii (shot_id s))
                       (is_interior_shot (shot_id s))
                       (S (attempts st0)) (default [] image_data) in
        bytes_truthy image_data = true -> total_score v <= T ->
        fixing_prompt
          (attempt T (gen (shot_id s)) (vi (shot_id s)) (vii (shot_id s))
                   (GenerateProject.assemble (bvp s))
                   FixingPrompt.build_fixing_prompt
                   (is_interior_shot (shot_id s))
                   (GenerateProject.before_verify isoformat s)
                   (GenerateProject.after_verify s) st0).1
        = Some (FixingPrompt.build_fixing_prompt v))
  /\ (forall i a a' p v,
        history st !! i = Some a -> history st !! S i = Some a' ->
        a_judged a = Some (p, v) ->
        a_prompt a' = bvp s +:+ nl +:+ nl +:+ FixingPrompt.build_fixing_prompt v)
  /\ (forall i a',
        history st !! i = Some a' ->
        a_prompt a'
        = GenerateProject.assemble (bvp s)
            (feedback_after FixingPrompt.build_fixing_prompt (take i (history st)))).
Proof.
  intros st. split; [| split; [| split]].
  - intros v. unfold FixingPrompt.build_fixing_prompt.
    rewrite fixing_lines_spec. reflexivity.
  - intros st0 image_data v Hi Hle.
    rewrite attempt_judged by exact Hi. simpl. fold image_data. fold v.
    destruct (Z.gtb_spec (total_score v) T); [lia | reflexivity].
  - intros i a a' p v Hi Hi' Hj.
    pose proof (project_refine_post isoformat MAX T gen vi vii bvp s w) as [Hc _].
    fold st in Hc.
    destruct (inv_hist _ _ _ _ _ _ _ _ Hc (S i) a' Hi') as (Hp & _).
    rewrite Hp, (take_S_r _ _ _ Hi), feedback_after_snoc, Hj.
    unfold GenerateProject.assemble.
    rewrite build_fixing_prompt_truthy. reflexivity.
  - intros i a' Hi'.
    pose proof (project_refine_post isoformat MAX T gen vi vii bvp s w) as [Hc _].
    fold st in Hc.
    destruct (inv_hist _ _ _ _ _ _ _ _ Hc i a' Hi') as (Hp & _). exact Hp.
Qed.

Lemma feedback_replaced_by_latest_critique_witness :
  let st := GenerateProject.refine_shot Sample.isoformat 3 80 Sample.always_image
              Sample.critic Sample.judge_error Sample.prompt_of Sample.street
              empty_world in
  let v := Sample.critic "context_street" 1%nat Sample.image in
  exists a a',
    history st !! 0%nat = Some a /\ history st !! 1%nat = Some a'
    /\ a_judged a = Some (Exterior, v)
    /\ a_prompt a'
       = "shot:context_street" +:+ nl +:+ nl
         +:+ FixingPrompt.build_fixing_prompt v
    /\ FixingPrompt.build_fixing_prompt v
       = join nl
           [ "<fixes_required>";
             "<fix criterion='materials_facade' score='9/20'>Improve this aspect significantly</fix>";
             "<fix criterion='proportions' score='15/20'>Improve this aspect significantly</fix>";
             "<issue>roof pitch differs</issue>";
             "<suggestion>match the brick colour</suggestion>";
             "<suggestion>keep three storeys</suggestion>";
             "</fixes_required>" ].
Proof.
  intros st v.
  assert (H0 : history st !! 0%nat
               = Some (AttemptRecord "shot:context_street" (Some Sample.image)
                         (Some (Exterior, v)))) by (vm_compute; reflexivity).
  assert (H1 : exists a', history st !! 1%nat = Some a').
  { eexists. vm_compute. reflexivity. }
  destruct H1 as [a' H1].
  eexists _, a'. split; [exact H0 |]. split; [exact H1 |].
  split; [reflexivity |]. split.
  - exact (proj1 (proj2 (proj2 (feedback_replaced_by_latest_critique
                           Sample.isoformat 3 80 Sample.always_image
                           Sample.critic Sample.judge_error Sample.prompt_of
                           Sample.street empty_world)))
                 0%nat _ a' Exterior v H0 H1 eq_refl).
  - vm_compute. reflexivity.
Defined.

(** ** C7: the rubric is chosen by membership in the interior set *)

Lemma history_judged_at (gen : nat -> string -> option bytes)
    (vi vii : nat -> bytes -> verification) (asm : option string -> string)
    (bfp : verification -> string) (interior : bool) h i a p v :
  history_ok gen vi vii asm bfp interior h ->
  h !! i = Some a -> a_judged a = Some (p, v) ->
  p = profile_of interior
  /\ v = judge vi vii interior (S i) (default [] (a_image a))
  /\ bytes_truthy (a_image a) = true.
Proof.
  intros Hh Hi Hj. destruct (Hh i a Hi) as (_ & _ & Hjd).
  rewrite length_take_le in Hjd
    by (apply lookup_lt_Some in Hi; lia).
  rewrite Hj in Hjd. destruct (bytes_truthy (a_image a)); [| discriminate].
  injection Hjd as -> ->. repeat split.
Qed.

(** C7.  In the loop of a project run and in the loop of a regeneration,
    every judged attempt of a shot whose id is in [INTERIOR_SHOT_IDS] was
    judged by [verify_interior_image], whose rubric is the five interior
    criteria, and every judged attempt of any other shot was judged by
    [verify_image], the exterior rubric; the choice depends on the shot id
    alone. *)
Theorem profile_by_interior_membership
    (isoformat : nat -> string) (MAX T : Z)
    (gen : string -> nat -> string -> option bytes)
    (vi vii : string -> nat -> bytes -> verification)
    (bvp : shot -> string) (s : shot) (w : world) (i : nat)
    (a : attempt_record) (p : rubric) (v : verification) :
  let id := shot_id s in
  let project := GenerateProject.refine_shot isoformat MAX T gen vi vii bvp s w in
  let regenerated :=
    RegenerateSingle.refine_shot MAX T (gen id) (vi id) (vii id) bvp s id w in
  (history project !! i = Some a \/ history regenerated !! i = Some a) ->
  a_judged a = Some (p, v) ->
  (id ∈ INTERIOR_SHOT_IDS ->
   p = Interior /\ v = vii id (S i) (default [] (a_image a))
   /\ rubric_criteria p
      = [ "interior_style_consistency"; "material_finish_quality";
          "lighting_appropriateness"; "spatial_quality"; "project_context_match" ])
  /\ (id ∉ INTERIOR_SHOT_IDS ->
      p = Exterior /\ v = vi id (S i) (default [] (a_image a))
      /\ rubric_criteria p
         = [ "building_shape"; "architectural_style"; "materials_facade";
             "windows_openings"; "proportions" ]).
Proof.
  intros id project regenerated Hi Hj.
  assert (Hpv : p = profile_of (is_interior_shot id)
                /\ v = judge (vi id) (vii id) (is_interior_shot id) (S i)
                         (default [] (a_image a))).
  { destruct Hi as [Hi | Hi].
    - pose proof (project_refine_post isoformat MAX T gen vi vii bvp s w) as [Hc _].
      destruct (history_judged_at _ _ _ _ _ _ _ _ _ _ _
                  (inv_hist _ _ _ _ _ _ _ _ Hc) Hi Hj) as (Hp & Hv & _).
      split; assumption.
    - pose proof (regenerate_refine_post MAX T (gen id) (vi id) (vii id) bvp s id w)
        as [Hc _].
      destruct (history_judged_at _ _ _ _ _ _ _ _ _ _ _
                  (inv_hist _ _ _ _ _ _ _ _ Hc) Hi Hj) as (Hp & Hv & _).
      split; assumption. }
  destruct Hpv as [-> ->]. unfold profile_of, judge, is_interior_shot.
  split; intros Hin.
  - rewrite bool_decide_eq_true_2 by exact Hin. repeat split.
  - rewrite bool_decide_eq_false_2 by exact Hin. repeat split.
Qed.

Lemma profile_by_interior_membership_witness :
  let st := GenerateProject.refine_shot Sample.isoformat 3 80 Sample.always_image
              Sample.judge_error (Sample.scored [90]) Sample.prompt_of
              Sample.kitchen empty_world in
  let a := AttemptRecord "shot:interior_kitchen" (Some Sample.image)
             (Some (Interior, Sample.scored [90] "interior_kitchen" 1%nat Sample.image)) in
  history st !! 0%nat = Some a
  /\ "interior_kitchen" ∈ INTERIOR_SHOT_IDS
  /\ rubric_criteria Interior
     = [ "interior_style_consistency"; "material_finish_quality";
         "lighting_appropriateness"; "spatial_quality"; "project_context_match" ].
Proof.
  intros st a.
  assert (H0 : history st !! 0%nat = Some a) by (vm_compute; reflexivity).
  assert (Hin : "interior_kitchen" ∈ INTERIOR_SHOT_IDS).
  { unfold INTERIOR_SHOT_IDS. right. left. }
  split; [exact H0 |]. split; [exact Hin |].
  destruct (proj1 (profile_by_interior_membership
                     Sample.isoformat 3 80 Sample.always_image
                     Sample.judge_error (Sample.scored [90]) Sample.prompt_of
                     Sample.kitchen empty_world 0%nat a Interior
                     (Sample.scored [90] "interior_kitchen" 1%nat Sample.image)
                     (or_introl H0) eq_refl) Hin) as (_ & _ & Hr).
  exact Hr.
Defined.

(** ** The project run as a whole *)

(** What one [update_status] writes. *)
Lemma update_status_spec isoformat (d : status_doc) w :
  exists doc,
    status_json (update_status isoformat d w) = Some doc
    /\ status_log (update_status isoformat d w) = status_log w ++ [doc]
    /\ (forall k v, k <> "updated_at" -> d !! k = Some v -> doc !! k = Some v)
    /\ (forall k, k <> "updated_at" -> d !! k = None ->
                  doc !! k = default ∅ (status_json w) !! k).
Proof.
  eexists. split; [reflexivity |]. split; [reflexivity |]. split.
  - intros k v Hk Hd. rewrite lookup_insert_ne by congruence.
    apply lookup_union_Some_l. exact Hd.
  - intros k Hk Hd. rewrite lookup_insert_ne by congruence.
    apply lookup_union_r. exact Hd.
Qed.

Section RunFacts.

Variable isoformat : nat -> string.
Variable strftime : nat -> string.
Variables (MAX T : Z).
Variable gen : string -> nat -> string -> option bytes.
Variables (vi vii : string -> nat -> bytes -> verification).
Variable hero_prompt : string.
Variable bvp : shot -> string.
Variables (user_prompt job_id : string).

Local Abbreviation start_job_ :=
  (GenerateProject.start_job isoformat strftime user_prompt job_id).
Local Abbreviation generate_hero_ :=
  (GenerateProject.generate_hero isoformat gen hero_prompt job_id).
Local Abbreviation process_shot_ :=
  (GenerateProject.process_shot isoformat MAX T gen vi vii bvp job_id).
Local Abbreviation run_shots_ :=
  (GenerateProject.run_shots isoformat MAX T gen vi vii bvp job_id).
Local Abbreviation main_ :=
  (GenerateProject.main isoformat strftime MAX T gen vi vii hero_prompt bvp
    user_prompt job_id).

Lemma start_job_frame project_type parsed w :
    let w1 := (start_job_ project_type parsed w).1.1 in
    images_of w1 = [] /\ files w1 = files w
    /\ length (status_log w1) = (length (status_log w) + 2)%nat.
Proof.
  simpl. split; [reflexivity |]. split; [reflexivity |].
  rewrite !length_app. simpl. lia.
Qed.

(** The hero step when the synthesizer returns nothing. *)
Lemma generate_hero_void timestamp w :
    bytes_truthy (gen "hero_facade" 1%nat hero_prompt) = false ->
    exists w' doc,
    generate_hero_ timestamp w = (w', false)
    /\ status_json w' = Some doc /\ status_of doc = Some "error"
    /\ manifest_json w' = manifest_json w /\ files w' = files w
    /\ length (status_log w') = (length (status_log w) + 2)%nat.
Proof.
  intros Hv. unfold GenerateProject.generate_hero. rewrite Hv. simpl negb. cbv iota.
  match goal with
    | |- context [update_status isoformat ?d (update_status isoformat ?d0 w)] =>
    destruct (update_status_spec isoformat d (update_status isoformat d0 w))
    as (doc & Hj & Hl & Hk & _);
    destruct (update_status_spec isoformat d0 w) as (doc0 & _ & Hl0 & _)
    end.
  eexists _, doc. split; [reflexivity |]. split; [exact Hj |].
  split.
  - unfold status_of. rewrite (Hk "status" (GenerateProject.leaf_str "error"));
      [reflexivity | discriminate | reflexivity].
  - split; [reflexivity |]. split; [reflexivity |].
    rewrite Hl, Hl0, !length_app. simpl. lia.
Qed.

(** The hero step when an image came back: the entry is appended as it
    is, no judge is consulted. *)
Lemma generate_hero_stored timestamp w :
    bytes_truthy (gen "hero_facade" 1%nat hero_prompt) = true ->
    exists w' filename created_at,
    generate_hero_ timestamp w = (w', true)
    /\ images_of w'
    = images_of w ++ [GenerateProject.hero_entry job_id filename created_at].
Proof.
  intros Hv. unfold GenerateProject.generate_hero. rewrite Hv. simpl negb. cbv iota.
  eexists _, _, _. split; [reflexivity |].
  rewrite images_of_save. reflexivity.
Qed.

(** A shot only ever appends to the image list. *)
Lemma process_shot_images timestamp total acc s :
    exists l, images_of (process_shot_ timestamp total acc s).1 = images_of acc.1 ++ l.
Proof.
  destruct acc as [w completed]. unfold GenerateProject.process_shot.
  destruct (String.eqb (shot_id s) "hero_facade").
  - exists []. simpl. rewrite app_nil_r. reflexivity.
  - match goal with
      | |- context [GenerateProject.refine_shot _ _ _ _ _ _ _ s ?w0] => set (w1 := w0)
      end.
    set (st := GenerateProject.refine_shot isoformat MAX T gen vi vii bvp s w1).
    assert (Hw : images_of (wld st) = images_of w).
    { unfold st. rewrite project_refine_images. reflexivity. }
    destruct (bytes_truthy (best_image_data st)) eqn:Hs.
    + destruct (store_best_stored isoformat T job_id s timestamp completed st Hs)
        as (f & c & Himg & _).
      eexists. rewrite Himg, Hw. reflexivity.
    + rewrite store_best_skipped by exact Hs. exists []. simpl.
      rewrite Hw, app_nil_r. reflexivity.
Qed.

Lemma fold_shots_images timestamp total shots acc :
    exists l,
    images_of (foldl (process_shot_ timestamp total) acc shots).1
    = images_of acc.1 ++ l.
Proof.
  revert acc. induction shots as [|s shots IH]; intros acc.
  - exists []. simpl. rewrite app_nil_r. reflexivity.
  - simpl foldl.
    destruct (IH (process_shot_ timestamp total acc s)) as [l2 H2].
    destruct (process_shot_images timestamp total acc s) as [l1 H1].
    exists (l1 ++ l2). rewrite H2, H1, app_assoc. reflexivity.
Qed.

Lemma run_shots_images timestamp shots w :
    exists l, images_of (run_shots_ timestamp shots w).1 = images_of w ++ l.
Proof.
  unfold GenerateProject.run_shots.
  exact (fold_shots_images timestamp (Z.of_nat (length shots)) shots (w, 1)).
Qed.

End RunFacts.

(** ** C8: the hero shot *)

Lemma hero_entry_fields job_id filename created_at :
  let hero := GenerateProject.hero_entry job_id filename created_at in
  hero !! "variationType" = Some (JStr "hero_facade")
  /\ hero !! "isHero" = Some (JBool true)
  /\ hero !! "consistencyScore" = Some (JInt 100)
  /\ hero !! "attempts" = Some (JInt 1)
  /\ hero !! "lowConfidence" = Some (JBool false).
Proof. repeat split. Qed.

(** The fixed values of the hero entry agree with the rule of the attempt
    loop, flag on exactly when the score does not exceed the threshold, for
    every threshold below 100. *)
Lemma hero_entry_flag_agrees job_id filename created_at (T : Z) :
  T < 100 ->
  exists score lc,
    GenerateProject.hero_entry job_id filename created_at !! "consistencyScore"
    = Some (JInt score)
    /\ GenerateProject.hero_entry job_id filename created_at !! "lowConfidence"
       = Some (JBool lc)
    /\ (lc = true <-> score <= T).
Proof.
  intros HT. exists 100, false. split; [reflexivity |]. split; [reflexivity |].
  split; [discriminate | lia].
Qed.

(** C8.  In a run that synthesizes its own hero, whatever the judges would
    answer: if the synthesizer returns an image for the hero, the first
    manifest entry is the hero entry with score 100, one attempt and the
    low-confidence flag off; if it returns nothing, the run ends with status
    [error] after four status writes (parsing, plan size, hero, error), the
    manifest holds no image and no file was written, so no other shot was
    attempted. *)
Theorem hero_stored_unjudged_or_job_fails
    (isoformat strftime : nat -> string) (MAX T : Z)
    (gen : string -> nat -> string -> option bytes)
    (vi vii : string -> nat -> bytes -> verification)
    (hero_prompt : string) (bvp : shot -> string) (user_prompt job_id : string)
    (project_type : option string) (parsed : GenerateProject.parsed_prompt)
    (w : world) :
  let w' := GenerateProject.main isoformat strftime MAX T gen vi vii hero_prompt
              bvp user_prompt job_id project_type parsed None w in
  (bytes_truthy (gen "hero_facade" 1%nat hero_prompt) = true ->
   exists hero rest,
     images_of w' = hero :: rest
     /\ hero !! "variationType" = Some (JStr "hero_facade")
     /\ hero !! "isHero" = Some (JBool true)
     /\ hero !! "consistencyScore" = Some (JInt 100)
     /\ hero !! "attempts" = Some (JInt 1)
     /\ hero !! "lowConfidence" = Some (JBool false))
  /\ (bytes_truthy (gen "hero_facade" 1%nat hero_prompt) = false ->
      (exists doc, status_json w' = Some doc /\ status_of doc = Some "error")
      /\ images_of w' = []
      /\ files w' = files w
      /\ length (status_log w') = (length (status_log w) + 4)%nat).
Proof.
  intros w'. subst w'. unfold GenerateProject.main.
  pose proof (start_job_frame isoformat strftime user_prompt job_id
                project_type parsed w) as Hstart.
  destruct (GenerateProject.start_job isoformat strftime user_prompt job_id
              project_type parsed w) as [[w1 shots] timestamp].
  simpl in Hstart. destruct Hstart as (Himg1 & Hfiles1 & Hlog1).
  split.
  - intros Hv.
    destruct (generate_hero_stored isoformat gen hero_prompt job_id timestamp w1 Hv)
      as (w2 & filename & created_at & -> & Himg2).
    simpl negb. cbv iota.
    destruct (run_shots_images isoformat MAX T gen vi vii bvp job_id timestamp
                shots w2) as [rest Hrest].
    destruct (GenerateProject.run_shots isoformat MAX T gen vi vii bvp job_id
                timestamp shots w2) as [w3 completed].
    simpl in Hrest.
    exists (GenerateProject.hero_entry job_id filename created_at), rest.
    split.
    + unfold GenerateProject.finish, images_of.
      rewrite manifest_update_status. fold (images_of w3).
      rewrite Hrest, Himg2, Himg1. reflexivity.
    + apply hero_entry_fields.
  - intros Hv.
    destruct (generate_hero_void isoformat gen hero_prompt job_id timestamp w1 Hv)
      as (w2 & doc & -> & Hj & Hs & Hm & Hf & Hl).
    simpl negb. cbv iota.
    split; [exists doc; split; assumption |].
    split; [unfold images_of in *; rewrite Hm; exact Himg1 |].
    split; [rewrite Hf; exact Hfiles1 |].
    rewrite Hl, Hlog1. lia.
Qed.

Lemma hero_stored_unjudged_or_job_fails_witness :
  let run gen :=
    GenerateProject.main Sample.isoformat Sample.strftime 3 80 gen
      Sample.judge_error Sample.judge_error "hero prompt" Sample.prompt_of
      "two townhouses in Balwyn" "job7" None (GenerateProject.Parsed None None)
      None empty_world in
  (bytes_truthy (Sample.always_image "hero_facade" 1%nat "hero prompt") = true
   /\ exists hero rest,
        images_of (run Sample.always_image) = hero :: rest
        /\ hero !! "consistencyScore" = Some (JInt 100))
  /\ (bytes_truthy (Sample.never_image "hero_facade" 1%nat "hero prompt") = false
      /\ images_of (run Sample.never_image) = []).
Proof.
  intros run. split.
  - split; [reflexivity |].
    destruct (proj1 (hero_stored_unjudged_or_job_fails
                       Sample.isoformat Sample.strftime 3 80 Sample.always_image
                       Sample.judge_error Sample.judge_error "hero prompt"
                       Sample.prompt_of "two townhouses in Balwyn" "job7" None
                       (GenerateProject.Parsed None None) empty_world) eq_refl)
      as (hero & rest & Himg & _ & _ & Hscore & _).
    exists hero, rest. split; assumption.
  - split; [reflexivity |].
    exact (proj1 (proj2 (proj2 (hero_stored_unjudged_or_job_fails
                       Sample.isoformat Sample.strftime 3 80 Sample.never_image
                       Sample.judge_error Sample.judge_error "hero prompt"
                       Sample.prompt_of "two townhouses in Balwyn" "job7" None
                       (GenerateProject.Parsed None None) empty_world) eq_refl))).
Defined.

(** ** C9: regeneration replaces in place *)

(** C9.  When a regeneration of [variation_type] succeeds and the manifest
    holds an entry for it, [old] at index [i] being the first one, the
    image list keeps its length, every other index keeps its entry, and
    index [i] now holds the new entry: its [id] is the [id] of [old], its
    other keys are those of the regeneration ([variationType],
    [regenerated_at], the new file, which exists, and no [created_at]). *)
Theorem regeneration_replaces_entry_in_place
    (isoformat strftime : nat -> string) (MAX T : Z)
    (gen : nat -> string -> option bytes)
    (vi vii : nat -> bytes -> verification) (bvp : shot -> string)
    (job_id variation_type : string) (w w' : world) (i : nat) (old : entry) :
  RegenerateSingle.main isoformat strftime MAX T gen vi vii bvp job_id
    variation_type w = Ok w' ->
  images_of w !! i = Some old ->
  old !! "variationType" = Some (JStr variation_type) ->
  (forall j x, (j < i)%nat -> images_of w !! j = Some x ->
               x !! "variationType" <> Some (JStr variation_type)) ->
  length (images_of w') = length (images_of w)
  /\ (forall j, j <> i -> images_of w' !! j = images_of w !! j)
  /\ exists e filename,
       images_of w' !! i = Some e
       /\ is_Some (old !! "id") /\ e !! "id" = old !! "id"
       /\ e !! "variationType" = Some (JStr variation_type)
       /\ is_Some (e !! "regenerated_at") /\ e !! "created_at" = None
       /\ e !! "filename" = Some (JStr filename)
       /\ is_Some (files w' !! filename).
Proof.
  intros Hmain Hi Hvt Hfirst.
  destruct (main_ok_inv _ _ _ _ _ _ _ _ _ _ _ _ Hmain) as (m & s & Hm & Hs & Hsave).
  set (st := RegenerateSingle.refine_shot MAX T gen vi vii bvp s variation_type w)
    in *.
  assert (Himg : images_of (wld st) = images_of w).
  { unfold images_of, st. rewrite regenerate_refine_manifest. reflexivity. }
  pose proof (find_variation_first variation_type (images_of w) 0 i old Hi Hvt Hfirst)
    as Hfind.
  simpl in Hfind. rewrite <- Himg in Hfind.
  destruct (save_best_replaces _ _ _ _ _ _ _ _ _ _ Hsave Hfind)
    as (id & filename & at_ & Hid & _ & Htruthy & Hfile & Himg').
  rewrite Himg in Himg'. rewrite Himg'.
  split; [apply length_insert |].
  split; [intros j Hj; apply list_lookup_insert_ne; congruence |].
  eexists _, filename.
  split; [apply list_lookup_insert_eq; eapply lookup_lt_Some; exact Hi |].
  rewrite Hid. split; [eauto |]. split; [reflexivity |]. split; [reflexivity |].
  split; [eexists; reflexivity |]. split; [reflexivity |]. split; [reflexivity |].
  rewrite Hfile. destruct (best_image_data st) as [[|b l]|]; try discriminate.
  eexists. reflexivity.
Qed.

Lemma regeneration_replaces_entry_in_place_witness :
  let result :=
    RegenerateSingle.main Sample.isoformat Sample.strftime 3 80
      (Sample.always_image "interior_kitchen")
      (Sample.judge_error "interior_kitchen")
      (Sample.scored [85] "interior_kitchen") Sample.prompt_of
      "job7" "interior_kitchen" Sample.job_dir in
  let w' := match result with Ok w' => w' | Raise _ => empty_world end in
  result = Ok w'
  /\ images_of Sample.job_dir !! 1%nat = Some Sample.old_kitchen
  /\ length (images_of w') = 2%nat
  /\ images_of w' !! 0%nat = Some Sample.hero
  /\ exists e, images_of w' !! 1%nat = Some e
               /\ e !! "id" = Some (JStr "job7_11").
Proof.
  intros result w'.
  assert (Hok : result = Ok w') by (vm_compute; reflexivity).
  assert (Hold : images_of Sample.job_dir !! 1%nat = Some Sample.old_kitchen)
    by reflexivity.
  assert (Hfirst : forall j x, (j < 1)%nat ->
            images_of Sample.job_dir !! j = Some x ->
            x !! "variationType" <> Some (JStr "interior_kitchen")).
  { intros [|j] x Hlt Hx; [| lia]. injection Hx as <-. vm_compute. discriminate. }
  destruct (regeneration_replaces_entry_in_place
              Sample.isoformat Sample.strftime 3 80
              (Sample.always_image "interior_kitchen")
              (Sample.judge_error "interior_kitchen")
              (Sample.scored [85] "interior_kitchen") Sample.prompt_of
              "job7" "interior_kitchen" Sample.job_dir w' 1%nat Sample.old_kitchen
              Hok Hold eq_refl Hfirst)
    as (Hlen & Hother & e & filename & He & _ & Hid & _).
  split; [exact Hok |]. split; [exact Hold |].
  split; [exact Hlen |].
  split; [rewrite (Hother 0%nat) by lia; reflexivity |].
  exists e. split; [exact He |]. rewrite Hid. reflexivity.
Defined.

(** ** C10: regeneration of a shot the manifest does not hold *)

(** C10.  When the manifest holds no entry for [variation_type] and the
    regeneration gets as far as a retained candidate (known shot, hero entry
    and hero file present), [main] ends normally: the manifest keeps its keys
    and its image list as they were, only [updated_at] is set, and the new
    image file is in the output directory. *)
Theorem regeneration_without_entry_keeps_images
    (isoformat strftime : nat -> string) (MAX T : Z)
    (gen : nat -> string -> option bytes)
    (vi vii : nat -> bytes -> verification) (bvp : shot -> string)
    (job_id variation_type : string) (w : world) (m : manifest) (s : shot)
    (hero : entry) (hero_filename : string) :
  manifest_json w = Some m ->
  get_shot_by_id variation_type = Some s ->
  List.find (fun img => entry_flag img "isHero") (m_images m) = Some hero ->
  hero !! "filename" = Some (JStr hero_filename) ->
  is_Some (files w !! hero_filename) ->
  (forall img, img ∈ m_images m ->
               img !! "variationType" <> Some (JStr variation_type)) ->
  let st := RegenerateSingle.refine_shot MAX T gen vi vii bvp s variation_type w in
  bytes_truthy (best_image_data st) = true ->
  exists w' updated_at filename image,
    RegenerateSingle.main isoformat strftime MAX T gen vi vii bvp job_id
      variation_type w = Ok w'
    /\ manifest_json w'
       = Some (Manifest (m_meta m) (m_images m) (Some updated_at))
    /\ images_of w' = images_of w
    /\ best_image_data st = Some image
    /\ files w' !! filename = Some image.
Proof.
  intros Hm Hs Hhero Hf Hx Hnone st Htruthy.
  rewrite (main_reaches_save_best _ _ _ _ _ _ _ _ _ _ _ _ _ _ _ Hm Hs Hhero Hf Hx).
  fold st.
  assert (Hm' : manifest_json (wld st) = Some m).
  { unfold st. rewrite regenerate_refine_manifest. exact Hm. }
  destruct (best_image_data st) as [[|b l]|] eqn:Hbest; try discriminate.
  unfold RegenerateSingle.save_best. rewrite Hbest. simpl bytes_truthy. cbv iota.
  unfold RegenerateSingle.update_manifest. simpl manifest_json. rewrite Hm'.
  rewrite replace_entry_absent by (apply find_variation_none; exact Hnone).
  simpl.
  destruct (status_json (wld st)) as [status|];
    eexists _, _, _, (b :: l); (split; [reflexivity |]); simpl;
    (split; [reflexivity |]);
    (split; [unfold images_of; simpl; rewrite Hm; reflexivity |]);
    (split; [reflexivity |]); apply lookup_insert_eq.
Qed.

Lemma regeneration_without_entry_keeps_images_witness :
  let result :=
    RegenerateSingle.main Sample.isoformat Sample.strftime 3 80
      (Sample.always_image "context_street")
      (Sample.scored [85] "context_street")
      (Sample.judge_error "context_street") Sample.prompt_of
      "job7" "context_street" Sample.job_dir in
  (forall img, img ∈ [Sample.hero; Sample.old_kitchen] ->
               img !! "variationType" <> Some (JStr "context_street"))
  /\ exists w', result = Ok w'
                /\ images_of w' = [Sample.hero; Sample.old_kitchen].
Proof.
  intros result.
  assert (Hnone : forall img, img ∈ [Sample.hero; Sample.old_kitchen] ->
            img !! "variationType" <> Some (JStr "context_street")).
  { intros img Hin. apply list_elem_of_In in Hin.
    destruct Hin as [<- | [<- | []]]; vm_compute; discriminate. }
  split; [exact Hnone |].
  destruct (regeneration_without_entry_keeps_images
              Sample.isoformat Sample.strftime 3 80
              (Sample.always_image "context_street")
              (Sample.scored [85] "context_street")
              (Sample.judge_error "context_street") Sample.prompt_of
              "job7" "context_street" Sample.job_dir
              (Manifest {[ "job_id" := JStr "job7" ]}
                        [Sample.hero; Sample.old_kitchen] None)
              Sample.street Sample.hero "hero_facade_1.png"
              eq_refl eq_refl eq_refl eq_refl (ex_intro _ Sample.image eq_refl)
              Hnone eq_refl)
    as (w' & updated_at & filename & image & Hok & _ & Himg & _).
  exists w'. split; [exact Hok | exact Himg].
Defined.

(** ** C1: when is a shot stored *)

(** The store condition in terms of the attempts: a candidate is retained
    exactly when some judged score was strictly positive. *)
Lemma stored_iff_positive_score
    (MAX T : Z) (gen : nat -> string -> option bytes)
    (vi vii : nat -> bytes -> verification) (asm : option string -> string)
    (bfp : verification -> string) (interior : bool)
    (bv : bytes -> world -> world) (av : world -> world) (w : world) :
  let st := refine MAX T gen vi vii asm bfp interior bv av w in
  bytes_truthy (best_image_data st) = true
  <-> exists x, x ∈ judged_scores (history st) /\ 0 < x.
Proof.
  intros st.
  pose proof (refine_post MAX T gen vi vii asm bfp interior bv av w) as [Hc _].
  fold st in Hc. split.
  - intros Hs. exists (best_score st).
    split; [apply (common_best_is_max _ _ _ _ _ _ _ _ Hc Hs) |].
    apply (common_stored_positive _ _ _ _ _ _ _ _ Hc). exact Hs.
  - intros (x & Hin & Hpos).
    apply (common_stored_positive _ _ _ _ _ _ _ _ Hc).
    rewrite (inv_best _ _ _ _ _ _ _ _ Hc).
    pose proof (max_score_upper (judged_scores (history st))) as Hup.
    rewrite Forall_forall in Hup. specialize (Hup _ Hin). lia.
Qed.

(** A shot none of whose attempts produced an image is skipped. *)
Lemma no_image_no_entry
    (MAX T : Z) (gen : nat -> string -> option bytes)
    (vi vii : nat -> bytes -> verification) (asm : option string -> string)
    (bfp : verification -> string) (interior : bool)
    (bv : bytes -> world -> world) (av : world -> world) (w : world) :
  let st := refine MAX T gen vi vii asm bfp interior bv av w in
  (forall a, a ∈ history st -> produced_image a = false) ->
  bytes_truthy (best_image_data st) = false.
Proof.
  intros st Hvoid.
  destruct (bytes_truthy (best_image_data st)) eqn:Hs; [| reflexivity].
  exfalso.
  pose proof (refine_post MAX T gen vi vii asm bfp interior bv av w) as [Hc _].
  fold st in Hc.
  destruct (inv_cand _ _ _ _ _ _ _ _ Hc
              (proj1 (common_stored_positive _ _ _ _ _ _ _ _ Hc) Hs))
    as (a & p & v & Hin & _ & Hj & _).
  apply list_elem_of_lookup in Hin as [i Hi].
  destruct (history_judged_at _ _ _ _ _ _ _ _ _ _ _
              (inv_hist _ _ _ _ _ _ _ _ Hc) Hi Hj) as (_ & _ & Ht).
  specialize (Hvoid a (proj2 (list_elem_of_lookup _ _) (ex_intro _ i Hi))).
  unfold produced_image in Hvoid. congruence.
Qed.

(** C1 (the code departs from the claim).  A street-scene shot with a budget
    of 3 and a threshold of 80: the synthesizer returns an image on each of
    the three attempts and the judge's call fails each time, so that each
    attempt is scored 0 by the fallback of the [except] branch.  The loop
    retains no candidate, [store_best] takes the branch that prints
    "SKIPPED - no image generated" and the manifest gains no entry, although
    all three attempts produced an image.  In a whole run under the same
    collaborators only the hero is in the manifest. *)
Theorem zero_scored_images_are_skipped :
  let st := GenerateProject.refine_shot Sample.isoformat 3 80 Sample.always_image
              Sample.judge_error Sample.judge_error Sample.prompt_of
              Sample.street empty_world in
  let run :=
    GenerateProject.main Sample.isoformat Sample.strftime 3 80 Sample.always_image
      Sample.judge_error Sample.judge_error "hero prompt" Sample.prompt_of
      "two townhouses in Balwyn" "job7" None (GenerateProject.Parsed None None)
      None empty_world in
  attempts st = 3%nat
  /\ forallb produced_image (history st) = true
  /\ judged_scores (history st) = [0; 0; 0]
  /\ best_image_data st = None
  /\ GenerateProject.store_best Sample.isoformat 80 "job7" Sample.street
       "20250101_090000" 1 st = (wld st, 1)
  /\ images_of (wld st) = []
  /\ length (images_of run) = 1%nat.
Proof. vm_compute. repeat split. Qed.

(** ** C2: progress over a job's lifetime *)

(** C2 (the code departs from the claim).  A run started with a
    pre-approved hero ([--from-hero] naming an existing file), every other
    shot passing at its first attempt: the progress values written to
    [status.json] are 2 (parsing), 10 (approved hero) and then 5 for the
    first shot of the loop, [int((1 / 18) * 100)]; the value drops from 10 to
    5. *)
Theorem approved_hero_progress_drops :
  let run :=
    GenerateProject.main Sample.isoformat Sample.strftime 3 80 Sample.always_image
      (Sample.scored [90]) (Sample.scored [90]) "hero prompt" Sample.prompt_of
      "two townhouses in Balwyn" "job7" None (GenerateProject.Parsed None None)
      (Some ("hero_facade_1.png", Sample.image)) empty_world in
  take 5 (progress_history run) = [2; 2; 10; 10; 5]
  /\ nondecreasing (progress_history run) = false
  /\ last (progress_history run) = Some 100.
Proof. vm_compute. repeat split. Qed.

(** ** Progress in a run that synthesizes its own hero *)

Lemma nondecreasing_snoc l q :
  nondecreasing l = true ->
  (forall p, last l = Some p -> p <= q) ->
  nondecreasing (l ++ [q]) = true.
Proof.
  induction l as [|x [|y l] IH]; intros Hl Hlast.
  - reflexivity.
  - simpl. rewrite andb_true_r. apply Z.leb_le. apply Hlast. reflexivity.
  - change (nondecreasing (x :: y :: l)) with ((x <=? y) && nondecreasing (y :: l)) in Hl.
    apply andb_true_iff in Hl as [Hxy Hrest].
    change ((x :: y :: l) ++ [q]) with (x :: y :: (l ++ [q])).
    change (nondecreasing (x :: y :: (l ++ [q])))
      with ((x <=? y) && nondecreasing ((y :: l) ++ [q])).
    rewrite Hxy. simpl andb. apply IH; [exact Hrest |].
    intros p Hp. apply Hlast. exact Hp.
Qed.

(** [progress_at] only looks at [status.json] and its history. *)
Lemma progress_at_frame w w' p :
  status_json w' = status_json w -> status_log w' = status_log w ->
  progress_at w p -> progress_at w' p.
Proof.
  intros Hj Hl ((doc & Hd & Hp) & Hnd & Hlast).
  unfold progress_at, progress_history in *. rewrite Hj, Hl. eauto.
Qed.

Lemma progress_history_write doc w q :
  progress_of doc = Some q ->
  progress_history (write_status doc w) = progress_history w ++ [q].
Proof.
  intros Hq. unfold progress_history. simpl. rewrite omap_app. simpl.
  rewrite Hq. reflexivity.
Qed.

Lemma progress_at_write doc w p q :
  progress_at w p -> progress_of doc = Some q -> p <= q ->
  progress_at (write_status doc w) q.
Proof.
  intros (_ & Hnd & Hlast) Hq Hle. split; [| split].
  - exists doc. split; [reflexivity | exact Hq].
  - rewrite (progress_history_write _ _ _ Hq). apply nondecreasing_snoc; [exact Hnd |].
    intros p' Hp'. rewrite Hlast in Hp'. injection Hp' as <-. exact Hle.
  - rewrite (progress_history_write _ _ _ Hq). apply last_snoc.
Qed.

Section ProgressFacts.

Variable isoformat : nat -> string.

(** A status update that raises the progress. *)
Lemma progress_at_update (d : status_doc) w p q :
    progress_at w p -> d !! "progress" = Some (SLeaf (JInt q)) -> p <= q ->
    progress_at (update_status isoformat d w) q.
Proof.
  intros Hp Hd Hle. unfold update_status.
  apply progress_at_write with (p := p).
  - apply (progress_at_frame w); [reflexivity | reflexivity | exact Hp].
  - unfold progress_of. rewrite lookup_insert_ne by discriminate.
    rewrite (lookup_union_Some_l _ _ _ _ Hd). reflexivity.
  - exact Hle.
Qed.

(** The first status update of a run. *)
Lemma progress_at_first (d : status_doc) w q :
    status_log w = [] -> d !! "progress" = Some (SLeaf (JInt q)) ->
    progress_at (update_status isoformat d w) q.
Proof.
  intros Hl Hd.
  assert (Hq : progress_of
    (<["updated_at" := SLeaf (JStr (isoformat (clock w)))]>
    (d ∪ default ∅ (status_json w))) = Some q).
  { unfold progress_of. rewrite lookup_insert_ne by discriminate.
    rewrite (lookup_union_Some_l _ _ _ _ Hd). reflexivity. }
  unfold update_status. split; [| split].
  - eexists. split; [reflexivity | exact Hq].
  - rewrite (progress_history_write _ _ _ Hq).
    unfold progress_history. simpl. rewrite Hl. reflexivity.
  - rewrite (progress_history_write _ _ _ Hq). apply last_snoc.
Qed.

(** A status update without a [progress] key keeps the progress. *)
Lemma progress_at_keep (d : status_doc) w p :
    progress_at w p -> d !! "progress" = None ->
    progress_at (update_status isoformat d w) p.
Proof.
  intros Hp Hd. destruct Hp as ((doc & Hj & Hdoc) & Hrest).
  unfold update_status. apply progress_at_write with (p := p).
  - apply (progress_at_frame w); [reflexivity | reflexivity |].
    split; [eauto | exact Hrest].
  - unfold progress_of. rewrite lookup_insert_ne by discriminate.
    rewrite (lookup_union_r _ _ _ Hd). simpl. rewrite Hj. simpl. exact Hdoc.
  - lia.
Qed.

Lemma progress_at_save job_id e w p :
    progress_at w p -> progress_at (save_image_to_manifest isoformat job_id e w) p.
Proof.
  intros Hp. pose proof Hp as ((doc & Hj & Hdoc) & _).
  unfold save_image_to_manifest. simpl. rewrite Hj.
  apply progress_at_write with (p := p).
  - apply (progress_at_frame w); [reflexivity | reflexivity | exact Hp].
  - unfold progress_of in *. rewrite lookup_insert_ne by discriminate. exact Hdoc.
  - lia.
Qed.

End ProgressFacts.

Lemma progress_percent_mono c c' total :
  0 < total -> c <= c' ->
  GenerateProject.progress_percent c total <= GenerateProject.progress_percent c' total.
Proof.
  intros Ht Hc. unfold GenerateProject.progress_percent.
  apply Z.div_le_mono; lia.
Qed.

Lemma progress_percent_full c total :
  0 < total -> c <= total -> GenerateProject.progress_percent c total <= 100.
Proof.
  intros Ht Hc. unfold GenerateProject.progress_percent.
  apply Z.div_le_upper_bound; nia.
Qed.

(** Both plans hold the hero shot once, and one shot of either plan is at
    least 5 percent of it. *)
Lemma plan_facts project_type num_units :
  let shots := get_shots_for_project_type project_type num_units in
  let total := Z.of_nat (length shots) in
  0 < total
  /\ 1 + Z.of_nat (length (loop_shots shots)) <= total
  /\ 5 <= GenerateProject.progress_percent 1 total.
Proof.
  unfold get_shots_for_project_type.
  destruct (is_multi_unit project_type num_units); vm_compute; repeat split;
    discriminate.
Qed.

Section ProgressRun.

Variable isoformat : nat -> string.
Variable strftime : nat -> string.
Variables (MAX T : Z).
Variable gen : string -> nat -> string -> option bytes.
Variables (vi vii : string -> nat -> bytes -> verification).
Variable hero_prompt : string.
Variable bvp : shot -> string.
Variables (user_prompt job_id : string).

Local Abbreviation process_shot_ :=
  (GenerateProject.process_shot isoformat MAX T gen vi vii bvp job_id).

Lemma refine_shot_progress s w p :
    progress_at w p ->
    progress_at (wld (GenerateProject.refine_shot isoformat MAX T gen vi vii bvp s w)) p.
Proof.
  intros Hp. unfold GenerateProject.refine_shot, refine.
  apply (while_attempts_wld _ _ _ _ _ _ _ _ _ _ (fun w' => progress_at w' p)).
  - intros image w' Hw'. unfold GenerateProject.before_verify.
    apply progress_at_keep; [| reflexivity].
    apply (progress_at_frame w'); [reflexivity | reflexivity | exact Hw'].
  - intros w' Hw'. unfold GenerateProject.after_verify.
    apply (progress_at_frame w'); [reflexivity | reflexivity | exact Hw'].
  - exact Hp.
Qed.

Lemma store_best_progress s timestamp completed st p :
    progress_at (wld st) p ->
    let r := GenerateProject.store_best isoformat T job_id s timestamp completed st in
    progress_at r.1 p /\ completed <= r.2 <= completed + 1.
Proof.
  intros Hp. unfold GenerateProject.store_best.
  destruct (bytes_truthy (best_image_data st)).
  - cbv zeta. cbn [fst snd]. split; [| lia].
    apply progress_at_save.
    apply (progress_at_frame (wld st)); [reflexivity | reflexivity | exact Hp].
  - cbn [fst snd]. split; [exact Hp | lia].
Qed.

Lemma process_shot_progress timestamp total w completed s p :
    0 < total -> progress_at w p ->
    p <= GenerateProject.progress_percent completed total ->
    let r := process_shot_ timestamp total (w, completed) s in
    (exists p', progress_at r.1 p'
        /\ p' <= GenerateProject.progress_percent r.2 total)
    /\ completed <= r.2
    /\ r.2 <= completed
    + Z.of_nat (length (loop_shots [s])).
Proof.
  intros Ht Hp Hle. unfold GenerateProject.process_shot, loop_shots. simpl List.filter.
  destruct (String.eqb (shot_id s) "hero_facade").
  - simpl. split; [exists p; split; assumption | lia].
  - match goal with
      | |- context [GenerateProject.refine_shot _ _ _ _ _ _ _ s ?w0] => set (w1 := w0)
      end.
    assert (H1 : progress_at w1 (GenerateProject.progress_percent completed total)).
    { unfold w1. apply progress_at_update with (p := p);
        [exact Hp | reflexivity | exact Hle]. }
    pose proof (refine_shot_progress s w1 _ H1) as H2.
    destruct (store_best_progress s timestamp completed _ _ H2) as [H3 H4].
    cbv zeta. simpl negb. cbn [length].
    split; [| lia].
    eexists. split; [exact H3 |].
    apply progress_percent_mono; [exact Ht | lia].
Qed.

Lemma fold_shots_progress timestamp total shots w completed p :
    0 < total -> progress_at w p ->
    p <= GenerateProject.progress_percent completed total ->
    let r := foldl (process_shot_ timestamp total) (w, completed) shots in
    (exists p', progress_at r.1 p'
        /\ p' <= GenerateProject.progress_percent r.2 total)
    /\ r.2 <= completed + Z.of_nat (length (loop_shots shots)).
Proof.
  intros Ht. revert w completed p.
  induction shots as [|s shots IH]; intros w completed p Hp Hle.
  - simpl. split; [exists p; split; assumption | lia].
  - cbn [foldl].
    destruct (process_shot_progress timestamp total w completed s p Ht Hp Hle)
      as ((p1 & Hp1 & Hle1) & Hlo & Hhi).
    destruct (process_shot_ timestamp total (w, completed) s) as [w1 c1].
    cbn [fst snd] in *.
    destruct (IH w1 c1 p1 Hp1 Hle1) as (Hex & Hc).
    split; [exact Hex |].
    change (s :: shots) with ([s] ++ shots).
    unfold loop_shots in *. rewrite List.filter_app, length_app. lia.
Qed.

(** In a run that synthesizes its own hero, started on a fresh status log,
    the progress values written to [status.json] never decrease. *)
Lemma fresh_hero_progress_nondecreasing project_type parsed w :
    status_log w = [] ->
    nondecreasing
    (progress_history
        (GenerateProject.main isoformat strftime MAX T gen vi vii hero_prompt bvp
            user_prompt job_id project_type parsed None w)) = true.
Proof.
  intros Hlog. unfold GenerateProject.main, GenerateProject.start_job.
  cbv zeta.
  match goal with
    | |- context [get_shots_for_project_type ?pt ?n] =>
    destruct (plan_facts pt n) as (Htotal & Hcount & Hfive);
    set (shots := get_shots_for_project_type pt n) in *
    end.
  set (total := Z.of_nat (length shots)) in *.
  match goal with
    | |- context [GenerateProject.generate_hero _ _ _ _ ?ts ?w0] =>
    set (timestamp := ts); set (w2 := w0)
    end.
  assert (H2 : progress_at w2 2).
  { unfold w2.
    apply (progress_at_frame
      (update_status isoformat
      {[ "totalImages" := GenerateProject.leaf_int total;
      "message" :=
      GenerateProject.leaf_str "Project parsed, starting generation..." ]}
    (update_status isoformat
      {[ "status" := GenerateProject.leaf_str "parsing";
      "progress" := GenerateProject.leaf_int 2;
      "currentImage" := GenerateProject.leaf_int 0;
      "totalImages" := GenerateProject.leaf_int 18;
      "message" :=
      GenerateProject.leaf_str "Analyzing project description...";
      "prompt" := GenerateProject.leaf_str user_prompt;
      "model" := GenerateProject.leaf_str GenerateProject.IMAGE_MODEL ]}
    w))); [reflexivity | reflexivity |].
    apply progress_at_keep; [| reflexivity].
    apply progress_at_first; [exact Hlog | reflexivity]. }
  unfold GenerateProject.generate_hero.
  match goal with
    | |- context [update_status isoformat ?d w2] =>
    assert (H3 : progress_at (update_status isoformat d w2) 5)
    by (apply progress_at_update with (p := 2); [exact H2 | reflexivity | lia]);
    set (w3 := update_status isoformat d w2) in *
    end.
  destruct (bytes_truthy (gen "hero_facade" 1%nat hero_prompt)).
  - simpl negb. cbv iota beta.
    match goal with
      | |- context [GenerateProject.run_shots _ _ _ _ _ _ _ _ _ _ ?w0] => set (w4 := w0)
      end.
    assert (H4 : progress_at w4 5).
    { unfold w4. apply progress_at_save.
      apply (progress_at_frame w3); [reflexivity | reflexivity | exact H3]. }
    unfold GenerateProject.run_shots. fold total.
    destruct (fold_shots_progress timestamp total shots w4 1 5 Htotal H4 Hfive)
      as ((p' & Hp' & Hle') & Hc).
    destruct (foldl (process_shot_ timestamp total) (w4, 1) shots) as [w5 completed].
    cbn [fst snd] in *.
    assert (H6 : progress_at
      (GenerateProject.finish isoformat total completed w5) 100).
    { unfold GenerateProject.finish.
      apply progress_at_update with (p := p'); [exact Hp' | reflexivity |].
      pose proof (progress_percent_full completed total Htotal). lia. }
    apply H6.
  - simpl negb. cbv iota beta.
    match goal with
      | |- context [update_status isoformat ?d w3] =>
      assert (H4 : progress_at (update_status isoformat d w3) 5)
      by (apply progress_at_keep; [exact H3 | reflexivity])
      end.
    apply H4.
Qed.

End ProgressRun.

(** * Further properties of the code *)

(** ** The attempt loop, continued *)

Section LoopMore.

Variables (MAX T : Z).
Variable gen : nat -> string -> option bytes.
Variables (vi vii : nat -> bytes -> verification).
Variable asm : option string -> string.
Variable bfp : verification -> string.
Variable interior : bool.
Variable bv : bytes -> world -> world.
Variable av : world -> world.

Local Abbreviation attempt_ := (attempt T gen vi vii asm bfp interior bv av).
Local Abbreviation while_ := (while_attempts MAX T gen vi vii asm bfp interior bv av).
Local Abbreviation refine_ := (refine MAX T gen vi vii asm bfp interior bv av).

(** A property kept by the body is kept by the loop. *)
Lemma while_attempts_invariant (P : loop_vars -> Prop) fuel st :
  (forall st0, P st0 -> P (attempt_ st0).1) -> P st -> P (while_ fuel st).
Proof.
  intros Hstep. revert st. induction fuel as [|fuel IH]; intros st HP; [exact HP |].
  simpl. destruct (Z.of_nat (attempts st) <? MAX); [| exact HP].
  pose proof (Hstep st HP) as HP'.
  destruct (attempt_ st) as [st' broke]. simpl in HP'.
  destruct broke; [exact HP' | apply IH, HP'].
Qed.

(** The candidate the loop retains is the first attempt that reached the
    best score: a later attempt with the same score does not replace it,
    and the retained image and breakdown are those of that attempt. *)
Theorem earliest_best_candidate_is_kept (w : world) :
  let st := refine_ w in
  bytes_truthy (best_image_data st) = true ->
  exists i a p v,
    history st !! i = Some a /\ a_judged a = Some (p, v)
    /\ total_score v = best_score st
    /\ best_image_data st = a_image a
    /\ best_breakdown st = Some (get_breakdown v)
    /\ forall j b q u,
         (j < i)%nat -> history st !! j = Some b -> a_judged b = Some (q, u) ->
         total_score u < best_score st.
Proof.
  intros st Hs.
  pose proof (refine_post MAX T gen vi vii asm bfp interior bv av w) as [Hc _].
  fold st in Hc.
  apply (common_stored_positive _ _ _ _ _ _ _ _ Hc) in Hs.
  revert Hs.
  assert (HQ :
    (fun st0 : loop_vars =>
       (forall j b q u, history st0 !! j = Some b -> a_judged b = Some (q, u) ->
                        total_score u <= best_score st0)
       /\ (0 < best_score st0 ->
           exists i a p v,
             history st0 !! i = Some a /\ a_judged a = Some (p, v)
             /\ total_score v = best_score st0
             /\ best_image_data st0 = a_image a
             /\ best_breakdown st0 = Some (get_breakdown v)
             /\ forall j b q u,
                  (j < i)%nat -> history st0 !! j = Some b ->
                  a_judged b = Some (q, u) -> total_score u < best_score st0)) st).
  { unfold st, refine. apply while_attempts_invariant.
    - intros st0 [Hle Hfirst].
      destruct (bytes_truthy (gen (S (attempts st0)) (asm (fixing_prompt st0))))
        eqn:Hi.
      + rewrite attempt_judged by exact Hi. cbn [fst].
        set (image_data := gen (S (attempts st0)) (asm (fixing_prompt st0))).
        set (v := judge vi vii interior (S (attempts st0)) (default [] image_data)).
        set (a := AttemptRecord (asm (fixing_prompt st0)) image_data
                    (Some (profile_of interior, v))).
        cbn [history best_score best_image_data best_breakdown].
        destruct (Z.gtb_spec (total_score v) (best_score st0)) as [Hgt | Hng].
        * split.
          -- intros j b q u Hj Hb. apply lookup_app_Some in Hj as [Hj | [_ Hj]].
             ++ specialize (Hle j b q u Hj Hb). lia.
             ++ apply list_lookup_singleton_Some in Hj as [_ <-].
                simpl in Hb. injection Hb as _ <-. lia.
          -- intros _. exists (length (history st0)), a, (profile_of interior), v.
             split; [apply list_lookup_middle; reflexivity |].
             repeat split.
             intros j b q u Hlt Hj Hb. rewrite lookup_app_l in Hj by exact Hlt.
             specialize (Hle j b q u Hj Hb). lia.
        * split.
          -- intros j b q u Hj Hb. apply lookup_app_Some in Hj as [Hj | [_ Hj]].
             ++ exact (Hle j b q u Hj Hb).
             ++ apply list_lookup_singleton_Some in Hj as [_ <-].
                simpl in Hb. injection Hb as _ <-. lia.
          -- intros Hpos.
             destruct (Hfirst Hpos) as (i & a0 & p & v0 & Hi0 & Hrest).
             exists i, a0, p, v0.
             pose proof (lookup_lt_Some _ _ _ Hi0) as Hlt.
             split; [rewrite lookup_app_l by exact Hlt; exact Hi0 |].
             destruct Hrest as (H1 & H2 & H3 & H4 & H5).
             repeat split; try assumption.
             intros j b q u Hji Hj Hb. rewrite lookup_app_l in Hj by lia.
             exact (H5 j b q u Hji Hj Hb).
      + rewrite attempt_void by exact Hi. cbn [fst].
        cbn [history best_score best_image_data best_breakdown]. split.
        * intros j b q u Hj Hb. apply lookup_app_Some in Hj as [Hj | [_ Hj]].
          -- exact (Hle j b q u Hj Hb).
          -- apply list_lookup_singleton_Some in Hj as [_ <-]. discriminate.
        * intros Hpos.
          destruct (Hfirst Hpos) as (i & a0 & p & v0 & Hi0 & Hrest).
          exists i, a0, p, v0.
          pose proof (lookup_lt_Some _ _ _ Hi0) as Hlt.
          split; [rewrite lookup_app_l by exact Hlt; exact Hi0 |].
          destruct Hrest as (H1 & H2 & H3 & H4 & H5).
          repeat split; try assumption.
          intros j b q u Hji Hj Hb. rewrite lookup_app_l in Hj by lia.
          exact (H5 j b q u Hji Hj Hb).
    - split.
      + intros j b q u Hj. destruct j; discriminate.
      + simpl. lia. }
  intros Hs. exact (proj2 HQ Hs).
Qed.

End LoopMore.

Lemma earliest_best_candidate_is_kept_witness :
  let second : bytes := [Byte.x01] in
  let gen := fun (n : nat) (_ : string) =>
               if Nat.eqb n 1 then Some Sample.image else Some second in
  let st := refine 3 80 gen (Sample.scored [70; 70; 40] "context_street")
                   (Sample.judge_error "context_street")
                   (GenerateProject.assemble "street scene")
                   FixingPrompt.build_fixing_prompt false
                   (fun _ w => w) (fun w => w) empty_world in
  bytes_truthy (best_image_data st) = true
  /\ judged_scores (history st) = [70; 70; 40]
  /\ best_image_data st = Some Sample.image
  /\ exists i a, history st !! i = Some a /\ best_image_data st = a_image a.
Proof.
  intros second gen st.
  assert (Hs : bytes_truthy (best_image_data st) = true) by reflexivity.
  split; [exact Hs |]. split; [reflexivity |]. split; [reflexivity |].
  destruct (earliest_best_candidate_is_kept 3 80 gen
              (Sample.scored [70; 70; 40] "context_street")
              (Sample.judge_error "context_street")
              (GenerateProject.assemble "street scene")
              FixingPrompt.build_fixing_prompt false
              (fun _ w => w) (fun w => w) empty_world Hs)
    as (i & a & p & v & Hi & _ & _ & Himg & _).
  exists i, a. split; assumption.
Defined.

(** ** Temporary files of the loop *)

Lemma refine_temp_file
    (MAX T : Z) (gen : nat -> string -> option bytes)
    (vi vii : nat -> bytes -> verification) (asm : option string -> string)
    (bfp : verification -> string) (interior : bool)
    (bv : bytes -> world -> world) (av : world -> world) (temp : string)
    (w : world) :
  (forall image w0, files (bv image w0) = <[temp := image]> (files w0)) ->
  (forall w0, files (av w0) = delete temp (files w0)) ->
  let st := refine MAX T gen vi vii asm bfp interior bv av w in
  (forall name, name <> temp -> files (wld st) !! name = files w !! name)
  /\ ((exists a, a ∈ history st /\ produced_image a = true) ->
      files (wld st) !! temp = None)
  /\ ((forall a, a ∈ history st -> produced_image a = false) ->
      files (wld st) = files w).
Proof.
  intros Hbv Hav st. unfold st, refine.
  apply (while_attempts_invariant MAX T gen vi vii asm bfp interior bv av
           (fun st0 =>
              (forall name, name <> temp -> files (wld st0) !! name = files w !! name)
              /\ ((exists a, a ∈ history st0 /\ produced_image a = true) ->
                  files (wld st0) !! temp = None)
              /\ ((forall a, a ∈ history st0 -> produced_image a = false) ->
                  files (wld st0) = files w))).
  - intros st0 (Hother & Htemp & Hsame).
    destruct (bytes_truthy (gen (S (attempts st0)) (asm (fixing_prompt st0))))
      eqn:Hi.
    + rewrite attempt_judged by exact Hi. cbn [fst wld history].
      rewrite Hav, Hbv. split; [| split].
      * intros name Hne. rewrite lookup_delete_ne by congruence.
        rewrite lookup_insert_ne by congruence. apply Hother. exact Hne.
      * intros _. apply lookup_delete_eq.
      * intros Hall. exfalso.
        specialize (Hall (AttemptRecord (asm (fixing_prompt st0))
                            (gen (S (attempts st0)) (asm (fixing_prompt st0)))
                            (Some (profile_of interior,
                                   judge vi vii interior (S (attempts st0))
                                     (default [] (gen (S (attempts st0))
                                                      (asm (fixing_prompt st0)))))))).
        unfold produced_image in Hall. simpl in Hall. rewrite Hi in Hall.
        assert (true = false) as Habs; [| discriminate].
        apply Hall. apply elem_of_app. right. left.
    + rewrite attempt_void by exact Hi. cbn [fst wld history].
      split; [exact Hother |]. split.
      * intros (a & Hin & Hp). apply Htemp. exists a. split; [| exact Hp].
        apply elem_of_app in Hin as [Hin | Hin]; [exact Hin |].
        apply list_elem_of_singleton in Hin. subst a.
        unfold produced_image in Hp. simpl in Hp. congruence.
      * intros Hall. apply Hsame. intros a Hin. apply Hall.
        apply elem_of_app. left. exact Hin.
  - simpl. split; [reflexivity |]. split; [| reflexivity].
    intros (a & Hin & _). inversion Hin.
Qed.



(** ** The project run: what the loop over the plan builds *)

(** [status.json] exists and its [images] key is the manifest's image
    list. *)
Lemma mirror_update_status isoformat (d : status_doc) w :
  d !! "images" = None ->
  (exists doc, status_json w = Some doc
               /\ doc !! "images" = Some (SImages (images_of w))) ->
  exists doc, status_json (update_status isoformat d w) = Some doc
              /\ doc !! "images" = Some (SImages (images_of (update_status isoformat d w))).
Proof.
  intros Hd (doc & Hj & Hi). eexists. split; [reflexivity |].
  rewrite lookup_insert_ne by discriminate.
  rewrite (lookup_union_r _ _ _ Hd). rewrite Hj. simpl. exact Hi.
Qed.

Lemma mirror_save isoformat job_id e w :
  is_Some (status_json w) ->
  exists doc,
    status_json (save_image_to_manifest isoformat job_id e w) = Some doc
    /\ doc !! "images"
       = Some (SImages (images_of (save_image_to_manifest isoformat job_id e w))).
Proof.
  intros [status Hj]. unfold save_image_to_manifest. simpl. rewrite Hj.
  eexists. split; [reflexivity |]. rewrite lookup_insert_eq. reflexivity.
Qed.

Section RunMore.

Variable isoformat : nat -> string.
Variable strftime : nat -> string.
Variables (MAX T : Z).
Variable gen : string -> nat -> string -> option bytes.
Variables (vi vii : string -> nat -> bytes -> verification).
Variable hero_prompt : string.
Variable bvp : shot -> string.
Variables (user_prompt job_id : string).

Local Abbreviation refine_shot_ :=
  (GenerateProject.refine_shot isoformat MAX T gen vi vii bvp).
Local Abbreviation process_shot_ :=
  (GenerateProject.process_shot isoformat MAX T gen vi vii bvp job_id).
Local Abbreviation main_ :=
  (GenerateProject.main isoformat strftime MAX T gen vi vii hero_prompt bvp
     user_prompt job_id).

(** The loop keeps the mirror and the existence of [status.json]. *)
Lemma refine_shot_mirror s w :
  (exists doc, status_json w = Some doc
               /\ doc !! "images" = Some (SImages (images_of w))) ->
  exists doc, status_json (wld (refine_shot_ s w)) = Some doc
              /\ doc !! "images" = Some (SImages (images_of (wld (refine_shot_ s w)))).
Proof.
  intros Hm. unfold GenerateProject.refine_shot, refine.
  apply (while_attempts_wld _ _ _ _ _ _ _ _ _ _
           (fun w' => exists doc, status_json w' = Some doc
                                  /\ doc !! "images" = Some (SImages (images_of w')))).
  - intros image w' Hw'. unfold GenerateProject.before_verify.
    apply mirror_update_status; [reflexivity |]. exact Hw'.
  - intros w' Hw'. exact Hw'.
  - exact Hm.
Qed.

(** What one iteration over the plan does to the manifest and the mirror. *)
Lemma process_shot_shape timestamp total w completed s :
  (exists doc, status_json w = Some doc
               /\ doc !! "images" = Some (SImages (images_of w))) ->
  let r := process_shot_ timestamp total (w, completed) s in
  (exists doc, status_json r.1 = Some doc
               /\ doc !! "images" = Some (SImages (images_of r.1)))
  /\ ((r.2 = completed /\ images_of r.1 = images_of w)
      \/ (shot_id s <> "hero_facade" /\ r.2 = completed + 1
          /\ exists filename st lc created_at,
               images_of r.1
               = images_of w
                   ++ [GenerateProject.image_entry job_id s completed filename
                         st lc created_at])).
Proof.
  intros Hm. unfold GenerateProject.process_shot.
  destruct (String.eqb_spec (shot_id s) "hero_facade") as [Heq | Hne].
  - cbn [fst snd]. split; [exact Hm | left; split; reflexivity].
  - match goal with
    | |- context [GenerateProject.refine_shot _ _ _ _ _ _ _ s ?w0] => set (w1 := w0)
    end.
    assert (Hm1 : exists doc, status_json w1 = Some doc
                              /\ doc !! "images" = Some (SImages (images_of w1))).
    { unfold w1. apply mirror_update_status; [reflexivity | exact Hm]. }
    pose proof (refine_shot_mirror s w1 Hm1) as Hm2.
    assert (Himg : images_of (wld (refine_shot_ s w1)) = images_of w).
    { rewrite project_refine_images. reflexivity. }
    set (st := refine_shot_ s w1) in *.
    unfold GenerateProject.store_best.
    destruct (bytes_truthy (best_image_data st)).
    + cbv zeta. cbn [fst snd]. split.
      * apply mirror_save. destruct Hm2 as (doc & Hj & _). simpl. eauto.
      * right. split; [exact Hne |]. split; [reflexivity |].
        eexists _, st, _, _. rewrite images_of_save. simpl.
        change (images_of (tick (write_file _ _ (wld st)))) with (images_of (wld st)).
        rewrite Himg. reflexivity.
    + cbn [fst snd]. split; [exact Hm2 |]. left. split; [reflexivity | exact Himg].
Qed.

(** The loop over the plan, from a job directory holding the hero entry. *)
Lemma fold_shots_shape timestamp total shots w completed :
  mirrored w -> numbered job_id (images_of w) ->
  Z.of_nat (length (images_of w)) = completed ->
  let r := foldl (process_shot_ timestamp total) (w, completed) shots in
  mirrored r.1 /\ numbered job_id (images_of r.1)
  /\ Z.of_nat (length (images_of r.1)) = r.2
  /\ exists added,
       images_of r.1 = images_of w ++ added
       /\ sublist (variation_types added) (map shot_id (loop_shots shots))
       /\ length (variation_types added) = length added.
Proof.
  revert w completed. induction shots as [|s shots IH]; intros w completed Hm Hn Hl.
  - cbn [foldl fst snd]. split; [exact Hm |]. split; [exact Hn |]. split; [exact Hl |].
    exists []. rewrite app_nil_r. split; [reflexivity |].
    split; [constructor | reflexivity].
  - cbn [foldl].
    destruct (process_shot_shape timestamp total w completed s Hm) as [Hm1 Hcase].
    destruct (process_shot_ timestamp total (w, completed) s) as [w1 c1].
    cbn [fst snd] in *.
    destruct Hcase as [[-> Himg] | (Hne & -> & f & st & lc & ca & Himg)].
    + destruct (IH w1 completed Hm1)
        as (Hm2 & Hn2 & Hl2 & added & Hadd & Hsub & Hlen).
      * rewrite Himg. exact Hn.
      * rewrite Himg. exact Hl.
      * split; [exact Hm2 |]. split; [exact Hn2 |]. split; [exact Hl2 |].
        exists added. rewrite Hadd, Himg. split; [reflexivity |].
        split; [| exact Hlen].
        unfold loop_shots. simpl List.filter.
        destruct (negb (String.eqb (shot_id s) "hero_facade"));
          [apply sublist_cons |]; exact Hsub.
    + destruct (IH w1 (completed + 1) Hm1)
        as (Hm2 & Hn2 & Hl2 & added & Hadd & Hsub & Hlen).
      * rewrite Himg. intros i e Hi.
        apply lookup_app_Some in Hi as [Hi | [Hge Hi]]; [exact (Hn i e Hi) |].
        apply list_lookup_singleton_Some in Hi as [Hi <-].
        assert (i = length (images_of w)) as -> by lia.
        rewrite Hl. reflexivity.
      * rewrite Himg, length_app. simpl. lia.
      * split; [exact Hm2 |]. split; [exact Hn2 |]. split; [exact Hl2 |].
        eexists. rewrite Hadd, Himg, <- app_assoc. split; [reflexivity |].
        split.
        -- unfold loop_shots. simpl List.filter.
           rewrite (proj2 (String.eqb_neq _ _) Hne). simpl.
           apply sublist_skip. exact Hsub.
        -- unfold variation_types in *. rewrite omap_app, !length_app.
           f_equal. exact Hlen.
Qed.

Lemma use_approved_hero_stored total hero_filename hero_data w :
  images_of w = [] -> is_Some (status_json w) ->
  let w' := GenerateProject.use_approved_hero isoformat job_id total hero_filename
              hero_data w in
  mirrored w'
  /\ exists created_at,
       images_of w' = [GenerateProject.hero_entry job_id hero_filename created_at].
Proof.
  intros Himg [status Hst]. unfold GenerateProject.use_approved_hero.
  cbv zeta. simpl manifest_json.
  assert (Hex : forall m, manifest_json w = Some m ->
            existsb (fun img : entry => entry_flag img "isHero") (m_images m) = false).
  { intros m Hm. unfold images_of in Himg. rewrite Hm in Himg. simpl in Himg.
    rewrite Himg. reflexivity. }
  match goal with
  | |- context [save_image_to_manifest isoformat job_id ?e ?w0] =>
      assert (Hgoal : mirrored (save_image_to_manifest isoformat job_id e w0)
                      /\ images_of (save_image_to_manifest isoformat job_id e w0)
                         = [e])
  end.
  { split.
    - apply mirror_save. simpl. eauto.
    - rewrite images_of_save.
      change (images_of (tick (write_file hero_filename hero_data
                (update_status isoformat _ w)))) with (images_of w).
      rewrite Himg. reflexivity. }
  destruct (manifest_json w) as [m|] eqn:Hm.
  - rewrite (Hex m eq_refl). split; [apply Hgoal |]. eexists. apply Hgoal.
  - split; [apply Hgoal |]. eexists. apply Hgoal.
Qed.

Lemma generate_hero_mirrored timestamp w :
  bytes_truthy (gen "hero_facade" 1%nat hero_prompt) = true ->
  mirrored (GenerateProject.generate_hero isoformat gen hero_prompt job_id
              timestamp w).1.
Proof.
  intros Hv. unfold GenerateProject.generate_hero. rewrite Hv. simpl negb.
  cbv iota. cbn [fst]. apply mirror_save. simpl. eauto.
Qed.

(** The hero is available: a pre-approved file was given, or the
    synthesizer returns an image for the hero prompt.  Then the run goes
    through the whole plan and ends with the final status. *)
Lemma main_run_summary project_type parsed from_hero w :
  is_Some from_hero \/ bytes_truthy (gen "hero_facade" 1%nat hero_prompt) = true ->
  let shots :=
    (GenerateProject.start_job isoformat strftime user_prompt job_id
       project_type parsed w).1.2 in
  let w' := main_ project_type parsed from_hero w in
  exists filename created_at added doc,
    images_of w' = GenerateProject.hero_entry job_id filename created_at :: added
    /\ sublist (variation_types added) (map shot_id (loop_shots shots))
    /\ length (variation_types added) = length added
    /\ numbered job_id (images_of w')
    /\ status_json w' = Some doc
    /\ doc !! "images" = Some (SImages (images_of w'))
    /\ doc !! "status" = Some (SLeaf (JStr "complete"))
    /\ doc !! "progress" = Some (SLeaf (JInt 100))
    /\ doc !! "currentImage" = Some (SLeaf (JInt (Z.of_nat (length shots))))
    /\ doc !! "totalImages" = Some (SLeaf (JInt (Z.of_nat (length shots))))
    /\ doc !! "message"
       = Some (SLeaf (JStr ("Generated "
                              +:+ pretty (Z.of_nat (length (images_of w')))
                              +:+ " images"))).
Proof.
  intros Hhero shots w'. subst shots w'. unfold GenerateProject.main.
  pose proof (start_job_frame isoformat strftime user_prompt job_id
                project_type parsed w) as Hstart.
  assert (Hst1 : is_Some (status_json
            (GenerateProject.start_job isoformat strftime user_prompt job_id
               project_type parsed w).1.1)) by (simpl; eauto).
  destruct (GenerateProject.start_job isoformat strftime user_prompt job_id
              project_type parsed w) as [[w1 shots] timestamp].
  cbn [fst snd] in *. destruct Hstart as (Himg1 & _ & _).
  assert (Hstep : exists w4 filename created_at,
            match from_hero with
            | Some (hero_filename, hero_data) =>
                (GenerateProject.use_approved_hero isoformat job_id
                   (Z.of_nat (length shots)) hero_filename hero_data w1, true)
            | None =>
                GenerateProject.generate_hero isoformat gen hero_prompt job_id
                  timestamp w1
            end = (w4, true)
            /\ mirrored w4
            /\ images_of w4
               = [GenerateProject.hero_entry job_id filename created_at]).
  { destruct from_hero as [[hero_filename hero_data]|].
    - destruct (use_approved_hero_stored (Z.of_nat (length shots)) hero_filename
                  hero_data w1 Himg1 Hst1) as (Hm & created_at & Himg).
      eexists _, hero_filename, created_at. split; [reflexivity |].
      split; assumption.
    - destruct Hhero as [[x Hx] | Hv]; [discriminate |].
      pose proof (generate_hero_mirrored timestamp w1 Hv) as Hm.
      destruct (generate_hero_stored isoformat gen hero_prompt job_id timestamp w1 Hv)
        as (w4 & filename & created_at & Hg & Himg).
      rewrite Hg in Hm. cbn [fst] in Hm.
      exists w4, filename, created_at. split; [exact Hg |]. split; [exact Hm |].
      rewrite Himg, Himg1. reflexivity. }
  destruct Hstep as (w4 & filename & created_at & -> & Hm4 & Himg4).
  simpl negb. cbv iota.
  unfold GenerateProject.run_shots.
  destruct (fold_shots_shape timestamp (Z.of_nat (length shots)) shots w4 1 Hm4)
    as (Hm5 & Hn5 & Hl5 & added & Hadd & Hsub & Hlen).
  { rewrite Himg4. intros [|i] e Hi; [| destruct i; discriminate].
    injection Hi as <-. reflexivity. }
  { rewrite Himg4. reflexivity. }
  destruct (foldl (process_shot_ timestamp (Z.of_nat (length shots))) (w4, 1) shots)
    as [w5 completed].
  cbn [fst snd] in *.
  destruct Hm5 as (doc5 & Hj5 & Hi5).
  unfold GenerateProject.finish.
  match goal with
  | |- context [update_status isoformat ?d w5] =>
      destruct (update_status_spec isoformat d w5) as (doc & Hj & _ & Hnew & Hold);
      set (w6 := update_status isoformat d w5) in *
  end.
  assert (Himg6 : images_of w6 = images_of w5) by reflexivity.
  exists filename, created_at, added, doc.
  rewrite Himg6.
  split; [rewrite Hadd, Himg4; reflexivity |].
  split; [exact Hsub |]. split; [exact Hlen |]. split; [exact Hn5 |].
  split; [exact Hj |].
  split.
  { rewrite Hold; [| discriminate | reflexivity]. rewrite Hj5. simpl. exact Hi5. }
  rewrite Hl5.
  repeat split; apply Hnew; try discriminate; reflexivity.
Qed.

End RunMore.

Lemma plan_shape project_type num_units :
  let shots := get_shots_for_project_type project_type num_units in
  map shot_id shots = "hero_facade" :: map shot_id (loop_shots shots)
  /\ NoDup (map shot_id shots).
Proof.
  unfold get_shots_for_project_type.
  destruct (is_multi_unit project_type num_units); split;
    try (vm_compute; reflexivity);
    apply (bool_decide_unpack _); vm_compute; exact I.
Qed.

(** Whatever the job directory held before, when the hero is available
    (a pre-approved file, or an image from the synthesizer) the manifest of
    a finished project run lists the hero first and then stored shots in
    plan order: the [variationType]s of its entries are a duplicate-free
    sublist of the plan's shot ids, one per entry, so there are at most as
    many entries as planned shots. *)
Theorem project_run_follows_plan
    (isoformat strftime : nat -> string) (MAX T : Z)
    (gen : string -> nat -> string -> option bytes)
    (vi vii : string -> nat -> bytes -> verification)
    (hero_prompt : string) (bvp : shot -> string) (user_prompt job_id : string)
    (project_type : option string) (parsed : GenerateProject.parsed_prompt)
    (from_hero : option (string * bytes)) (w : world) :
  is_Some from_hero \/ bytes_truthy (gen "hero_facade" 1%nat hero_prompt) = true ->
  let shots :=
    (GenerateProject.start_job isoformat strftime user_prompt job_id
       project_type parsed w).1.2 in
  let w' := GenerateProject.main isoformat strftime MAX T gen vi vii hero_prompt
              bvp user_prompt job_id project_type parsed from_hero w in
  (exists rest, variation_types (images_of w') = "hero_facade" :: rest)
  /\ sublist (variation_types (images_of w')) (map shot_id shots)
  /\ NoDup (variation_types (images_of w'))
  /\ length (variation_types (images_of w')) = length (images_of w')
  /\ (length (images_of w') <= length shots)%nat.
Proof.
  intros Hhero shots w'.
  destruct (main_run_summary isoformat strftime MAX T gen vi vii hero_prompt bvp
              user_prompt job_id project_type parsed from_hero w Hhero)
    as (filename & created_at & added & doc & Himg & Hsub & Hlen & _).
  fold w' in Himg. fold shots in Hsub.
  assert (Hshape : map shot_id shots = "hero_facade" :: map shot_id (loop_shots shots)
                   /\ NoDup (map shot_id shots)).
  { unfold shots. cbn [GenerateProject.start_job fst snd]. apply plan_shape. }
  destruct Hshape as [Hplan Hnodup].
  assert (Htypes : variation_types (images_of w')
                   = "hero_facade" :: variation_types added).
  { rewrite Himg. reflexivity. }
  assert (Hsub' : sublist (variation_types (images_of w')) (map shot_id shots)).
  { rewrite Htypes, Hplan. apply sublist_skip. exact Hsub. }
  assert (Hcount : length (variation_types (images_of w')) = length (images_of w')).
  { rewrite Htypes, Himg. simpl. rewrite Hlen. reflexivity. }
  split; [eauto |]. split; [exact Hsub' |].
  split; [exact (sublist_NoDup _ _ Hnodup Hsub') |].
  split; [exact Hcount |].
  apply sublist_length in Hsub'. rewrite length_map in Hsub'. lia.
Qed.

(** When the hero is available, the entries of the finished manifest carry
    the ids [<job_id>_1], [<job_id>_2], ... without gaps, in manifest order
    (a skipped shot takes no number), and the final status message reports
    their count. *)
Theorem project_run_numbers_entries
    (isoformat strftime : nat -> string) (MAX T : Z)
    (gen : string -> nat -> string -> option bytes)
    (vi vii : string -> nat -> bytes -> verification)
    (hero_prompt : string) (bvp : shot -> string) (user_prompt job_id : string)
    (project_type : option string) (parsed : GenerateProject.parsed_prompt)
    (from_hero : option (string * bytes)) (w : world) :
  is_Some from_hero \/ bytes_truthy (gen "hero_facade" 1%nat hero_prompt) = true ->
  let w' := GenerateProject.main isoformat strftime MAX T gen vi vii hero_prompt
              bvp user_prompt job_id project_type parsed from_hero w in
  (forall i e, images_of w' !! i = Some e ->
               e !! "id" = Some (JStr (job_id +:+ "_" +:+ pretty (Z.of_nat i + 1))))
  /\ exists doc,
       status_json w' = Some doc
       /\ doc !! "message"
          = Some (SLeaf (JStr ("Generated "
                                 +:+ pretty (Z.of_nat (length (images_of w')))
                                 +:+ " images"))).
Proof.
  intros Hhero w'.
  destruct (main_run_summary isoformat strftime MAX T gen vi vii hero_prompt bvp
              user_prompt job_id project_type parsed from_hero w Hhero)
    as (filename & created_at & added & doc & _ & _ & _ & Hn & Hj & _ & _ & _ & _
        & _ & Hmsg).
  split; [exact Hn |]. exists doc. split; assumption.
Qed.

(** When the hero is available, the run ends with status [complete] and
    progress 100, [currentImage] equals [totalImages] equals the size of the
    plan even if shots were skipped, and the [images] list of [status.json]
    is the manifest's image list. *)
Theorem project_run_final_status
    (isoformat strftime : nat -> string) (MAX T : Z)
    (gen : string -> nat -> string -> option bytes)
    (vi vii : string -> nat -> bytes -> verification)
    (hero_prompt : string) (bvp : shot -> string) (user_prompt job_id : string)
    (project_type : option string) (parsed : GenerateProject.parsed_prompt)
    (from_hero : option (string * bytes)) (w : world) :
  is_Some from_hero \/ bytes_truthy (gen "hero_facade" 1%nat hero_prompt) = true ->
  let shots :=
    (GenerateProject.start_job isoformat strftime user_prompt job_id
       project_type parsed w).1.2 in
  let w' := GenerateProject.main isoformat strftime MAX T gen vi vii hero_prompt
              bvp user_prompt job_id project_type parsed from_hero w in
  exists doc,
    status_json w' = Some doc
    /\ status_of doc = Some "complete"
    /\ progress_of doc = Some 100
    /\ doc !! "currentImage" = Some (SLeaf (JInt (Z.of_nat (length shots))))
    /\ doc !! "totalImages" = Some (SLeaf (JInt (Z.of_nat (length shots))))
    /\ doc !! "images" = Some (SImages (images_of w')).
Proof.
  intros Hhero shots w'.
  destruct (main_run_summary isoformat strftime MAX T gen vi vii hero_prompt bvp
              user_prompt job_id project_type parsed from_hero w Hhero)
    as (filename & created_at & added & doc & _ & _ & _ & _ & Hj & Hi & Hs & Hp
        & Hc & Ht & _).
  exists doc. split; [exact Hj |].
  unfold status_of, progress_of. rewrite Hs, Hp.
  repeat split; assumption.
Qed.

Lemma project_run_follows_plan_witness :
  let w' :=
    GenerateProject.main Sample.isoformat Sample.strftime 3 80 Sample.always_image
      (Sample.scored [90]) Sample.judge_error "hero prompt" Sample.prompt_of
      "two townhouses in Balwyn" "job7" None (GenerateProject.Parsed None None)
      None Sample.job_dir in
  bytes_truthy (Sample.always_image "hero_facade" 1%nat "hero prompt") = true
  /\ NoDup (variation_types (images_of w'))
  /\ (length (images_of w') <= 18)%nat.
Proof.
  intros w'.
  split; [reflexivity |].
  destruct (project_run_follows_plan Sample.isoformat Sample.strftime 3 80
              Sample.always_image (Sample.scored [90]) Sample.judge_error
              "hero prompt" Sample.prompt_of "two townhouses in Balwyn" "job7"
              None (GenerateProject.Parsed None None) None Sample.job_dir
              (or_intror eq_refl))
    as (_ & _ & Hnodup & _ & Hlen).
  split; [exact Hnodup | exact Hlen].
Defined.

Lemma project_run_numbers_entries_witness :
  let w' :=
    GenerateProject.main Sample.isoformat Sample.strftime 3 80 Sample.always_image
      (Sample.scored [90]) Sample.judge_error "hero prompt" Sample.prompt_of
      "two townhouses in Balwyn" "job7" None (GenerateProject.Parsed None None)
      (Some ("hero_facade_1.png", Sample.image)) empty_world in
  is_Some (Some ("hero_facade_1.png", Sample.image))
  /\ forall i e, images_of w' !! i = Some e ->
                 e !! "id" = Some (JStr ("job7" +:+ "_" +:+ pretty (Z.of_nat i + 1))).
Proof.
  intros w'.
  split; [eexists; reflexivity |].
  exact (proj1 (project_run_numbers_entries Sample.isoformat Sample.strftime 3 80
                  Sample.always_image (Sample.scored [90]) Sample.judge_error
                  "hero prompt" Sample.prompt_of "two townhouses in Balwyn" "job7"
                  None (GenerateProject.Parsed None None)
                  (Some ("hero_facade_1.png", Sample.image)) empty_world
                  (or_introl (ex_intro _ _ eq_refl)))).
Defined.

Lemma project_run_final_status_witness :
  let w' :=
    GenerateProject.main Sample.isoformat Sample.strftime 3 80 Sample.always_image
      Sample.judge_error Sample.judge_error "hero prompt" Sample.prompt_of
      "six apartments" "job7" (Some "apartments")
      (GenerateProject.Parsed None None) None empty_world in
  bytes_truthy (Sample.always_image "hero_facade" 1%nat "hero prompt") = true
  /\ exists doc,
       status_json w' = Some doc
       /\ status_of doc = Some "complete"
       /\ doc !! "currentImage" = Some (SLeaf (JInt 20))
       /\ doc !! "images" = Some (SImages (images_of w')).
Proof.
  intros w'.
  split; [reflexivity |].
  destruct (project_run_final_status Sample.isoformat Sample.strftime 3 80
              Sample.always_image Sample.judge_error Sample.judge_error
              "hero prompt" Sample.prompt_of "six apartments" "job7"
              (Some "apartments") (GenerateProject.Parsed None None) None
              empty_world (or_intror eq_refl))
    as (doc & Hj & Hs & _ & Hc & _ & Hi).
  exists doc. repeat split; assumption.
Defined.

Lemma fresh_hero_progress_nondecreasing_witness :
  status_log empty_world = []
  /\ nondecreasing
       (progress_history
          (GenerateProject.main Sample.isoformat Sample.strftime 3 80
             Sample.always_image (Sample.scored [60; 90]) (Sample.scored [90])
             "hero prompt" Sample.prompt_of "two townhouses in Balwyn" "job7"
             None (GenerateProject.Parsed None None) None empty_world)) = true.
Proof.
  split; [reflexivity |].
  apply (fresh_hero_progress_nondecreasing Sample.isoformat Sample.strftime 3 80
           Sample.always_image (Sample.scored [60; 90]) (Sample.scored [90])
           "hero prompt" Sample.prompt_of "two townhouses in Balwyn" "job7"
           None (GenerateProject.Parsed None None) empty_world).
  reflexivity.
Defined.

(** ** A run with no attempt budget *)

Lemma refine_zero_budget
    (MAX T : Z) (gen : nat -> string -> option bytes)
    (vi vii : nat -> bytes -> verification) (asm : option string -> string)
    (bfp : verification -> string) (interior : bool)
    (bv : bytes -> world -> world) (av : world -> world) (w : world) :
  MAX <= 0 -> refine MAX T gen vi vii asm bfp interior bv av w = initial_vars w.
Proof.
  intros HM. unfold refine. destruct (Z.to_nat MAX) as [|n] eqn:E; [reflexivity |].
  lia.
Qed.

Section ZeroBudget.

Variable isoformat : nat -> string.
Variable strftime : nat -> string.
Variables (MAX T : Z).
Variable gen : string -> nat -> string -> option bytes.
Variables (vi vii : string -> nat -> bytes -> verification).
Variable hero_prompt : string.
Variable bvp : shot -> string.
Variables (user_prompt job_id : string).
Hypothesis no_budget : MAX <= 0.

Local Abbreviation process_shot_ :=
  (GenerateProject.process_shot isoformat MAX T gen vi vii bvp job_id).

Lemma process_shot_zero_budget timestamp total acc s :
  images_of (process_shot_ timestamp total acc s).1 = images_of acc.1
  /\ (process_shot_ timestamp total acc s).2 = acc.2.
Proof.
  destruct acc as [w completed]. unfold GenerateProject.process_shot.
  destruct (String.eqb (shot_id s) "hero_facade"); [split; reflexivity |].
  unfold GenerateProject.refine_shot. rewrite refine_zero_budget by exact no_budget.
  split; reflexivity.
Qed.

Lemma fold_shots_zero_budget timestamp total shots acc :
  images_of (foldl (process_shot_ timestamp total) acc shots).1 = images_of acc.1
  /\ (foldl (process_shot_ timestamp total) acc shots).2 = acc.2.
Proof.
  revert acc. induction shots as [|s shots IH]; intros acc; [split; reflexivity |].
  cbn [foldl].
  destruct (IH (process_shot_ timestamp total acc s)) as [H1 H2].
  destruct (process_shot_zero_budget timestamp total acc s) as [H3 H4].
  rewrite H1, H2, H3, H4. split; reflexivity.
Qed.

(** With [MAX_REGEN_ATTEMPTS] at 0 or below no shot of the loop is ever
    attempted: a run whose hero is synthesized still ends normally, with the
    hero as the only manifest entry. *)
Theorem zero_budget_run_keeps_only_hero project_type parsed w :
  bytes_truthy (gen "hero_facade" 1%nat hero_prompt) = true ->
  let w' := GenerateProject.main isoformat strftime MAX T gen vi vii hero_prompt
              bvp user_prompt job_id project_type parsed None w in
  (exists filename created_at,
      images_of w' = [GenerateProject.hero_entry job_id filename created_at])
  /\ exists doc,
       status_json w' = Some doc /\ status_of doc = Some "complete"
       /\ doc !! "message" = Some (SLeaf (JStr "Generated 1 images")).
Proof.
  intros Hv w'. subst w'. unfold GenerateProject.main.
  pose proof (start_job_frame isoformat strftime user_prompt job_id
                project_type parsed w) as Hstart.
  destruct (GenerateProject.start_job isoformat strftime user_prompt job_id
              project_type parsed w) as [[w1 shots] timestamp].
  cbn [fst snd] in Hstart. destruct Hstart as (Himg1 & _ & _).
  destruct (generate_hero_stored isoformat gen hero_prompt job_id timestamp w1 Hv)
    as (w4 & filename & created_at & -> & Himg4).
  simpl negb. cbv iota. unfold GenerateProject.run_shots.
  destruct (fold_shots_zero_budget timestamp (Z.of_nat (length shots)) shots (w4, 1))
    as [Himg5 Hc5].
  destruct (foldl (process_shot_ timestamp (Z.of_nat (length shots))) (w4, 1) shots)
    as [w5 completed].
  cbn [fst snd] in *. subst completed.
  unfold GenerateProject.finish.
  match goal with
  | |- context [update_status isoformat ?d w5] =>
      destruct (update_status_spec isoformat d w5) as (doc & Hj & _ & Hnew & _);
      set (w6 := update_status isoformat d w5) in *
  end.
  split.
  - exists filename, created_at.
    change (images_of w6) with (images_of w5).
    rewrite Himg5, Himg4, Himg1. reflexivity.
  - exists doc. split; [exact Hj |]. split.
    + unfold status_of. rewrite (Hnew "status" (SLeaf (JStr "complete")));
        [reflexivity | discriminate | reflexivity].
    + apply Hnew; [discriminate | reflexivity].
Qed.

End ZeroBudget.

Lemma zero_budget_run_keeps_only_hero_witness :
  let w' :=
    GenerateProject.main Sample.isoformat Sample.strftime 0 80 Sample.always_image
      (Sample.scored [90]) (Sample.scored [90]) "hero prompt" Sample.prompt_of
      "two townhouses in Balwyn" "job7" None (GenerateProject.Parsed None None)
      None empty_world in
  0 <= 0
  /\ bytes_truthy (Sample.always_image "hero_facade" 1%nat "hero prompt") = true
  /\ length (images_of w') = 1%nat.
Proof.
  intros w'.
  assert (H0 : 0 <= 0) by lia.
  split; [exact H0 |]. split; [reflexivity |].
  destruct (zero_budget_run_keeps_only_hero Sample.isoformat Sample.strftime 0 80
              Sample.always_image (Sample.scored [90]) (Sample.scored [90])
              "hero prompt" Sample.prompt_of "two townhouses in Balwyn" "job7"
              H0 None (GenerateProject.Parsed None None) empty_world eq_refl)
    as [(filename & created_at & Himg) _].
  fold w' in Himg. rewrite Himg. reflexivity.
Defined.

(** ** A project run followed by a regeneration *)

Lemma find_no_hero (l : list entry) :
  Forall (fun e => entry_flag e "isHero" = false) l ->
  List.find (fun img => entry_flag img "isHero") l = None.
Proof.
  induction 1 as [|e l He _ IH]; [reflexivity |]. simpl. rewrite He. exact IH.
Qed.

Lemma numbered_replace job_id (l : list entry) i old new id :
  numbered job_id l -> l !! i = Some old -> old !! "id" = Some id ->
  numbered job_id (<[i := <["id" := id]> new]> l).
Proof.
  intros Hn Hi Hid j e Hj.
  destruct (decide (j = i)) as [-> | Hne].
  - rewrite list_lookup_insert_eq in Hj by (eapply lookup_lt_Some; exact Hi).
    injection Hj as <-. rewrite lookup_insert_eq, <- Hid. exact (Hn i old Hi).
  - rewrite list_lookup_insert_ne in Hj by congruence. exact (Hn j e Hj).
Qed.

(** On a manifest whose entries all carry their number as [id], storing a
    retained candidate cannot fail. *)
Lemma save_best_numbered isoformat strftime T job_id jid s vt st :
  is_Some (manifest_json (wld st)) ->
  numbered jid (images_of (wld st)) ->
  bytes_truthy (best_image_data st) = true ->
  exists w',
    RegenerateSingle.save_best isoformat strftime T job_id s vt st = Ok w'
    /\ length (images_of w') = length (images_of (wld st))
    /\ numbered jid (images_of w')
    /\ forall i e, images_of w' !! i = Some e ->
         images_of (wld st) !! i = Some e
         \/ (e !! "variationType" = Some (JStr vt)
             /\ is_Some (e !! "regenerated_at")
             /\ e !! "isHero" = Some (JBool false)).
Proof.
  intros [m Hm] Hn Hs. unfold RegenerateSingle.save_best. rewrite Hs.
  unfold RegenerateSingle.update_manifest. simpl manifest_json. rewrite Hm.
  unfold images_of in Hn |- *. rewrite Hm in Hn |- *. simpl in Hn.
  unfold RegenerateSingle.replace_entry.
  destruct (RegenerateSingle.find_variation vt 0 (m_images m)) as [[i old]|] eqn:Hf.
  - destruct (find_variation_spec _ _ _ _ _ Hf) as (j & -> & Hj & _).
    simpl in Hj |- *. rewrite (Hn j old Hj).
    match goal with
    | |- context [<[j := ?e]> (m_images m)] =>
        assert (Hnum : numbered jid (<[j := e]> (m_images m)))
          by (apply (numbered_replace jid _ j old); [exact Hn | exact Hj | exact (Hn j old Hj)]);
        assert (Hent : forall i e0, <[j := e]> (m_images m) !! i = Some e0 ->
                  m_images m !! i = Some e0
                  \/ (e0 !! "variationType" = Some (JStr vt)
                      /\ is_Some (e0 !! "regenerated_at")
                      /\ e0 !! "isHero" = Some (JBool false)))
    end.
    { intros i e0 Hi. destruct (decide (i = j)) as [-> | Hne].
      - rewrite list_lookup_insert_eq in Hi by (eapply lookup_lt_Some; exact Hj).
        injection Hi as <-. right. split; [reflexivity |].
        split; [eexists; reflexivity | reflexivity].
      - rewrite list_lookup_insert_ne in Hi by congruence. left. exact Hi. }
    destruct (status_json (wld st)) as [status|]; simpl;
      (eexists; split; [reflexivity |]); simpl;
      (split; [apply length_insert |]); (split; [exact Hnum | exact Hent]).
  - simpl. destruct (status_json (wld st)) as [status|]; simpl;
      (eexists; split; [reflexivity |]); simpl;
      (split; [reflexivity |]); (split; [exact Hn |]); intros i e Hi; left; exact Hi.
Qed.

Section RunThenRegenerate.

Variable isoformat : nat -> string.
Variable strftime : nat -> string.
Variables (MAX T : Z).
Variable gen : string -> nat -> string -> option bytes.
Variables (vi vii : string -> nat -> bytes -> verification).
Variable hero_prompt : string.
Variable bvp : shot -> string.
Variables (user_prompt job_id : string).

Local Abbreviation refine_shot_ :=
  (GenerateProject.refine_shot isoformat MAX T gen vi vii bvp).
Local Abbreviation process_shot_ :=
  (GenerateProject.process_shot isoformat MAX T gen vi vii bvp job_id).
Local Abbreviation main_ :=
  (GenerateProject.main isoformat strftime MAX T gen vi vii hero_prompt bvp
     user_prompt job_id).

(** A file that is not one of the loop's temporary files stays in the
    output directory, and every entry a shot appends is unflagged. *)
Lemma process_shot_keeps_hero f timestamp total w completed s :
  (forall id, f <> GenerateProject.temp_name id) ->
  is_Some (files w !! f) ->
  let r := process_shot_ timestamp total (w, completed) s in
  is_Some (files r.1 !! f)
  /\ exists l, images_of r.1 = images_of w ++ l
               /\ Forall (fun e => entry_flag e "isHero" = false) l.
Proof.
  intros Hf Hx. unfold GenerateProject.process_shot.
  destruct (String.eqb (shot_id s) "hero_facade").
  - cbn [fst]. split; [exact Hx |]. exists []. rewrite app_nil_r.
    split; [reflexivity | constructor].
  - match goal with
    | |- context [GenerateProject.refine_shot _ _ _ _ _ _ _ s ?w0] => set (w1 := w0)
    end.
    assert (Hfile : files (wld (refine_shot_ s w1)) !! f = files w !! f).
    { destruct (refine_temp_file MAX T (gen (shot_id s)) (vi (shot_id s))
                  (vii (shot_id s)) (GenerateProject.assemble (bvp s))
                  FixingPrompt.build_fixing_prompt (is_interior_shot (shot_id s))
                  (GenerateProject.before_verify isoformat s)
                  (GenerateProject.after_verify s)
                  (GenerateProject.temp_name (shot_id s)) w1
                  (fun _ _ => eq_refl) (fun _ => eq_refl)) as [Hother _].
      exact (Hother f (Hf _)). }
    assert (Himg : images_of (wld (refine_shot_ s w1)) = images_of w).
    { rewrite project_refine_images. reflexivity. }
    set (st := refine_shot_ s w1) in *.
    unfold GenerateProject.store_best.
    destruct (bytes_truthy (best_image_data st)).
    + cbv zeta. cbn [fst]. split.
      * rewrite files_save. simpl. apply lookup_insert_is_Some'. right.
        rewrite Hfile. exact Hx.
      * eexists. rewrite images_of_save. simpl.
        change (images_of (tick (write_file _ _ (wld st)))) with (images_of (wld st)).
        rewrite Himg. split; [reflexivity |]. repeat constructor.
    + cbn [fst]. split; [rewrite Hfile; exact Hx |]. exists [].
      rewrite app_nil_r. split; [exact Himg | constructor].
Qed.

Lemma fold_shots_keeps_hero f timestamp total shots w completed :
  (forall id, f <> GenerateProject.temp_name id) ->
  is_Some (files w !! f) ->
  let r := foldl (process_shot_ timestamp total) (w, completed) shots in
  is_Some (files r.1 !! f)
  /\ exists l, images_of r.1 = images_of w ++ l
               /\ Forall (fun e => entry_flag e "isHero" = false) l.
Proof.
  intros Hf. revert w completed.
  induction shots as [|s shots IH]; intros w completed Hx.
  - cbn [foldl fst]. split; [exact Hx |]. exists []. rewrite app_nil_r.
    split; [reflexivity | constructor].
  - cbn [foldl].
    destruct (process_shot_keeps_hero f timestamp total w completed s Hf Hx)
      as (Hx1 & l1 & Himg1 & Hl1).
    destruct (process_shot_ timestamp total (w, completed) s) as [w1 c1].
    cbn [fst] in *.
    destruct (IH w1 c1 Hx1) as (Hx2 & l2 & Himg2 & Hl2).
    split; [exact Hx2 |]. exists (l1 ++ l2).
    rewrite Himg2, Himg1, app_assoc. split; [reflexivity |].
    apply Forall_app. split; assumption.
Qed.

(** The job directory a finished run leaves behind: the manifest lists the
    hero entry, flagged, then unflagged entries; the ids are consecutive;
    the hero's file is there; and [status.json] exists. *)
Lemma main_run_leaves_hero project_type parsed from_hero w :
  match from_hero with
  | Some (hero_filename, _) => forall id, hero_filename <> GenerateProject.temp_name id
  | None => bytes_truthy (gen "hero_facade" 1%nat hero_prompt) = true
  end ->
  let w' := main_ project_type parsed from_hero w in
  exists m filename created_at added,
    manifest_json w' = Some m
    /\ m_images m = GenerateProject.hero_entry job_id filename created_at :: added
    /\ Forall (fun e => entry_flag e "isHero" = false) added
    /\ is_Some (files w' !! filename)
    /\ numbered job_id (m_images m).
Proof.
  intros Hhero w'.
  assert (Havail : is_Some from_hero
                   \/ bytes_truthy (gen "hero_facade" 1%nat hero_prompt) = true).
  { destruct from_hero as [[hf hd]|]; [left; eauto | right; exact Hhero]. }
  destruct (main_run_summary isoformat strftime MAX T gen vi vii hero_prompt bvp
              user_prompt job_id project_type parsed from_hero w Havail)
    as (filename0 & created_at0 & added0 & doc & Himg0 & _ & _ & Hn & _).
  fold w' in Himg0, Hn.
  assert (Hkeep : exists filename created_at added,
            images_of w' = GenerateProject.hero_entry job_id filename created_at :: added
            /\ Forall (fun e => entry_flag e "isHero" = false) added
            /\ is_Some (files w' !! filename)).
  { subst w'. clear Himg0 Hn. unfold GenerateProject.main.
    pose proof (start_job_frame isoformat strftime user_prompt job_id
                  project_type parsed w) as Hstart.
    assert (Hst1 : is_Some (status_json
              (GenerateProject.start_job isoformat strftime user_prompt job_id
                 project_type parsed w).1.1)) by (simpl; eauto).
    destruct (GenerateProject.start_job isoformat strftime user_prompt job_id
                project_type parsed w) as [[w1 shots] timestamp].
    cbn [fst snd] in *. destruct Hstart as (Himg1 & _ & _).
    assert (Hstep : exists w4 filename created_at,
              match from_hero with
              | Some (hero_filename, hero_data) =>
                  (GenerateProject.use_approved_hero isoformat job_id
                     (Z.of_nat (length shots)) hero_filename hero_data w1, true)
              | None =>
                  GenerateProject.generate_hero isoformat gen hero_prompt job_id
                    timestamp w1
              end = (w4, true)
              /\ (forall id, filename <> GenerateProject.temp_name id)
              /\ is_Some (files w4 !! filename)
              /\ images_of w4
                 = [GenerateProject.hero_entry job_id filename created_at]).
    { destruct from_hero as [[hero_filename hero_data]|].
      - destruct (use_approved_hero_stored isoformat job_id (Z.of_nat (length shots))
                    hero_filename hero_data w1 Himg1 Hst1) as (_ & created_at & Himg).
        eexists _, hero_filename, created_at. split; [reflexivity |].
        split; [exact Hhero |]. split; [| exact Himg].
        unfold GenerateProject.use_approved_hero. cbv zeta. simpl manifest_json.
        destruct (manifest_json w1) as [m1|];
          [destruct (existsb _ (m_images m1)) |];
          rewrite ?files_save; simpl; rewrite lookup_insert_eq; eauto.
      - unfold GenerateProject.generate_hero. rewrite Hhero. simpl negb.
        cbv iota zeta.
        eexists _, ("hero_facade_" +:+ timestamp +:+ ".png"), _.
        split; [reflexivity |].
        split; [intros id; unfold GenerateProject.temp_name; simpl; discriminate |].
        split.
        + rewrite files_save. simpl. rewrite lookup_insert_eq. eauto.
        + rewrite images_of_save.
          change (images_of (tick (write_file _ _ (update_status isoformat _ w1))))
            with (images_of w1).
          rewrite Himg1. reflexivity. }
    destruct Hstep as (w4 & filename & created_at & -> & Hf & Hx4 & Himg4).
    simpl negb. cbv iota. unfold GenerateProject.run_shots.
    destruct (fold_shots_keeps_hero filename timestamp (Z.of_nat (length shots))
                shots w4 1 Hf Hx4) as (Hx5 & added & Himg5 & Hflags).
    destruct (foldl (process_shot_ timestamp (Z.of_nat (length shots))) (w4, 1) shots)
      as [w5 completed].
    cbn [fst] in *. unfold GenerateProject.finish.
    exists filename, created_at, added.
    rewrite files_update_status.
    match goal with
    | |- images_of (update_status isoformat ?d w5) = _ /\ _ =>
        change (images_of (update_status isoformat d w5)) with (images_of w5)
    end.
    rewrite Himg5, Himg4. split; [reflexivity |]. split; assumption. }
  destruct Hkeep as (filename & created_at & added & Himg & Hflags & Hx).
  unfold images_of in Himg, Hn.
  destruct (manifest_json w') as [m|]; [| discriminate].
  simpl in Himg, Hn. exists m, filename, created_at, added.
  split; [reflexivity |]. split; [exact Himg |]. split; [exact Hflags |].
  split; assumption.
Qed.

End RunThenRegenerate.

(** After a finished project run every shot of the base plan can be
    regenerated: the hero entry and its file are found, so the outcome
    depends on the loop alone.  Without a retained candidate the script
    exits with code 1; with one it ends normally, the manifest keeps its
    length and its consecutive ids, and each entry is the one the run left
    or a regenerated entry for the requested shot. *)
Theorem regeneration_after_project_run
    (isoformat strftime : nat -> string) (MAX T : Z)
    (gen : string -> nat -> string -> option bytes)
    (vi vii : string -> nat -> bytes -> verification)
    (hero_prompt : string) (bvp : shot -> string) (user_prompt job_id : string)
    (project_type : option string) (parsed : GenerateProject.parsed_prompt)
    (from_hero : option (string * bytes)) (w : world)
    (MAX' T' : Z) (gen' : nat -> string -> option bytes)
    (vi' vii' : nat -> bytes -> verification) (bvp' : shot -> string)
    (variation_type : string) (s : shot) :
  match from_hero with
  | Some (hero_filename, _) => forall id, hero_filename <> GenerateProject.temp_name id
  | None => bytes_truthy (gen "hero_facade" 1%nat hero_prompt) = true
  end ->
  get_shot_by_id variation_type = Some s ->
  let w1 := GenerateProject.main isoformat strftime MAX T gen vi vii hero_prompt
              bvp user_prompt job_id project_type parsed from_hero w in
  let st := RegenerateSingle.refine_shot MAX' T' gen' vi' vii' bvp' s
              variation_type w1 in
  let result := RegenerateSingle.main isoformat strftime MAX' T' gen' vi' vii' bvp'
                  job_id variation_type w1 in
  (bytes_truthy (best_image_data st) = false -> result = Raise (SystemExit 1))
  /\ (bytes_truthy (best_image_data st) = true ->
      exists w2,
        result = Ok w2
        /\ length (images_of w2) = length (images_of w1)
        /\ numbered job_id (images_of w2)
        /\ forall i e, images_of w2 !! i = Some e ->
             images_of w1 !! i = Some e
             \/ (e !! "variationType" = Some (JStr variation_type)
                 /\ is_Some (e !! "regenerated_at")
                 /\ e !! "isHero" = Some (JBool false))).
Proof.
  intros Hhero Hs w1 st result.
  destruct (main_run_leaves_hero isoformat strftime MAX T gen vi vii hero_prompt bvp
              user_prompt job_id project_type parsed from_hero w Hhero)
    as (m & filename & created_at & added & Hm & Himg & _ & Hx & Hn).
  fold w1 in Hm, Hx.
  assert (Hmain : result
                  = RegenerateSingle.save_best isoformat strftime T' job_id s
                      variation_type st).
  { apply (main_reaches_save_best isoformat strftime MAX' T' gen' vi' vii' bvp'
             job_id variation_type w1 m s
             (GenerateProject.hero_entry job_id filename created_at) filename Hm Hs);
      [rewrite Himg; reflexivity | reflexivity | exact Hx]. }
  assert (Hm' : manifest_json (wld st) = Some m).
  { unfold st. rewrite regenerate_refine_manifest. exact Hm. }
  assert (Himg' : images_of (wld st) = images_of w1).
  { unfold images_of. rewrite Hm', Hm. reflexivity. }
  rewrite Hmain. split.
  - intros Hvoid. unfold RegenerateSingle.save_best. rewrite Hvoid. reflexivity.
  - intros Hkept.
    destruct (save_best_numbered isoformat strftime T' job_id job_id s variation_type st)
      as (w2 & Hok & Hlen & Hn2 & Hent).
    + rewrite Hm'. eauto.
    + unfold images_of. rewrite Hm'. exact Hn.
    + exact Hkept.
    + rewrite Himg' in Hlen, Hent. exists w2. repeat split; assumption.
Qed.

Lemma regeneration_after_project_run_witness :
  let w1 :=
    GenerateProject.main Sample.isoformat Sample.strftime 3 80 Sample.always_image
      (Sample.scored [90]) (Sample.scored [90]) "hero prompt" Sample.prompt_of
      "two townhouses in Balwyn" "job7" None (GenerateProject.Parsed None None)
      None empty_world in
  let result :=
    RegenerateSingle.main Sample.isoformat Sample.strftime 3 80
      (Sample.always_image "interior_kitchen")
      (Sample.judge_error "interior_kitchen")
      (Sample.scored [85] "interior_kitchen") Sample.prompt_of
      "job7" "interior_kitchen" w1 in
  bytes_truthy (Sample.always_image "hero_facade" 1%nat "hero prompt") = true
  /\ get_shot_by_id "interior_kitchen" = Some Sample.kitchen
  /\ exists w2, result = Ok w2 /\ length (images_of w2) = length (images_of w1).
Proof.
  intros w1 result.
  split; [reflexivity |]. split; [reflexivity |].
  destruct (proj2 (regeneration_after_project_run
              Sample.isoformat Sample.strftime 3 80 Sample.always_image
              (Sample.scored [90]) (Sample.scored [90]) "hero prompt" Sample.prompt_of
              "two townhouses in Balwyn" "job7" None (GenerateProject.Parsed None None)
              None empty_world 3 80
              (Sample.always_image "interior_kitchen")
              (Sample.judge_error "interior_kitchen")
              (Sample.scored [85] "interior_kitchen") Sample.prompt_of
              "interior_kitchen" Sample.kitchen eq_refl eq_refl))
    as (w2 & Hok & Hlen & _).
  - vm_compute. reflexivity.
  - exists w2. split; [exact Hok | exact Hlen].
Defined.

(** Regenerating the hero shot itself replaces the only flagged entry by an
    unflagged one: the manifest is then without a hero, and every later
    regeneration in this job directory exits with code 1. *)
Theorem regenerated_hero_blocks_regeneration
    (isoformat strftime : nat -> string) (MAX T : Z)
    (gen : nat -> string -> option bytes)
    (vi vii : nat -> bytes -> verification) (bvp : shot -> string)
    (job_id : string) (w w' : world) (hero : entry) (rest : list entry)
    (isoformat' strftime' : nat -> string) (MAX' T' : Z)
    (gen' : nat -> string -> option bytes)
    (vi' vii' : nat -> bytes -> verification) (bvp' : shot -> string)
    (job_id' variation_type : string) :
  images_of w = hero :: rest ->
  hero !! "variationType" = Some (JStr "hero_facade") ->
  Forall (fun e => entry_flag e "isHero" = false) rest ->
  RegenerateSingle.main isoformat strftime MAX T gen vi vii bvp job_id
    "hero_facade" w = Ok w' ->
  Forall (fun e => entry_flag e "isHero" = false) (images_of w')
  /\ RegenerateSingle.main isoformat' strftime' MAX' T' gen' vi' vii' bvp' job_id'
       variation_type w' = Raise (SystemExit 1).
Proof.
  intros Himg Hvt Hrest Hmain.
  destruct (main_ok_inv _ _ _ _ _ _ _ _ _ _ _ _ Hmain) as (m & s & Hm & Hs & Hsave).
  set (st := RegenerateSingle.refine_shot MAX T gen vi vii bvp s "hero_facade" w) in *.
  destruct (save_best_ok_inv _ _ _ _ _ _ _ _ Hsave)
    as (m1 & filename & at_ & up & images & _ & Hm1 & Hr & Hm' & _).
  assert (Hm1' : m1 = m).
  { unfold st in Hm1. rewrite regenerate_refine_manifest, Hm in Hm1. congruence. }
  subst m1.
  assert (Him : m_images m = hero :: rest).
  { unfold images_of in Himg. rewrite Hm in Himg. exact Himg. }
  rewrite Him in Hr.
  assert (Hfind : RegenerateSingle.find_variation "hero_facade" 0 (hero :: rest)
                  = Some (0%nat, hero)).
  { simpl. rewrite bool_decide_eq_true_2 by exact Hvt. reflexivity. }
  destruct (replace_entry_found _ _ _ _ _ _ Hfind Hr) as (id & _ & _ & ->).
  assert (Hflags : Forall (fun e => entry_flag e "isHero" = false)
                     (<[0%nat := <["id" := id]>
                          (RegenerateSingle.image_entry job_id s "hero_facade" filename
                             st (best_score st <=? T) at_)]> (hero :: rest))).
  { simpl. constructor; [reflexivity | exact Hrest]. }
  split.
  - unfold images_of. rewrite Hm'. exact Hflags.
  - unfold RegenerateSingle.main. rewrite Hm'.
    destruct (get_shot_by_id variation_type); [| reflexivity].
    cbn [m_images]. rewrite (find_no_hero _ Hflags). reflexivity.
Qed.

Lemma regenerated_hero_blocks_regeneration_witness :
  let result :=
    RegenerateSingle.main Sample.isoformat Sample.strftime 3 80
      (Sample.always_image "hero_facade") (Sample.scored [85] "hero_facade")
      (Sample.judge_error "hero_facade") Sample.prompt_of
      "job7" "hero_facade" Sample.job_dir in
  let w' := match result with Ok w' => w' | Raise _ => empty_world end in
  result = Ok w'
  /\ images_of Sample.job_dir = [Sample.hero; Sample.old_kitchen]
  /\ RegenerateSingle.main Sample.isoformat Sample.strftime 3 80
       (Sample.always_image "interior_kitchen")
       (Sample.judge_error "interior_kitchen")
       (Sample.scored [85] "interior_kitchen") Sample.prompt_of
       "job7" "interior_kitchen" w' = Raise (SystemExit 1).
Proof.
  intros result w'.
  assert (Hok : result = Ok w') by (vm_compute; reflexivity).
  split; [exact Hok |]. split; [reflexivity |].
  apply (regenerated_hero_blocks_regeneration
           Sample.isoformat Sample.strftime 3 80
           (Sample.always_image "hero_facade") (Sample.scored [85] "hero_facade")
           (Sample.judge_error "hero_facade") Sample.prompt_of
           "job7" Sample.job_dir w' Sample.hero [Sample.old_kitchen]
           Sample.isoformat Sample.strftime 3 80
           (Sample.always_image "interior_kitchen")
           (Sample.judge_error "interior_kitchen")
           (Sample.scored [85] "interior_kitchen") Sample.prompt_of
           "job7" "interior_kitchen" eq_refl eq_refl).
  - constructor; [reflexivity | constructor].
  - exact Hok.
Defined.

(** [get_shot_by_id] searches the base table only.  The supplementary
    shots of a multi-unit plan, which a project run stores like any other,
    are therefore unknown to the regeneration script: it exits with code 1
    for them whatever the job directory holds. *)
Theorem supplementary_shots_cannot_be_regenerated
    (isoformat strftime : nat -> string) (MAX T : Z)
    (gen : nat -> string -> option bytes)
    (vi vii : nat -> bytes -> verification) (bvp : shot -> string)
    (job_id : string) (project_type : string) (num_units : Z) (s : shot)
    (w : world) :
  s ∈ get_shots_for_project_type project_type num_units ->
  s ∉ get_all_shots_ordered ->
  RegenerateSingle.main isoformat strftime MAX T gen vi vii bvp job_id
    (shot_id s) w = Raise (SystemExit 1).
Proof.
  intros Hin Hnot. unfold get_shots_for_project_type in Hin.
  assert (Hextra : s ∈ sorted_by_order MULTI_UNIT_EXTRA_SHOTS).
  { destruct (is_multi_unit project_type num_units); [| contradiction].
    apply elem_of_app in Hin as [Hin | Hin]; [contradiction | exact Hin]. }
  assert (Hnone : get_shot_by_id (shot_id s) = None).
  { apply list_elem_of_In in Hextra. vm_compute in Hextra.
    destruct Hextra as [<- | [<- | []]]; vm_compute; reflexivity. }
  unfold RegenerateSingle.main. rewrite Hnone.
  destruct (manifest_json w); reflexivity.
Qed.

Lemma supplementary_shots_cannot_be_regenerated_witness :
  let s := Shot "multi_unit_variety" "architectural_features" "Unit Variety" 19 false in
  s ∈ get_shots_for_project_type "apartments" 6
  /\ (s ∉ get_all_shots_ordered)
  /\ RegenerateSingle.main Sample.isoformat Sample.strftime 3 80
       (Sample.always_image "multi_unit_variety")
       (Sample.scored [85] "multi_unit_variety")
       (Sample.judge_error "multi_unit_variety") Sample.prompt_of
       "job7" "multi_unit_variety" Sample.job_dir = Raise (SystemExit 1).
Proof.
  intros s.
  assert (Hin : s ∈ get_shots_for_project_type "apartments" 6).
  { apply list_elem_of_In. vm_compute. do 18 right. left. reflexivity. }
  assert (Hnot : s ∉ get_all_shots_ordered).
  { intros H. apply list_elem_of_In in H. vm_compute in H.
    repeat (destruct H as [H | H]; [discriminate H |]). exact H. }
  split; [exact Hin |]. split; [exact Hnot |].
  exact (supplementary_shots_cannot_be_regenerated
           Sample.isoformat Sample.strftime 3 80
           (Sample.always_image "multi_unit_variety")
           (Sample.scored [85] "multi_unit_variety")
           (Sample.judge_error "multi_unit_variety") Sample.prompt_of
           "job7" "apartments" 6 s Sample.job_dir Hin Hnot).
Defined.

(** ** Feedback of the variation generator *)

Lemma join_empty sep (l : list string) :
  Forall (fun x => x <> "") l -> join sep l = "" -> l = [].
Proof.
  intros Hl Hj. destruct l as [|x [|y r]]; [reflexivity | |].
  - simpl in Hj. apply Forall_inv in Hl. contradiction.
  - apply Forall_inv in Hl. exfalso. apply Hl.
    change (x +:+ sep +:+ join sep (y :: r) = "") in Hj.
    destruct x; [reflexivity | discriminate Hj].
Qed.

Lemma append_neq_self (base suffix : string) :
  base +:+ suffix = base -> suffix = "".
Proof.
  induction base as [|a base IH]; simpl; intros H; [exact H |].
  injection H as H. exact (IH H).
Qed.

Lemma variation_fixing_lines v :
  GenerateImages.build_fixing_prompt v
  = join nl
      (map (fun cs : string * Z =>
              "FIX " +:+ cs.1 +:+ ": scored " +:+ pretty cs.2
                +:+ "/20 - improve this aspect")
           (filter (fun cs : string * Z => cs.2 < 16) (get_breakdown v))
       ++ map (fun issue => "ISSUE: " +:+ issue) (default [] (v_issues v))
       ++ map (fun suggestion => "SUGGESTION: " +:+ suggestion)
              (default [] (v_suggestions v))).
Proof.
  unfold GenerateImages.build_fixing_prompt. f_equal.
  assert (H1 : forall (b : breakdown) lines,
            foldl (fun lines '(criterion, score) =>
                     if score <? 16
                     then lines ++ ["FIX " +:+ criterion +:+ ": scored " +:+ pretty score
                                      +:+ "/20 - improve this aspect"]
                     else lines) lines b
            = lines ++ map (fun cs : string * Z =>
                              "FIX " +:+ cs.1 +:+ ": scored " +:+ pretty cs.2
                                +:+ "/20 - improve this aspect")
                         (filter (fun cs : string * Z => cs.2 < 16) b)).
  { induction b as [|[c s] b IH]; intros lines.
    - simpl. rewrite app_nil_r. reflexivity.
    - simpl foldl. rewrite IH. destruct (Z.ltb_spec s 16) as [Hlt | Hge].
      + rewrite filter_cons_True by exact Hlt. simpl. rewrite <- app_assoc.
        reflexivity.
      + rewrite filter_cons_False by (simpl; lia). reflexivity. }
  assert (H2 : forall (f : string -> string) (l : list string) lines,
            foldl (fun lines x => lines ++ [f x]) lines l = lines ++ map f l).
  { intros f l. induction l as [|x l IH]; intros lines.
    - simpl. rewrite app_nil_r. reflexivity.
    - simpl foldl. rewrite IH. simpl. rewrite <- app_assoc. reflexivity. }
  rewrite (H2 (fun suggestion => "SUGGESTION: " +:+ suggestion)).
  rewrite (H2 (fun issue => "ISSUE: " +:+ issue)).
  rewrite H1. rewrite <- app_assoc. reflexivity.
Qed.

(** The fixing prompt of [generate_images.py] has no enclosing tags: it is
    the empty string exactly when the judge's answer has no sub-score below
    16, no issue and no suggestion.  An empty string is falsy, so exactly
    then the next attempt is made with the bare variation text, as if no
    attempt had failed. *)
Theorem variation_feedback_lost_iff_no_detail (v : verification) (base : string) :
  let no_detail :=
    filter (fun cs : string * Z => cs.2 < 16) (get_breakdown v) = []
    /\ default [] (v_issues v) = [] /\ default [] (v_suggestions v) = [] in
  (GenerateImages.build_fixing_prompt v = "" <-> no_detail)
  /\ (GenerateImages.instruction base (Some (GenerateImages.build_fixing_prompt v))
      = base <-> no_detail).
Proof.
  intros no_detail.
  assert (Hempty : GenerateImages.build_fixing_prompt v = "" <-> no_detail).
  { rewrite variation_fixing_lines. unfold no_detail. split.
    - intros Hj. apply join_empty in Hj.
      + apply app_eq_nil in Hj as [H1 Hj]. apply app_eq_nil in Hj as [H2 H3].
        apply map_eq_nil in H1, H2, H3. repeat split; assumption.
      + rewrite !Forall_app, !Forall_map. repeat split;
          apply Forall_forall; intros x _; simpl; discriminate.
    - intros (-> & -> & ->). reflexivity. }
  split; [exact Hempty |].
  rewrite <- Hempty. unfold GenerateImages.instruction, str_truthy.
  destruct (String.eqb_spec (GenerateImages.build_fixing_prompt v) "") as [He | Hne].
  - simpl. split; [intros _; exact He | reflexivity].
  - simpl negb. cbv iota. split; [| contradiction].
    intros H. apply append_neq_self in H. discriminate H.
Qed.

(** ** The storage tools *)

Lemma store_image_stored isoformat strftime job_id source_path data variation_type
    consistency_score attempts low_confidence score_breakdown w :
  let r := Storage.store_image isoformat strftime job_id source_path (Some data)
             variation_type consistency_score attempts low_confidence
             score_breakdown w in
  let image_id :=
    job_id +:+ "_" +:+ pretty (Z.of_nat (length (images_of w)) + 1) in
  exists filename e,
    r.2 = Storage.Stored filename ("/api/images/" +:+ job_id +:+ "/" +:+ filename)
            image_id
    /\ images_of r.1 = images_of w ++ [e]
    /\ e !! "id" = Some (JStr image_id)
    /\ e !! "filename" = Some (JStr filename)
    /\ e !! "variationType" = Some (JStr variation_type)
    /\ files r.1 !! filename = Some data
    /\ status_json r.1 = status_json w.
Proof.
  unfold Storage.store_image, images_of. cbv zeta. simpl manifest_json.
  destruct (manifest_json w) as [m|]; cbn [fst snd];
    eexists _, _; (split; [reflexivity |]); simpl;
    (split; [reflexivity |]); (split; [reflexivity |]);
    (split; [reflexivity |]); (split; [reflexivity |]);
    (split; [apply lookup_insert_eq | reflexivity]).
Qed.

(** [store_image] fails exactly when the source file is missing, and then
    leaves manifest, status and files as they were.  Otherwise it copies the
    file under the returned name, appends one entry whose [id] is the
    returned [image_id], the job id followed by the new length of the image
    list (so consecutive ids stay consecutive), and does not touch
    [status.json]. *)
Theorem store_image_appends_numbered_entry
    (isoformat strftime : nat -> string) (job_id source_path : string)
    (source : option bytes) (variation_type : string)
    (consistency_score attempts : Z) (low_confidence : bool)
    (score_breakdown : option breakdown) (w : world) :
  numbered job_id (images_of w) ->
  let r := Storage.store_image isoformat strftime job_id source_path source
             variation_type consistency_score attempts low_confidence
             score_breakdown w in
  match source with
  | None =>
    (exists error, r.2 = Storage.Failed error)
    /\ manifest_json r.1 = manifest_json w /\ status_json r.1 = status_json w
    /\ files r.1 = files w
  | Some data =>
    exists filename e,
      r.2 = Storage.Stored filename ("/api/images/" +:+ job_id +:+ "/" +:+ filename)
              (job_id +:+ "_" +:+ pretty (Z.of_nat (length (images_of r.1))))
      /\ images_of r.1 = images_of w ++ [e]
      /\ e !! "variationType" = Some (JStr variation_type)
      /\ e !! "filename" = Some (JStr filename)
      /\ files r.1 !! filename = Some data
      /\ numbered job_id (images_of r.1)
      /\ status_json r.1 = status_json w
  end.
Proof.
  intros Hn r. destruct source as [data|].
  - destruct (store_image_stored isoformat strftime job_id source_path data
                variation_type consistency_score attempts low_confidence
                score_breakdown w)
      as (filename & e & Hr & Himg & Hid & Hf & Hvt & Hfile & Hst).
    fold r in Hr, Himg, Hfile, Hst.
    exists filename, e. rewrite Himg, length_app, Nat2Z.inj_add. simpl length.
    split; [exact Hr |]. split; [reflexivity |]. split; [exact Hvt |].
    split; [exact Hf |]. split; [exact Hfile |]. split; [| exact Hst].
    intros i x Hi. apply lookup_app_Some in Hi as [Hi | [Hge Hi]];
      [exact (Hn i x Hi) |].
    apply list_lookup_singleton_Some in Hi as [Hi <-].
    assert (i = length (images_of w)) as -> by lia. exact Hid.
  - subst r. simpl. split; [eauto |]. repeat split.
Qed.

Lemma store_image_appends_numbered_entry_witness :
  let w0 := (Storage.store_image Sample.isoformat Sample.strftime "job7"
               "/tmp/aerial.png" (Some Sample.image) "aerial_view" 85 2 false None
               empty_world).1 in
  let r := Storage.store_image Sample.isoformat Sample.strftime "job7"
             "/tmp/night.png" (Some Sample.image) "night_scene" 70 3 true None w0 in
  numbered "job7" (images_of w0)
  /\ length (images_of r.1) = 2%nat
  /\ numbered "job7" (images_of r.1)
  /\ exists filename url, r.2 = Storage.Stored filename url "job7_2".
Proof.
  intros w0 r.
  assert (Hn : numbered "job7" (images_of w0)).
  { intros [|i] e Hi; [| destruct i; discriminate]. injection Hi as <-. reflexivity. }
  split; [exact Hn |].
  destruct (store_image_appends_numbered_entry Sample.isoformat Sample.strftime "job7"
              "/tmp/night.png" (Some Sample.image) "night_scene" 70 3 true None w0 Hn)
    as (filename & e & Hr & Himg & _ & _ & _ & Hn' & _).
  fold r in Hr, Himg, Hn'.
  split; [rewrite Himg; reflexivity |]. split; [exact Hn' |].
  exists filename, ("/api/images/" +:+ "job7" +:+ "/" +:+ filename).
  rewrite Hr, Himg. reflexivity.
Defined.

(** [store_image] writes the manifest only, so the [images] list of an
    up-to-date [status.json] is stale after it; the next
    [update_job_status], whatever its data, overwrites that key with the
    manifest's list. *)
Theorem update_job_status_restores_mirror
    (isoformat strftime : nat -> string) (job_id source_path : string)
    (data : bytes) (variation_type : string)
    (consistency_score attempts : Z) (low_confidence : bool)
    (score_breakdown : option breakdown) (w : world) :
  mirrored w ->
  let w1 := (Storage.store_image isoformat strftime job_id source_path (Some data)
               variation_type consistency_score attempts low_confidence
               score_breakdown w).1 in
  ~ mirrored w1
  /\ forall status_data, mirrored (Storage.update_job_status isoformat status_data w1).1.
Proof.
  intros (doc & Hj & Hi) w1.
  destruct (store_image_stored isoformat strftime job_id source_path data
              variation_type consistency_score attempts low_confidence
              score_breakdown w)
    as (filename & e & _ & Himg & _ & _ & _ & _ & Hst).
  fold w1 in Himg, Hst. split.
  - intros (doc1 & Hj1 & Hi1). rewrite Hst, Hj in Hj1. injection Hj1 as <-.
    rewrite Hi in Hi1. injection Hi1 as Hi1. rewrite Himg in Hi1.
    apply (f_equal length) in Hi1. rewrite length_app in Hi1. simpl in Hi1. lia.
  - intros status_data. unfold Storage.update_job_status, mirrored. cbv zeta.
    cbn [fst]. unfold images_of in *. simpl manifest_json.
    destruct (manifest_json w1) as [m1|].
    + eexists. split; [reflexivity |]. simpl. apply lookup_insert_eq.
    + exfalso. apply (f_equal length) in Himg. rewrite length_app in Himg.
      simpl in Himg. lia.
Qed.

Lemma update_job_status_restores_mirror_witness :
  let w := (Storage.update_job_status Sample.isoformat
              {[ "status" := SLeaf (JStr "generating") ]} Sample.job_dir).1 in
  let w1 := (Storage.store_image Sample.isoformat Sample.strftime "job7"
               "/tmp/aerial.png" (Some Sample.image) "aerial_view" 85 2 false None
               w).1 in
  mirrored w
  /\ ~ mirrored w1
  /\ mirrored (Storage.update_job_status Sample.isoformat
                 {[ "progress" := SLeaf (JInt 50) ]} w1).1.
Proof.
  intros w w1.
  assert (Hm : mirrored w) by (eexists; split; reflexivity).
  split; [exact Hm |].
  destruct (update_job_status_restores_mirror Sample.isoformat Sample.strftime "job7"
              "/tmp/aerial.png" Sample.image "aerial_view" 85 2 false None w Hm)
    as [Hstale Hfresh].
  split; [exact Hstale | apply Hfresh].
Defined.

(** ** The variation run ([generate_images.py]) *)



Section VariationRun.

Variable isoformat : nat -> string.
Variable strftime : nat -> string.
Variables (MAX T : Z).
Variable gen : string -> nat -> string -> option bytes.
Variable vi : string -> nat -> bytes -> verification.
Variable job_id : string.

Local Abbreviation refine_variation_ vt base :=
  (GenerateImages.refine_variation isoformat MAX T (gen vt) (vi vt) vt base).
Local Abbreviation process_variation_ :=
  (GenerateImages.process_variation isoformat strftime MAX T gen vi job_id).







End VariationRun.




(** ** The shot plan *)

(** The plan of a job has 20 shots for apartments and for townhouses with
    at least 3 units, 18 otherwise.  Its shots carry the orders 1, 2, ...
    without gaps and distinct ids; the 18 base shots come first, in the
    order of the sorted table, and the supplementary shots follow.  The plan
    starts with [hero_facade]; three shots are flagged [is_hero], of which
    only [hero_facade] is left out of the attempt loop. *)
Theorem shot_plan_structure (project_type : string) (num_units : Z) :
  let shots := get_shots_for_project_type project_type num_units in
  let multi := is_multi_unit project_type num_units in
  (multi = true
   <-> project_type = "apartments"
       \/ (project_type = "townhouses" /\ 3 <= num_units))
  /\ length shots = (if multi then 20 else 18)%nat
  /\ map shot_order shots = map Z.of_nat (seq 1 (length shots))
  /\ NoDup (map shot_id shots)
  /\ take 18 shots = get_all_shots_ordered
  /\ get_all_shots_ordered ≡ₚ SHOT_TYPES
  /\ map shot_id (List.filter shot_is_hero shots)
     = ["hero_facade"; "hero_twilight"; "hero_elevated"]
  /\ map shot_id shots = "hero_facade" :: map shot_id (loop_shots shots).
Proof.
  intros shots multi.
  assert (Hmulti : multi = true
                   <-> project_type = "apartments"
                       \/ (project_type = "townhouses" /\ 3 <= num_units)).
  { unfold multi, is_multi_unit.
    rewrite orb_true_iff, andb_true_iff, !String.eqb_eq, Z.geb_le. reflexivity. }
  split; [exact Hmulti |].
  assert (Hperm : get_all_shots_ordered ≡ₚ SHOT_TYPES).
  { unfold get_all_shots_ordered, sorted_by_order. apply merge_sort_Permutation. }
  unfold shots, get_shots_for_project_type. fold multi.
  destruct multi;
    (split; [reflexivity |]); (split; [vm_compute; reflexivity |]);
    (split; [apply (bool_decide_unpack _); vm_compute; exact I |]);
    (split; [vm_compute; reflexivity |]); (split; [exact Hperm |]);
    split; vm_compute; reflexivity.
Qed.

(** ** What a regeneration leaves alone *)

Lemma regenerate_refine_status MAX T gen vi vii bvp s variation_type w :
  status_json (wld (RegenerateSingle.refine_shot MAX T gen vi vii bvp s
                      variation_type w)) = status_json w.
Proof.
  unfold RegenerateSingle.refine_shot, refine.
  apply (while_attempts_wld _ _ _ _ _ _ _ _ _ _
           (fun w' => status_json w' = status_json w)); try reflexivity.
  - intros image w' H. exact H.
  - intros w' H. exact H.
Qed.

(** A successful regeneration writes one image file and removes its own
    temporary file; every other file of the job directory, the replaced
    entry's old image among them, stays as it was.  The manifest keeps its
    other keys.  Of [status.json] only the [images] key is rewritten, as a
    copy of the manifest's list; status, progress and the other keys keep
    their values, and a missing [status.json] is not created. *)
Theorem regeneration_leaves_the_rest
    (isoformat strftime : nat -> string) (MAX T : Z)
    (gen : nat -> string -> option bytes)
    (vi vii : nat -> bytes -> verification) (bvp : shot -> string)
    (job_id variation_type : string) (w w' : world) :
  RegenerateSingle.main isoformat strftime MAX T gen vi vii bvp job_id
    variation_type w = Ok w' ->
  (exists filename data,
      files w' !! filename = Some data
      /\ forall name, name <> filename ->
           name <> RegenerateSingle.temp_name variation_type ->
           files w' !! name = files w !! name)
  /\ (exists m m', manifest_json w = Some m /\ manifest_json w' = Some m'
                   /\ m_meta m' = m_meta m)
  /\ match status_json w with
     | None => status_json w' = None
     | Some doc =>
       exists doc', status_json w' = Some doc'
                    /\ doc' !! "images" = Some (SImages (images_of w'))
                    /\ forall k, k <> "images" -> doc' !! k = doc !! k
     end.
Proof.
  intros Hmain.
  destruct (main_ok_inv _ _ _ _ _ _ _ _ _ _ _ _ Hmain) as (m & s & Hm & Hs & Hsave).
  set (st := RegenerateSingle.refine_shot MAX T gen vi vii bvp s variation_type w)
    in *.
  assert (Hm1 : manifest_json (wld st) = Some m).
  { unfold st. rewrite regenerate_refine_manifest. exact Hm. }
  assert (Hst : status_json (wld st) = status_json w).
  { apply regenerate_refine_status. }
  assert (Hfiles : forall name, name <> RegenerateSingle.temp_name variation_type ->
                     files (wld st) !! name = files w !! name).
  { unfold st, RegenerateSingle.refine_shot.
    apply (refine_temp_file MAX T gen vi vii
             (GenerateProject.assemble (bvp s)) RegenerateSingle.build_fixing_prompt
             (is_interior_shot variation_type)
             (fun image w0 => write_file (RegenerateSingle.temp_name variation_type)
                                image w0)
             (fun w0 => unlink_file (RegenerateSingle.temp_name variation_type) w0)
             (RegenerateSingle.temp_name variation_type) w);
      reflexivity. }
  unfold RegenerateSingle.save_best in Hsave.
  destruct (best_image_data st) as [[|b l]|] eqn:Hbest; try discriminate.
  simpl bytes_truthy in Hsave. cbv iota zeta in Hsave.
  unfold RegenerateSingle.update_manifest in Hsave. simpl manifest_json in Hsave.
  rewrite Hm1 in Hsave.
  match type of Hsave with
  | context [RegenerateSingle.replace_entry ?vt ?e ?l0] =>
      destruct (RegenerateSingle.replace_entry vt e l0) as [images|err]
  end; [| discriminate].
  simpl in Hsave. rewrite Hst in Hsave.
  destruct (status_json w) as [doc|]; injection Hsave as <-.
  - split.
    + exists (RegenerateSingle.output_name strftime variation_type (wld st)), (b :: l).
      simpl. split; [apply lookup_insert_eq |].
      intros name Hne Htemp. rewrite lookup_insert_ne by congruence.
      apply Hfiles. exact Htemp.
    + split; [exists m; eexists; split; [exact Hm |]; split; reflexivity |].
      eexists. split; [reflexivity |]. split.
      * simpl. rewrite lookup_insert_eq. reflexivity.
      * intros k Hk. simpl. rewrite lookup_insert_ne by congruence. reflexivity.
  - split.
    + exists (RegenerateSingle.output_name strftime variation_type (wld st)), (b :: l).
      simpl. split; [apply lookup_insert_eq |].
      intros name Hne Htemp. rewrite lookup_insert_ne by congruence.
      apply Hfiles. exact Htemp.
    + split; [exists m; eexists; split; [exact Hm |]; split; reflexivity |].
      simpl. exact Hst.
Qed.

Lemma regeneration_leaves_the_rest_witness :
  let result :=
    RegenerateSingle.main Sample.isoformat Sample.strftime 3 80
      (Sample.always_image "interior_kitchen")
      (Sample.judge_error "interior_kitchen")
      (Sample.scored [85] "interior_kitchen") Sample.prompt_of
      "job7" "interior_kitchen" Sample.job_dir in
  let w' := match result with Ok w' => w' | Raise _ => empty_world end in
  result = Ok w'
  /\ (exists m m', manifest_json Sample.job_dir = Some m
                   /\ manifest_json w' = Some m' /\ m_meta m' = m_meta m)
  /\ exists filename data,
       files w' !! filename = Some data
       /\ forall name, name <> filename -> name <> "temp_regen_interior_kitchen.png" ->
            files w' !! name = files Sample.job_dir !! name.
Proof.
  intros result w'.
  assert (Hok : result = Ok w') by (vm_compute; reflexivity).
  split; [exact Hok |].
  destruct (regeneration_leaves_the_rest Sample.isoformat Sample.strftime 3 80
              (Sample.always_image "interior_kitchen")
              (Sample.judge_error "interior_kitchen")
              (Sample.scored [85] "interior_kitchen") Sample.prompt_of
              "job7" "interior_kitchen" Sample.job_dir w' Hok)
    as (Hfiles & Hmeta & _).
  split; [exact Hmeta | exact Hfiles].
Defined.

(** ** What a project run keeps of an earlier job directory *)

Ltac absent_key :=
  repeat (rewrite lookup_insert_ne by congruence);
  first [apply lookup_singleton_ne; congruence | apply lookup_empty].

(** The value of a key of [status.json], [None] when the file or the key
    is missing, and the manifest's keys other than the image list. *)
Lemma status_key_update isoformat (d : status_doc) k w :
  k <> "updated_at" -> d !! k = None ->
  default ∅ (status_json (update_status isoformat d w)) !! k
  = default ∅ (status_json w) !! k.
Proof.
  intros Hk Hd. simpl. rewrite lookup_insert_ne by congruence.
  apply lookup_union_r. exact Hd.
Qed.

Lemma status_key_save isoformat job_id e k w :
  k <> "images" ->
  default ∅ (status_json (save_image_to_manifest isoformat job_id e w)) !! k
  = default ∅ (status_json w) !! k.
Proof.
  intros Hk. unfold save_image_to_manifest.
  destruct w as [[status|] m fs c lg]; simpl; [| reflexivity].
  apply lookup_insert_ne. congruence.
Qed.

Lemma meta_save isoformat job_id e w m0 :
  m_meta <$> manifest_json w = Some m0 ->
  m_meta <$> manifest_json (save_image_to_manifest isoformat job_id e w) = Some m0.
Proof.
  intros Hm. unfold save_image_to_manifest.
  destruct w as [[status|] [m|] fs c lg]; try discriminate; exact Hm.
Qed.

Lemma foreign_keys (k : string) :
  k ∉ [ "status"; "progress"; "currentImage"; "totalImages"; "currentVariation";
        "message"; "prompt"; "model"; "updated_at"; "images" ] ->
  k <> "status" /\ k <> "progress" /\ k <> "currentImage" /\ k <> "totalImages"
  /\ k <> "currentVariation" /\ k <> "message" /\ k <> "prompt" /\ k <> "model"
  /\ k <> "updated_at" /\ k <> "images".
Proof.
  intros H. rewrite !not_elem_of_cons in H. tauto.
Qed.

Section RunKeeps.

Variable isoformat : nat -> string.
Variable strftime : nat -> string.
Variables (MAX T : Z).
Variable gen : string -> nat -> string -> option bytes.
Variables (vi vii : string -> nat -> bytes -> verification).
Variable hero_prompt : string.
Variable bvp : shot -> string.
Variables (user_prompt job_id : string).

Variable k : string.
Hypothesis foreign :
  k ∉ [ "status"; "progress"; "currentImage"; "totalImages"; "currentVariation";
        "message"; "prompt"; "model"; "updated_at"; "images" ].

Variable v0 : option sval.
Variable m0 : gmap string jval.

Local Abbreviation kept w :=
  (default ∅ (status_json w) !! k = v0 /\ m_meta <$> manifest_json w = Some m0).

Local Abbreviation process_shot_ :=
  (GenerateProject.process_shot isoformat MAX T gen vi vii bvp job_id).

Lemma refine_shot_keeps s w :
  kept w ->
  kept (wld (GenerateProject.refine_shot isoformat MAX T gen vi vii bvp s w)).
Proof.
  destruct (foreign_keys k foreign) as (Ka & Kb & Kc & Kd & Ke & Kf & Kg & Kh & Ki & Kj).
  intros Hw. unfold GenerateProject.refine_shot, refine.
  apply (while_attempts_wld _ _ _ _ _ _ _ _ _ _ (fun w' => kept w')).
  - intros image w' [H1 H2]. unfold GenerateProject.before_verify. split.
    + rewrite status_key_update; [exact H1 | assumption | absent_key].
    + exact H2.
  - intros w' Hw'. exact Hw'.
  - exact Hw.
Qed.

Lemma process_shot_keeps timestamp total acc s :
  kept acc.1 -> kept (process_shot_ timestamp total acc s).1.
Proof.
  destruct (foreign_keys k foreign) as (Ka & Kb & Kc & Kd & Ke & Kf & Kg & Kh & Ki & Kj).
  destruct acc as [w completed]. cbn [fst]. intros [H1 H2].
  unfold GenerateProject.process_shot.
  destruct (String.eqb (shot_id s) "hero_facade"); [split; assumption |].
  match goal with
  | |- context [GenerateProject.refine_shot _ _ _ _ _ _ _ s ?w0] => set (w1 := w0)
  end.
  assert (Hw1 : kept w1).
  { unfold w1. split; [| exact H2].
    rewrite status_key_update; [exact H1 | assumption | absent_key]. }
  pose proof (refine_shot_keeps s w1 Hw1) as [H3 H4].
  set (st := GenerateProject.refine_shot isoformat MAX T gen vi vii bvp s w1) in *.
  unfold GenerateProject.store_best.
  destruct (bytes_truthy (best_image_data st)); [| split; assumption].
  cbv zeta. cbn [fst]. split.
  - rewrite status_key_save by assumption. exact H3.
  - apply meta_save. exact H4.
Qed.

Lemma fold_shots_keeps timestamp total shots acc :
  kept acc.1 -> kept (foldl (process_shot_ timestamp total) acc shots).1.
Proof.
  revert acc. induction shots as [|s shots IH]; intros acc Hacc; [exact Hacc |].
  cbn [foldl]. apply IH. apply process_shot_keeps. exact Hacc.
Qed.

End RunKeeps.

Lemma main_run_keeps
    (isoformat strftime : nat -> string) (MAX T : Z)
    (gen : string -> nat -> string -> option bytes)
    (vi vii : string -> nat -> bytes -> verification)
    (hero_prompt : string) (bvp : shot -> string) (user_prompt job_id : string)
    (project_type : option string) (parsed : GenerateProject.parsed_prompt)
    (from_hero : option (string * bytes)) (w : world) (k : string) :
  k ∉ [ "status"; "progress"; "currentImage"; "totalImages"; "currentVariation";
        "message"; "prompt"; "model"; "updated_at"; "images" ] ->
  is_Some from_hero \/ bytes_truthy (gen "hero_facade" 1%nat hero_prompt) = true ->
  let w' := GenerateProject.main isoformat strftime MAX T gen vi vii hero_prompt
              bvp user_prompt job_id project_type parsed from_hero w in
  default ∅ (status_json w') !! k = default ∅ (status_json w) !! k
  /\ m_meta <$> manifest_json w'
     = m_meta <$> manifest_json
         (GenerateProject.start_job isoformat strftime user_prompt job_id
            project_type parsed w).1.1.
Proof.
  intros Hk Hhero w'. subst w'.
  destruct (foreign_keys k Hk) as (Ka & Kb & Kc & Kd & Ke & Kf & Kg & Kh & Ki & Kj).
  unfold GenerateProject.main.
  assert (Hstart : default ∅ (status_json
              (GenerateProject.start_job isoformat strftime user_prompt job_id
                 project_type parsed w).1.1) !! k = default ∅ (status_json w) !! k).
  { unfold GenerateProject.start_job. cbv zeta. cbn [fst].
    change (status_json (tick (write_manifest ?m (tick ?w0)))) with (status_json w0).
    rewrite status_key_update; [| assumption | absent_key].
    rewrite status_key_update; [reflexivity | assumption | absent_key]. }
  assert (Hmeta : exists m0, m_meta <$> manifest_json
              (GenerateProject.start_job isoformat strftime user_prompt job_id
                 project_type parsed w).1.1 = Some m0).
  { eexists. reflexivity. }
  destruct Hmeta as [m0 Hmeta]. rewrite Hmeta.
  destruct (GenerateProject.start_job isoformat strftime user_prompt job_id
              project_type parsed w) as [[w1 shots] timestamp].
  cbn [fst snd] in *.
  set (v0 := default ∅ (status_json w) !! k) in *.
  assert (Hstep : exists w4,
            match from_hero with
            | Some (hero_filename, hero_data) =>
                (GenerateProject.use_approved_hero isoformat job_id
                   (Z.of_nat (length shots)) hero_filename hero_data w1, true)
            | None =>
                GenerateProject.generate_hero isoformat gen hero_prompt job_id
                  timestamp w1
            end = (w4, true)
            /\ default ∅ (status_json w4) !! k = v0
            /\ m_meta <$> manifest_json w4 = Some m0).
  { destruct from_hero as [[hero_filename hero_data]|].
    - eexists. split; [reflexivity |].
      unfold GenerateProject.use_approved_hero. cbv zeta. simpl manifest_json.
      match goal with
      | |- context [update_status isoformat ?d w1] =>
          assert (H5 : default ∅ (status_json (update_status isoformat d w1)) !! k = v0)
            by (rewrite status_key_update; [exact Hstart | assumption | absent_key]);
          set (w2 := update_status isoformat d w1) in *
      end.
      destruct (manifest_json w1) as [m1|] eqn:Hm1; [| discriminate].
      assert (Hm2 : m_meta <$> manifest_json
                      (tick (write_file hero_filename hero_data w2)) = Some m0).
      { change (manifest_json (tick (write_file hero_filename hero_data w2)))
          with (manifest_json w1). rewrite Hm1. exact Hmeta. }
      destruct (existsb _ (m_images m1)).
      + split; [exact H5 | exact Hm2].
      + split.
        * rewrite status_key_save by assumption. exact H5.
        * apply meta_save. exact Hm2.
    - destruct Hhero as [[x Hx] | Hv]; [discriminate |].
      unfold GenerateProject.generate_hero. rewrite Hv. simpl negb. cbv iota zeta.
      eexists. split; [reflexivity |]. split.
      + rewrite status_key_save by assumption.
        change (status_json (tick (write_file ?n ?d ?w0))) with (status_json w0).
        rewrite status_key_update; [exact Hstart | assumption | absent_key].
      + apply meta_save. exact Hmeta. }
  destruct Hstep as (w4 & -> & H4s & H4m).
  simpl negb. cbv iota. unfold GenerateProject.run_shots.
  pose proof (fold_shots_keeps isoformat MAX T gen vi vii bvp job_id k Hk v0 m0
                timestamp (Z.of_nat (length shots)) shots (w4, 1) (conj H4s H4m))
    as [H5s H5m].
  destruct (foldl _ (w4, 1) shots) as [w5 completed]. cbn [fst] in *.
  unfold GenerateProject.finish. split; [| exact H5m].
  rewrite status_key_update; [exact H5s | assumption | absent_key].
Qed.

(** A project run rewrites the manifest from scratch: whatever manifest the
    job directory held (for instance the one of the inspiration flow, with
    its [flowType], [hero] and [inspiration] keys), the finished manifest
    has type [project_showcase] and no key besides those [main] writes.
    [status.json] is merged instead: a key the run never writes keeps the
    value it had. *)
Theorem project_run_resets_manifest_keeps_status
    (isoformat strftime : nat -> string) (MAX T : Z)
    (gen : string -> nat -> string -> option bytes)
    (vi vii : string -> nat -> bytes -> verification)
    (hero_prompt : string) (bvp : shot -> string) (user_prompt job_id : string)
    (project_type : option string) (parsed : GenerateProject.parsed_prompt)
    (from_hero : option (string * bytes)) (w : world) :
  is_Some from_hero \/ bytes_truthy (gen "hero_facade" 1%nat hero_prompt) = true ->
  let w' := GenerateProject.main isoformat strftime MAX T gen vi vii hero_prompt
              bvp user_prompt job_id project_type parsed from_hero w in
  (exists m,
      manifest_json w' = Some m
      /\ m_meta m !! "type" = Some (JStr "project_showcase")
      /\ m_meta m !! "job_id" = Some (JStr job_id)
      /\ m_meta m !! "prompt" = Some (JStr user_prompt)
      /\ forall k, k ∉ [ "job_id"; "type"; "prompt"; "parsed"; "suburb"; "model";
                         "created_at" ] -> m_meta m !! k = None)
  /\ forall k doc,
       k ∉ [ "status"; "progress"; "currentImage"; "totalImages";
             "currentVariation"; "message"; "prompt"; "model"; "updated_at";
             "images" ] ->
       status_json w = Some doc ->
       exists doc', status_json w' = Some doc' /\ doc' !! k = doc !! k.
Proof.
  intros Hhero w'. split.
  - assert (Hk : "flowType" ∉ [ "status"; "progress"; "currentImage"; "totalImages";
                                "currentVariation"; "message"; "prompt"; "model";
                                "updated_at"; "images" ]).
    { rewrite !not_elem_of_cons. repeat split; try discriminate. apply not_elem_of_nil. }
    destruct (main_run_keeps isoformat strftime MAX T gen vi vii hero_prompt bvp
                user_prompt job_id project_type parsed from_hero w "flowType" Hk Hhero)
      as [_ Hmeta].
    fold w' in Hmeta. simpl in Hmeta.
    destruct (manifest_json w') as [m|]; [| discriminate].
    injection Hmeta as Hmeta. exists m. split; [reflexivity |]. rewrite Hmeta.
    split; [reflexivity |]. split; [reflexivity |]. split; [reflexivity |].
    intros k Hnot. rewrite !not_elem_of_cons in Hnot.
    destruct Hnot as (? & ? & ? & ? & ? & ? & ? & _).
    repeat (rewrite lookup_insert_ne by congruence). apply lookup_empty.
  - intros k doc Hk Hdoc.
    destruct (main_run_keeps isoformat strftime MAX T gen vi vii hero_prompt bvp
                user_prompt job_id project_type parsed from_hero w k Hk Hhero)
      as [Hkey _].
    fold w' in Hkey. rewrite Hdoc in Hkey. simpl in Hkey.
    destruct (main_run_summary isoformat strftime MAX T gen vi vii hero_prompt bvp
                user_prompt job_id project_type parsed from_hero w Hhero)
      as (_ & _ & _ & doc' & _ & _ & _ & _ & Hj & _).
    fold w' in Hj. rewrite Hj in Hkey. exists doc'. split; [exact Hj | exact Hkey].
Qed.

Lemma project_run_resets_manifest_keeps_status_witness :
  let w :=
    write_status {[ "flowType" := SLeaf (JStr "inspiration") ]}
      (write_manifest
         (Manifest {[ "flowType" := JStr "inspiration" ]} [] None) empty_world) in
  let w' :=
    GenerateProject.main Sample.isoformat Sample.strftime 3 80 Sample.always_image
      (Sample.scored [90]) (Sample.scored [90]) "hero prompt" Sample.prompt_of
      "two townhouses in Balwyn" "job7" None (GenerateProject.Parsed None None)
      (Some ("hero_facade_1.png", Sample.image)) w in
  is_Some (Some ("hero_facade_1.png", Sample.image))
  /\ (exists m, manifest_json w' = Some m /\ m_meta m !! "flowType" = None)
  /\ exists doc', status_json w' = Some doc'
                  /\ doc' !! "flowType" = Some (SLeaf (JStr "inspiration")).
Proof.
  assert (Hmanifest : "flowType" ∉ [ "job_id"; "type"; "prompt"; "parsed"; "suburb";
                                     "model"; "created_at" ]).
  { rewrite !not_elem_of_cons. repeat (split; [discriminate |]).
    apply not_elem_of_nil. }
  assert (Hstatus_key : "flowType" ∉ [ "status"; "progress"; "currentImage";
                                       "totalImages"; "currentVariation"; "message";
                                       "prompt"; "model"; "updated_at"; "images" ]).
  { rewrite !not_elem_of_cons. repeat (split; [discriminate |]).
    apply not_elem_of_nil. }
  assert (Hhero : is_Some (Some ("hero_facade_1.png", Sample.image)))
    by (eexists; reflexivity).
  intros w w'.
  assert (Hdoc : status_json w = Some {[ "flowType" := SLeaf (JStr "inspiration") ]})
    by reflexivity.
  split; [exact Hhero |].
  destruct (project_run_resets_manifest_keeps_status Sample.isoformat Sample.strftime
              3 80 Sample.always_image (Sample.scored [90]) (Sample.scored [90])
              "hero prompt" Sample.prompt_of "two townhouses in Balwyn" "job7" None
              (GenerateProject.Parsed None None)
              (Some ("hero_facade_1.png", Sample.image)) w (or_introl Hhero))
    as [(m & Hm & _ & _ & _ & Hnone) Hstatus].
  split.
  - exists m. split; [exact Hm | exact (Hnone "flowType" Hmanifest)].
  - destruct (Hstatus "flowType" _ Hstatus_key Hdoc) as (doc' & Hj & Hk).
    exists doc'. split; [exact Hj |]. rewrite Hk. apply lookup_singleton_eq.
Defined.

Lemma store_image_appends_numbered_step isoformat strftime job_id source_path data
    variation_type consistency_score attempts low_confidence score_breakdown w :
  numbered job_id (images_of w) ->
  let w' := (Storage.store_image isoformat strftime job_id source_path (Some data)
               variation_type consistency_score attempts low_confidence
               score_breakdown w).1 in
  numbered job_id (images_of w')
  /\ (exists added, images_of w' = images_of w ++ added /\ length added = 1%nat)
  /\ forall name, is_Some (files w !! name) -> is_Some (files w' !! name).
Proof.
  intros Hn w'.
  destruct (store_image_stored isoformat strftime job_id source_path data
              variation_type consistency_score attempts low_confidence
              score_breakdown w)
    as (filename & e & _ & Himg & Hid & _ & _ & _ & _).
  fold w' in Himg. split; [| split].
  - rewrite Himg. intros i x Hi.
    apply lookup_app_Some in Hi as [Hi | [Hge Hi]]; [exact (Hn i x Hi) |].
    apply list_lookup_singleton_Some in Hi as [Hi <-].
    assert (i = length (images_of w)) as -> by lia. exact Hid.
  - exists [e]. split; [exact Himg | reflexivity].
  - intros name Hname. subst w'. unfold Storage.store_image. cbv zeta.
    simpl manifest_json.
    destruct (manifest_json w) as [m|]; cbn [fst]; simpl;
      apply lookup_insert_is_Some'; right; exact Hname.
Qed.

(** ** Sequences of storage tool calls *)

Lemma run_tool_step isoformat strftime job_id w c :
  numbered job_id (images_of w) ->
  let w' := run_tool isoformat strftime job_id w c in
  numbered job_id (images_of w')
  /\ (exists added, images_of w' = images_of w ++ added
                    /\ length added = if stores c then 1%nat else 0%nat)
  /\ forall name, is_Some (files w !! name) -> is_Some (files w' !! name).
Proof.
  intros Hn.
  destruct c as [source_path [data|] variation_type score attempts lc sb | status_data].
  - cbn [run_tool stores].
    pose proof (store_image_appends_numbered_step isoformat strftime job_id source_path
                  data variation_type score attempts lc sb w Hn) as H.
    exact H.
  - cbn [run_tool stores]. simpl. split; [exact Hn |].
    split; [exists []; rewrite app_nil_r; split; reflexivity |].
    intros name H. exact H.
  - cbn [run_tool stores]. simpl. split; [exact Hn |].
    split; [exists []; rewrite app_nil_r; split; reflexivity |].
    intros name H. exact H.
Qed.

(** Whatever sequence of [store_image] and [update_job_status] calls is
    made on a job directory whose manifest has consecutive ids, the ids stay
    consecutive, the image list only grows, by one entry per [store_image]
    call with an existing source, and no stored file disappears.  When the
    last call is an [update_job_status] and there is a manifest, the
    [images] list of [status.json] is the manifest's. *)
Theorem tool_calls_keep_ids_consecutive
    (isoformat strftime : nat -> string) (job_id : string)
    (calls : list tool_call) (w : world) :
  numbered job_id (images_of w) ->
  let w' := run_tools isoformat strftime job_id calls w in
  numbered job_id (images_of w')
  /\ (exists added, images_of w' = images_of w ++ added
                    /\ length added = length (List.filter stores calls))
  /\ (forall name, is_Some (files w !! name) -> is_Some (files w' !! name))
  /\ forall calls0 status_data,
       calls = calls0 ++ [UpdateJobStatus status_data] ->
       is_Some (manifest_json w') -> mirrored w'.
Proof.
  intros Hn w'. subst w'.
  assert (Hmain : numbered job_id (images_of (run_tools isoformat strftime job_id calls w))
                  /\ (exists added,
                         images_of (run_tools isoformat strftime job_id calls w)
                         = images_of w ++ added
                         /\ length added = length (List.filter stores calls))
                  /\ forall name, is_Some (files w !! name) ->
                       is_Some (files (run_tools isoformat strftime job_id calls w)
                                  !! name)).
  { revert w Hn. induction calls as [|c calls IH]; intros w Hn.
    - split; [exact Hn |]. split; [exists []; rewrite app_nil_r; split; reflexivity |].
      intros name H. exact H.
    - destruct (run_tool_step isoformat strftime job_id w c Hn)
        as (Hn1 & (added1 & Himg1 & Hlen1) & Hfiles1).
      destruct (IH _ Hn1) as (Hn2 & (added2 & Himg2 & Hlen2) & Hfiles2).
      unfold run_tools in *. cbn [foldl]. split; [exact Hn2 |]. split.
      + exists (added1 ++ added2). rewrite Himg2, Himg1, app_assoc.
        split; [reflexivity |]. rewrite length_app, Hlen1, Hlen2.
        simpl List.filter. destruct (stores c); reflexivity.
      + intros name H. apply Hfiles2, Hfiles1, H. }
  destruct Hmain as (H1 & H2 & H3).
  split; [exact H1 |]. split; [exact H2 |]. split; [exact H3 |].
  intros calls0 status_data -> Hm. unfold run_tools in *. rewrite foldl_app in *.
  cbn [foldl run_tool] in *.
  set (w1 := foldl (run_tool isoformat strftime job_id) w calls0) in *.
  unfold Storage.update_job_status, mirrored, images_of in *. cbv zeta in *.
  cbn [fst] in *. simpl manifest_json in *.
  destruct (manifest_json w1) as [m1|]; [| destruct Hm; discriminate].
  eexists. split; [reflexivity |]. simpl. apply lookup_insert_eq.
Qed.

Lemma tool_calls_keep_ids_consecutive_witness :
  let calls :=
    [ UpdateJobStatus {[ "status" := SLeaf (JStr "analyzing") ]};
      StoreImage "/tmp/aerial.png" (Some Sample.image) "aerial_view" 85 1 false None;
      StoreImage "/tmp/missing.png" None "night_scene" 70 3 true None;
      StoreImage "/tmp/corner.png" (Some Sample.image) "corner_view" 60 3 true None;
      UpdateJobStatus {[ "status" := SLeaf (JStr "complete") ]} ] in
  let w' := run_tools Sample.isoformat Sample.strftime "job7" calls empty_world in
  numbered "job7" (images_of empty_world)
  /\ numbered "job7" (images_of w')
  /\ length (images_of w') = 2%nat.
Proof.
  intros calls w'.
  assert (Hn : numbered "job7" (images_of empty_world)).
  { intros i e Hi. destruct i; discriminate Hi. }
  split; [exact Hn |].
  destruct (tool_calls_keep_ids_consecutive Sample.isoformat Sample.strftime "job7"
              calls empty_world Hn) as (Hn' & (added & Himg & Hlen) & _).
  split; [exact Hn' |].
  change (images_of w' = [] ++ added) in Himg. rewrite Himg. exact Hlen.
Defined.

(** ** The inspiration flow *)

Lemma progress_history_update isoformat (d : status_doc) w q :
  d !! "progress" = Some (SLeaf (JInt q)) ->
  progress_history (update_status isoformat d w) = progress_history w ++ [q]
  /\ progress_of (default ∅ (status_json (update_status isoformat d w))) = Some q.
Proof.
  intros Hd.
  assert (Hq : progress_of
            (<["updated_at" := SLeaf (JStr (isoformat (clock w)))]>
               (d ∪ default ∅ (status_json w))) = Some q).
  { unfold progress_of. rewrite lookup_insert_ne by discriminate.
    rewrite (lookup_union_Some_l _ _ _ _ Hd). reflexivity. }
  split; [| exact Hq]. unfold update_status.
  rewrite (progress_history_write _ _ _ Hq). reflexivity.
Qed.

Lemma progress_history_keep isoformat (d : status_doc) w q :
  d !! "progress" = None ->
  progress_of (default ∅ (status_json w)) = Some q ->
  progress_history (update_status isoformat d w) = progress_history w ++ [q].
Proof.
  intros Hd Hw.
  assert (Hq : progress_of
            (<["updated_at" := SLeaf (JStr (isoformat (clock w)))]>
               (d ∪ default ∅ (status_json w))) = Some q).
  { unfold progress_of in *. rewrite lookup_insert_ne by discriminate.
    rewrite (lookup_union_r _ _ _ Hd). exact Hw. }
  unfold update_status. rewrite (progress_history_write _ _ _ Hq). reflexivity.
Qed.

(** The inspiration flow reports the progress values 5, 20 and 30 and then
    ends in one of three ways.  Without an image from the synthesizer it
    writes the status [error] (progress still 30) and leaves manifest and
    files alone.  With an image but no inspiration file it stops with
    [FileNotFoundError] after the hero file was written: no manifest is
    written and the status stays at progress 30.  Otherwise it stores the
    hero and a copy of the inspiration image under one timestamp, writes a
    fresh manifest of type [inspiration_showcase] with an empty image list
    and ends with status [awaiting_approval] and progress 10, lower than
    the 30 reported before. *)
Theorem inspiration_flow_outcomes
    (isoformat strftime : nat -> string)
    (generate_hero_image : string -> option bytes -> option bytes)
    (style_transfer_prompt : string)
    (build_regeneration_prompt_with_feedback : string -> string -> string)
    (suburb_name job_id : string)
    (inspiration : option bytes) (inspiration_ext : string)
    (user_prompt feedback : option string) (w : world) :
  let r := InspirationHero.main isoformat strftime generate_hero_image
             style_transfer_prompt build_regeneration_prompt_with_feedback
             suburb_name job_id inspiration inspiration_ext user_prompt feedback w in
  let prompt :=
    if str_truthy feedback
    then build_regeneration_prompt_with_feedback style_transfer_prompt
           (default "" feedback)
    else style_transfer_prompt in
  let image := generate_hero_image prompt inspiration in
  let status := status_of (default ∅ (status_json r.1)) in
  (bytes_truthy image = false ->
     r.2 = None /\ status = Some "error"
     /\ progress_history r.1 = progress_history w ++ [5; 20; 30; 30]
     /\ manifest_json r.1 = manifest_json w /\ files r.1 = files w)
  /\ (bytes_truthy image = true -> inspiration = None ->
        r.2 = Some FileNotFoundError
        /\ status = Some (match feedback with
                          | Some _ => "regenerating_hero"
                          | None => "generating_inspiration_hero"
                          end)
        /\ progress_history r.1 = progress_history w ++ [5; 20; 30]
        /\ manifest_json r.1 = manifest_json w
        /\ exists hero_filename, files r.1 !! hero_filename = image)
  /\ (forall inspiration_data,
        bytes_truthy image = true -> inspiration = Some inspiration_data ->
        r.2 = None /\ status = Some "awaiting_approval"
        /\ progress_history r.1 = progress_history w ++ [5; 20; 30; 10]
        /\ images_of r.1 = []
        /\ (m_meta <$> manifest_json r.1) ≫= (.!! "type")
           = Some (JStr "inspiration_showcase")
        /\ exists timestamp,
             files r.1 !! ("hero_facade_" +:+ timestamp +:+ ".png") = image
             /\ files r.1 !! ("inspiration_" +:+ timestamp +:+ inspiration_ext)
                = Some inspiration_data).
Proof.
  intros r prompt image status. subst r status.
  unfold InspirationHero.main. cbv zeta. fold prompt. fold image.
  match goal with
  | |- context [update_status isoformat ?d30 (update_status isoformat ?d20
                  (update_status isoformat ?d5 w))] =>
      destruct (progress_history_update isoformat d5 w 5 eq_refl) as [H5 _];
      destruct (progress_history_update isoformat d20
                  (update_status isoformat d5 w) 20 eq_refl) as [H20 _];
      destruct (progress_history_update isoformat d30
                  (update_status isoformat d20 (update_status isoformat d5 w))
                  30 eq_refl) as [H30 Hp30];
      assert (Hst : status_of (default ∅ (status_json
                  (update_status isoformat d30 (update_status isoformat d20
                     (update_status isoformat d5 w)))))
                = Some (match feedback with
                        | Some _ => "regenerating_hero"
                        | None => "generating_inspiration_hero"
                        end));
      [| set (w3 := update_status isoformat d30 (update_status isoformat d20
                      (update_status isoformat d5 w))) in * ]
  end.
  { unfold status_of. simpl. rewrite lookup_insert_ne by discriminate.
    rewrite (lookup_union_r _ _ "status") by reflexivity.
    rewrite lookup_insert_ne by discriminate.
    rewrite (lookup_union_r _ _ "status") by reflexivity.
    rewrite lookup_insert_ne by discriminate.
    erewrite lookup_union_Some_l by reflexivity. destruct feedback; reflexivity. }
  assert (Hh3 : progress_history w3 = progress_history w ++ [5; 20; 30]).
  { rewrite H30, H20, H5, <- !app_assoc. reflexivity. }
  split; [| split].
  - intros Hvoid. rewrite Hvoid. simpl negb. cbv iota. cbn [fst snd].
    split; [reflexivity |]. split.
    + unfold status_of. simpl. rewrite lookup_insert_ne by discriminate.
      erewrite lookup_union_Some_l by reflexivity. reflexivity.
    + split; [| split; reflexivity].
      match goal with
      | |- progress_history (update_status isoformat ?d w3) = _ =>
          rewrite (progress_history_keep isoformat d w3 30 eq_refl Hp30)
      end.
      rewrite Hh3, <- app_assoc. reflexivity.
  - intros Himage ->. rewrite Himage. simpl negb. cbv iota. cbn [fst snd].
    split; [reflexivity |]. split; [exact Hst |]. split; [exact Hh3 |].
    split; [reflexivity |]. eexists. simpl.
    rewrite lookup_insert_eq. destruct image as [[|b l]|]; try discriminate.
    reflexivity.
  - intros inspiration_data Himage ->. rewrite Himage. simpl negb. cbv iota.
    cbn [fst snd]. split; [reflexivity |]. split.
    + unfold status_of. simpl. rewrite lookup_insert_ne by discriminate.
      erewrite lookup_union_Some_l by reflexivity. reflexivity.
    + split.
      * match goal with
        | |- progress_history (update_status isoformat ?d ?w0) = _ =>
            destruct (progress_history_update isoformat d w0 10 eq_refl) as [H10 _];
            rewrite H10
        end.
        change (progress_history w3 ++ [10] = progress_history w ++ [5; 20; 30; 10]).
        rewrite Hh3, <- app_assoc. reflexivity.
      * split; [reflexivity |]. split; [reflexivity |].
        exists (strftime (clock w3)). simpl. split.
        -- destruct (decide ("inspiration_" +:+ strftime (clock w3) +:+ inspiration_ext
                              = "hero_facade_" +:+ strftime (clock w3) +:+ ".png"))
             as [Heq | Hne]; [discriminate Heq |].
           rewrite lookup_insert_ne by exact Hne. rewrite lookup_insert_eq.
           destruct image as [[|b l]|]; try discriminate. reflexivity.
        -- apply lookup_insert_eq.
Qed.

Lemma inspiration_flow_outcomes_witness :
  let r := InspirationHero.main Sample.isoformat Sample.strftime
             (fun _ _ => Some Sample.image) "style prompt"
             (fun base feedback => base +:+ feedback) "balwyn" "job7"
             (Some Sample.image) ".jpg" (Some "two townhouses") None empty_world in
  bytes_truthy (Some Sample.image) = true
  /\ r.2 = None
  /\ progress_history r.1 = [5; 20; 30; 10]
  /\ nondecreasing (progress_history r.1) = false.
Proof.
  intros r.
  assert (Himage : bytes_truthy (Some Sample.image) = true) by reflexivity.
  split; [exact Himage |].
  destruct (proj2 (proj2 (inspiration_flow_outcomes Sample.isoformat Sample.strftime
              (fun _ _ => Some Sample.image) "style prompt"
              (fun base feedback => base +:+ feedback) "balwyn" "job7"
              (Some Sample.image) ".jpg" (Some "two townhouses") None empty_world))
              Sample.image Himage eq_refl)
    as (Hnone & _ & Hhist & _).
  fold r in Hnone, Hhist.
  split; [exact Hnone |]. split; [exact Hhist |]. rewrite Hhist. reflexivity.
Defined.
